(** * ArbiterAI: the client-side connection and dispatch engine

    Two clients speak the same WebSocket protocol to the execution
    backend:

    - the browser client, [AgentProvider.tsx] with its consumer
      [Home.tsx] (module [Browser] below);
    - the desktop shell, [electron-app/app.js] (module [Electron]).

    Each client is embedded as a state record holding the program's
    variables together with the part of the host environment the handlers
    act on (the sockets created so far, the timers registered so far, the
    frames handed to [ws.send], the console), and one function per source
    function or handler.  A [deliver] function hands one event of the
    event loop to its handler. *)

From Stdlib Require Import ZArith Lia.
From stdpp Require Import base list strings pretty.

Open Scope string_scope.
Open Scope list_scope.

Set Warnings "-register-all".

(** ** JavaScript values produced by [JSON.parse]

    Numbers are integers, as the step counters of the protocol are. *)

Inductive JSON : Type :=
| JNull
| JBool (b : bool)
| JNum (n : Z)
| JStr (s : string)
| JArr (items : list JSON)
| JObj (fields : list (string * JSON)).

(** A JavaScript value as read from a property: [None] is [undefined]. *)
Definition JSVal : Type := option JSON.

Fixpoint assoc (k : string) (fields : list (string * JSON)) : JSVal :=
  match fields with
  | [] => None
  | (k', v) :: rest => if (k =? k')%string then Some v else assoc k rest
  end.

(** [data.k] for a value that is not [null]: own properties of an object,
    [undefined] on everything else (none of the names read by the clients
    is a property of a number, string, boolean or array). *)
Definition member (k : string) (data : JSON) : JSVal :=
  match data with
  | JObj fields => assoc k fields
  | _ => None
  end.

(** [v === lit] for a string literal. *)
Definition is_str (v : JSVal) (lit : string) : bool :=
  match v with
  | Some (JStr s) => (s =? lit)%string
  | _ => false
  end.

(** JavaScript truthiness, as used by [cond ? a : b]. *)
Definition truthy (v : JSVal) : bool :=
  match v with
  | None | Some JNull => false
  | Some (JBool b) => b
  | Some (JNum n) => negb (n =? 0)%Z
  | Some (JStr s) => negb (s =? "")%string
  | Some (JArr _) | Some (JObj _) => true
  end.

(** ** Text

    A text is its sequence of bytes, UTF-8 for what is not ASCII. *)

Definition bytes (codes : list nat) : string :=
  fold_right (fun n s => String (Ascii.ascii_of_nat n) s) EmptyString codes.

(** The code points [String.prototype.trim] removes, WhiteSpace and
    LineTerminator of ECMAScript: TAB, LF, VT, FF, CR, SP, U+00A0,
    U+1680, U+2000 to U+200A, U+2028, U+2029, U+202F, U+205F, U+3000 and
    U+FEFF. *)
Definition white_space : list string :=
  map bytes
    ([[9]; [10]; [11]; [12]; [13]; [32]; [194; 160]; [225; 154; 128]]
     ++ map (fun n => [226; 128; n]) (seq 128 11)
     ++ [[226; 128; 168]; [226; 128; 169]; [226; 128; 175];
         [226; 129; 159]; [227; 128; 128]; [239; 187; 191]]).

(** The number of bytes of the white-space code point the text starts
    with, 0 when it starts with none. *)
Definition space_length (s : string) : nat :=
  match List.find (fun p => String.prefix p s) white_space with
  | Some p => String.length p
  | None => 0
  end.

(** A text made of white space only; [skip] counts the bytes left of the
    code point being passed over. *)
Fixpoint blank_from (skip : nat) (s : string) : bool :=
  match s with
  | EmptyString => true
  | String _ rest =>
      match skip with
      | S k => blank_from k rest
      | 0 =>
          match space_length s with
          | S k => blank_from k rest
          | 0 => false
          end
      end
  end.

Definition blank (s : string) : bool := blank_from 0 s.

Fixpoint trimStart_from (skip : nat) (s : string) : string :=
  match s with
  | EmptyString => EmptyString
  | String _ rest =>
      match skip with
      | S k => trimStart_from k rest
      | 0 =>
          match space_length s with
          | S k => trimStart_from k rest
          | 0 => s
          end
      end
  end.

Definition trimStart (s : string) : string := trimStart_from 0 s.

(** The text up to the first position from which only white space
    follows. *)
Fixpoint trimEnd (s : string) : string :=
  match s with
  | EmptyString => EmptyString
  | String c rest => if blank s then EmptyString else String c (trimEnd rest)
  end.

(** [String.prototype.trim]. *)
Definition trim (s : string) : string := trimEnd (trimStart s).

(** [JSON.stringify], for values whose strings need no escaping. *)
Definition quoted (s : string) : string :=
  let q := String (Ascii.ascii_of_nat 34) EmptyString in (q ++ s ++ q)%string.

Fixpoint join (sep : string) (l : list string) : string :=
  match l with
  | [] => ""
  | [x] => x
  | x :: rest => (x ++ sep ++ join sep rest)%string
  end.

Fixpoint stringify (d : JSON) : string :=
  match d with
  | JNull => "null"
  | JBool b => if b then "true" else "false"
  | JNum n => pretty n
  | JStr s => quoted s
  | JArr items => ("[" ++ join "," (map stringify items) ++ "]")%string
  | JObj fields =>
      ("{" ++ join "," (map (fun kv => (quoted (fst kv) ++ ":"
                                        ++ stringify (snd kv))%string) fields)
           ++ "}")%string
  end.

(** [WebSocket.readyState]. *)
Inductive ReadyState : Type := CONNECTING | OPEN | CLOSING | CLOSED.

Global Instance ReadyState_eq_dec : EqDecision ReadyState.
Proof. solve_decision. Defined.

(** [ws.close()]: starts the closing handshake of a socket that is not
    already closing or closed. *)
Definition closing (r : ReadyState) : ReadyState :=
  match r with
  | CONNECTING | OPEN => CLOSING
  | CLOSING | CLOSED => r
  end.

(** Console output: the message text of [console.log] / [console.error];
    the reconnect line of the browser client carries its two numbers. *)
Inductive Console : Type :=
| ConsoleLog (text : string)
| ConsoleError (text : string)
| ConsoleReconnecting (delay : Z) (attempt : nat).

(** The frames the clients send, as the objects given to
    [JSON.stringify]. *)
Definition prompt_frame (text : string) : JSON :=
  JObj [("type", JStr "prompt"); ("content", JStr text)].

Definition task_frame (text : string) : JSON :=
  JObj [("type", JStr "task"); ("content", JStr text)].

Definition ping_frame : JSON := JObj [("type", JStr "ping")].

(** Whether the result of [JSON.parse] is a value other than [null]
    whose [type] is one of [names]. *)
Definition frame_type_in (names : list string) (data : option JSON) : bool :=
  match data with
  | Some JNull | None => false
  | Some d => existsb (is_str (member "type" d)) names
  end.

(** ** The browser client: [AgentProvider.tsx] and [Home.tsx] *)

Module Browser.

(** [Message['type']]. *)
Inductive MessageType : Type := user | agent | result.

Global Instance MessageType_eq_dec : EqDecision MessageType.
Proof. solve_decision. Defined.

(** [interface Message].  The [id] (from [Math.random]) and the
    [timestamp] (from [new Date()]) that [addMessage] attaches are
    ambient values no handler reads back; they are left out.  The fields
    copied from a frame hold whatever the frame carried. *)
Record Message : Type := {
  type : MessageType;
  content : JSVal;
  step : JSVal;
  success : JSVal;
  stepNumber : JSVal;
  totalSteps : JSVal
}.

(** A call to [setTimeout]: its delay, and whether the callback is
    still due (neither run nor cancelled by [clearTimeout]). *)
Record Timeout : Type := { delay : Z; pending : bool }.

(** The provider's state and refs, the [input] state of [Home], and
    the environment: sockets and timeouts in order of creation (a
    handle is the position in the list), the frames given to [send]
    with the socket they were sent on, and the console. *)
Record State : Type := {
  status : JSVal;
  messages : list Message;
  isConnected : bool;
  wsRef : option nat;
  reconnectTimeoutRef : option nat;
  reconnectAttemptsRef : nat;
  input : string;
  sockets : list ReadyState;
  timeouts : list Timeout;
  sent : list (nat * JSON);
  console : list Console
}.

Definition maxReconnectAttempts : nat := 5.

Definition setStatus (v : JSVal) (s : State) : State :=
  {| status := v; messages := messages s; isConnected := isConnected s;
     wsRef := wsRef s; reconnectTimeoutRef := reconnectTimeoutRef s;
     reconnectAttemptsRef := reconnectAttemptsRef s; input := input s;
     sockets := sockets s; timeouts := timeouts s; sent := sent s;
     console := console s |}.

Definition setMessages (f : list Message -> list Message) (s : State) : State :=
  {| status := status s; messages := f (messages s); isConnected := isConnected s;
     wsRef := wsRef s; reconnectTimeoutRef := reconnectTimeoutRef s;
     reconnectAttemptsRef := reconnectAttemptsRef s; input := input s;
     sockets := sockets s; timeouts := timeouts s; sent := sent s;
     console := console s |}.

Definition setIsConnected (b : bool) (s : State) : State :=
  {| status := status s; messages := messages s; isConnected := b;
     wsRef := wsRef s; reconnectTimeoutRef := reconnectTimeoutRef s;
     reconnectAttemptsRef := reconnectAttemptsRef s; input := input s;
     sockets := sockets s; timeouts := timeouts s; sent := sent s;
     console := console s |}.

Definition set_wsRef (r : option nat) (s : State) : State :=
  {| status := status s; messages := messages s; isConnected := isConnected s;
     wsRef := r; reconnectTimeoutRef := reconnectTimeoutRef s;
     reconnectAttemptsRef := reconnectAttemptsRef s; input := input s;
     sockets := sockets s; timeouts := timeouts s; sent := sent s;
     console := console s |}.

Definition set_reconnectTimeoutRef (r : option nat) (s : State) : State :=
  {| status := status s; messages := messages s; isConnected := isConnected s;
     wsRef := wsRef s; reconnectTimeoutRef := r;
     reconnectAttemptsRef := reconnectAttemptsRef s; input := input s;
     sockets := sockets s; timeouts := timeouts s; sent := sent s;
     console := console s |}.

Definition set_reconnectAttemptsRef (n : nat) (s : State) : State :=
  {| status := status s; messages := messages s; isConnected := isConnected s;
     wsRef := wsRef s; reconnectTimeoutRef := reconnectTimeoutRef s;
     reconnectAttemptsRef := n; input := input s;
     sockets := sockets s; timeouts := timeouts s; sent := sent s;
     console := console s |}.

Definition setInput (text : string) (s : State) : State :=
  {| status := status s; messages := messages s; isConnected := isConnected s;
     wsRef := wsRef s; reconnectTimeoutRef := reconnectTimeoutRef s;
     reconnectAttemptsRef := reconnectAttemptsRef s; input := text;
     sockets := sockets s; timeouts := timeouts s; sent := sent s;
     console := console s |}.

Definition set_sockets (l : list ReadyState) (s : State) : State :=
  {| status := status s; messages := messages s; isConnected := isConnected s;
     wsRef := wsRef s; reconnectTimeoutRef := reconnectTimeoutRef s;
     reconnectAttemptsRef := reconnectAttemptsRef s; input := input s;
     sockets := l; timeouts := timeouts s; sent := sent s;
     console := console s |}.

Definition set_timeouts (l : list Timeout) (s : State) : State :=
  {| status := status s; messages := messages s; isConnected := isConnected s;
     wsRef := wsRef s; reconnectTimeoutRef := reconnectTimeoutRef s;
     reconnectAttemptsRef := reconnectAttemptsRef s; input := input s;
     sockets := sockets s; timeouts := l; sent := sent s;
     console := console s |}.

Definition set_sent (l : list (nat * JSON)) (s : State) : State :=
  {| status := status s; messages := messages s; isConnected := isConnected s;
     wsRef := wsRef s; reconnectTimeoutRef := reconnectTimeoutRef s;
     reconnectAttemptsRef := reconnectAttemptsRef s; input := input s;
     sockets := sockets s; timeouts := timeouts s; sent := l;
     console := console s |}.

Definition print (c : Console) (s : State) : State :=
  {| status := status s; messages := messages s; isConnected := isConnected s;
     wsRef := wsRef s; reconnectTimeoutRef := reconnectTimeoutRef s;
     reconnectAttemptsRef := reconnectAttemptsRef s; input := input s;
     sockets := sockets s; timeouts := timeouts s; sent := sent s;
     console := console s ++ [c] |}.

(** The environment's side of [new WebSocket], [ws.close()],
    [ws.send], [setTimeout] and [clearTimeout]. *)
Definition setTimeout (d : Z) (s : State) : nat * State :=
  (length (timeouts s),
   set_timeouts (timeouts s ++ [{| delay := d; pending := true |}]) s).

Definition cancelled (t : Timeout) : Timeout :=
  {| delay := delay t; pending := false |}.

Definition clearTimeout (h : nat) (s : State) : State :=
  set_timeouts (alter cancelled h (timeouts s)) s.

Definition ws_close (ws : nat) (s : State) : State :=
  set_sockets (alter closing ws (sockets s)) s.

Definition ws_send (ws : nat) (frame : JSON) (s : State) : State :=
  set_sent (sent s ++ [(ws, frame)]) s.

Definition readyState (ws : nat) (s : State) : option ReadyState :=
  sockets s !! ws.

(** [addMessage]. *)
Definition addMessage (m : Message) (s : State) : State :=
  setMessages (fun prev => prev ++ [m]) s.

Definition note (t : MessageType) (text : string) : Message :=
  {| type := t; content := Some (JStr text); step := None;
     success := None; stepNumber := None; totalSteps := None |}.

Definition connection_lost : Message :=
  note agent "❌ Connection lost. Please refresh the page to reconnect.".

Definition not_connected : Message :=
  note agent "❌ Not connected to server. Please wait for reconnection...".

(** [connect]: the constructor is taken to succeed, as it does for the
    default [wsUrl]; the new socket starts CONNECTING and becomes
    [wsRef.current]. *)
Definition connect (s : State) : State :=
  set_wsRef (Some (length (sockets s)))
    (set_sockets (sockets s ++ [CONNECTING]) s).

(** [ws.onopen]. *)
Definition onopen (s : State) : State :=
  set_reconnectAttemptsRef 0
    (setIsConnected true (print (ConsoleLog "WebSocket connected") s)).

(** The callback given to [setTimeout] in [ws.onclose]. *)
Definition reconnect (s : State) : State :=
  connect (set_reconnectAttemptsRef (S (reconnectAttemptsRef s)) s).

(** [Math.min(1000 * Math.pow(2, attempts), 10000)]. *)
Definition backoff (attempts : nat) : Z :=
  Z.min (1000 * 2 ^ Z.of_nat attempts) 10000.

(** [ws.onclose]. *)
Definition onclose (s : State) : State :=
  let s := set_wsRef None
             (setIsConnected false
                (print (ConsoleLog "WebSocket disconnected") s)) in
  if (reconnectAttemptsRef s <? maxReconnectAttempts)%nat then
    let d := backoff (reconnectAttemptsRef s) in
    let s := print (ConsoleReconnecting d (reconnectAttemptsRef s + 1)) s in
    let '(h, s) := setTimeout d s in
    set_reconnectTimeoutRef (Some h) s
  else
    addMessage connection_lost s.

(** [ws.onerror]. *)
Definition onerror (s : State) : State :=
  print (ConsoleError "WebSocket error:") s.

(** The cleanup returned by the effect. *)
Definition cleanup (s : State) : State :=
  let s := match reconnectTimeoutRef s with
           | Some h => clearTimeout h s
           | None => s
           end in
  match wsRef s with
  | Some ws => ws_close ws s
  | None => s
  end.

(** [wsRef.current && wsRef.current.readyState === WebSocket.OPEN]:
    the open socket, if any. *)
Definition open_socket (s : State) : option nat :=
  match wsRef s with
  | Some ws =>
      if bool_decide (readyState ws s = Some OPEN) then Some ws else None
  | None => None
  end.

(** [sendPrompt]. *)
Definition sendPrompt (prompt : string) (s : State) : State :=
  match open_socket s with
  | None => addMessage not_connected s
  | Some ws =>
      ws_send ws (prompt_frame prompt) (addMessage (note user prompt) s)
  end.

(** [clearMessages]. *)
Definition clearMessages (s : State) : State :=
  setMessages (fun _ => []) s.

(** [handleSubmit] of [Home]. *)
Definition handleSubmit (s : State) : State :=
  if negb (trim (input s) =? "")%string && is_str (status s) "idle" then
    setInput "" (sendPrompt (trim (input s)) s)
  else s.

(** The [switch (data.type)] of [ws.onmessage], for [data] other than
    [null]. *)
Definition dispatch (d : JSON) (s : State) : State :=
  let t := member "type" d in
  if is_str t "status" then
    setStatus (member "content" d) s
  else if is_str t "agent" then
    addMessage {| type := agent; content := member "content" d;
                  step := None; success := None;
                  stepNumber := None; totalSteps := None |} s
  else if is_str t "result" then
    addMessage {| type := result; content := member "content" d;
                  step := member "step" d;
                  success := member "success" d;
                  stepNumber := member "stepNumber" d;
                  totalSteps := member "totalSteps" d |} s
  else print (ConsoleLog "Unknown message type:") s.

Section Dispatch.

(** [JSON.parse]: [None] when it throws. *)
Variable JSON_parse : string -> option JSON.

(** [ws.onmessage].  Reading [data.type] of [null] throws inside the
    [try] and ends in the same [catch] as a failed parse. *)
Definition onmessage (data : string) (s : State) : State :=
  match JSON_parse data with
  | None | Some JNull =>
      print (ConsoleError "Error parsing WebSocket message:") s
  | Some d => dispatch d s
  end.

(** One turn of the event loop.  Socket events name the socket they
    fire on; the transport fires [open] only on a CONNECTING socket,
    [message] only on an OPEN one and [close] once per socket.
    [WsClosing] is the closing handshake started by the server on an OPEN
    socket: its [readyState] becomes CLOSING and no handler runs until
    the [close] event follows. *)
Inductive Event : Type :=
| WsOpen (ws : nat)
| WsMessage (ws : nat) (data : string)
| WsError (ws : nat)
| WsClosing (ws : nat)
| WsClose (ws : nat)
| TimeoutFires (h : nat)
| Mount
| Cleanup
| SendPrompt (prompt : string)
| ClearMessages
| Type_ (text : string)
| Submit.

Definition deliver (s : State) (e : Event) : State :=
  match e with
  | WsOpen ws =>
      if bool_decide (readyState ws s = Some CONNECTING) then
        onopen (set_sockets (<[ws := OPEN]> (sockets s)) s)
      else s
  | WsMessage ws data =>
      if bool_decide (readyState ws s = Some OPEN) then onmessage data s
      else s
  | WsError ws =>
      match readyState ws s with
      | Some CONNECTING | Some OPEN | Some CLOSING => onerror s
      | Some CLOSED | None => s
      end
  | WsClosing ws =>
      if bool_decide (readyState ws s = Some OPEN) then
        set_sockets (<[ws := CLOSING]> (sockets s)) s
      else s
  | WsClose ws =>
      match readyState ws s with
      | Some CONNECTING | Some OPEN | Some CLOSING =>
          onclose (set_sockets (<[ws := CLOSED]> (sockets s)) s)
      | Some CLOSED | None => s
      end
  | TimeoutFires h =>
      match timeouts s !! h with
      | Some t =>
          if pending t then
            reconnect (set_timeouts (<[h := cancelled t]> (timeouts s)) s)
          else s
      | None => s
      end
  | Mount => connect s
  | Cleanup => cleanup s
  | SendPrompt prompt => sendPrompt prompt s
  | ClearMessages => clearMessages s
  | Type_ text => setInput text s
  | Submit => handleSubmit s
  end.

Definition run (s : State) (events : list Event) : State :=
  fold_left deliver events s.

End Dispatch.

(** The state of the first render, before the effect runs. *)
Definition init : State :=
  {| status := Some (JStr "idle"); messages := []; isConnected := false;
     wsRef := None; reconnectTimeoutRef := None;
     reconnectAttemptsRef := 0; input := "";
     sockets := []; timeouts := []; sent := []; console := [] |}.

(** The state once the effect has run [connect()]. *)
Definition start : State := connect init.

(** The state with the console emptied: everything a handler or the
    presentation layer can observe. *)
Definition quiet (s : State) : State :=
  {| status := status s; messages := messages s; isConnected := isConnected s;
     wsRef := wsRef s; reconnectTimeoutRef := reconnectTimeoutRef s;
     reconnectAttemptsRef := reconnectAttemptsRef s; input := input s;
     sockets := sockets s; timeouts := timeouts s; sent := sent s;
     console := [] |}.

(** The delays of all [setTimeout] calls so far, oldest first. *)
Definition scheduled (s : State) : list Z := map delay (timeouts s).

(** The sockets that have closed so far. *)
Definition closes (s : State) : nat :=
  length (filter (fun r => r = CLOSED) (sockets s)).

(** The delays of the five permitted attempts. *)
Definition backoff_delays : list Z :=
  map backoff (seq 0 maxReconnectAttempts).

(** A run without a successful reopen: no socket opens, and the provider
    is neither torn down nor mounted again. *)
Definition no_reopen (e : Event) : bool :=
  match e with
  | WsOpen _ | Mount | Cleanup => false
  | _ => true
  end.

(** One live socket, the newest; every older socket closed; no timeout
    due; the attempt counter at zero.  This is the state after the first
    [connect()] and after every successful open that follows a retry. *)
Definition Stable (s : State) : Prop :=
  (exists k r, r <> CLOSED /\ sockets s = replicate k CLOSED ++ [r])
  /\ Forall (fun t => pending t = false) (timeouts s)
  /\ reconnectAttemptsRef s = 0.

(** The timeouts of the first [n] attempts, all of them run. *)
Definition fired (n : nat) : list Timeout :=
  map (fun d => {| delay := d; pending := false |}) (take n backoff_delays).

(** Where a run without reopen can be, [n] retries after a stable state
    with [k] closed sockets and the timeouts [old]: connected or
    connecting on the newest socket, waiting for the timeout of attempt
    [n] to fire, or given up. *)
Inductive Retrying (old : list Timeout) (k : nat) (s : State) : Prop :=
| Live (n : nat) (r : ReadyState) :
    n <= 5 -> r <> CLOSED ->
    sockets s = replicate (k + n) CLOSED ++ [r] ->
    timeouts s = old ++ fired n ->
    reconnectAttemptsRef s = n ->
    Retrying old k s
| Waiting (n : nat) :
    n < 5 ->
    sockets s = replicate (k + S n) CLOSED ->
    timeouts s = old ++ fired n ++ [{| delay := backoff n; pending := true |}] ->
    reconnectAttemptsRef s = n ->
    Retrying old k s
| GivenUp :
    sockets s = replicate (k + 6) CLOSED ->
    timeouts s = old ++ fired 5 ->
    reconnectAttemptsRef s = 5 ->
    Retrying old k s.

(** Whether an event is the arrival of a decodable [status] frame. *)
Definition status_frame (JSON_parse : string -> option JSON) (e : Event) : bool :=
  match e with
  | WsMessage _ data => frame_type_in ["status"] (JSON_parse data)
  | _ => false
  end.

(** The states the provider can be in: those some sequence of events
    leads to from the first render. *)
Definition reachable (JSON_parse : string -> option JSON) (s : State) : Prop :=
  exists events, s = run JSON_parse init events.

End Browser.

(** ** The desktop shell: [electron-app/app.js] *)

Module Electron.

(** What a message [div] shows: the renderer that filled [innerHTML]
    and the values it was given (the markup itself belongs to the
    presentation layer). *)
Inductive Body : Type :=
| Escaped (content : string)
| Formatted (content : JSVal)
| StatusLine (content : JSVal)
| StepReport (stepNumber totalSteps step output error : JSVal).

Record MessageDiv : Type := { className : string; innerHTML : Body }.

(** The two callbacks given to [setInterval]. *)
Inductive Callback : Type := Reconnect | Heartbeat.

Global Instance Callback_eq_dec : EqDecision Callback.
Proof. solve_decision. Defined.

(** A call to [setInterval]: its period, its callback, and whether it
    is still running (not cancelled by [clearInterval]). *)
Record Interval : Type := {
  period : Z;
  callback : Callback;
  active : bool
}.

(** The script's variables [ws] and [reconnectInterval], the DOM
    elements it writes ([messagesContainer]'s children, the class
    suffix of [statusDot], the text of [statusText], the value of
    [messageInput]), and the environment as in [Browser.State]. *)
Record State : Type := {
  ws : option nat;
  reconnectInterval : option nat;
  messagesContainer : list MessageDiv;
  statusDot : string;
  statusText : string;
  messageInput : string;
  sockets : list ReadyState;
  intervals : list Interval;
  sent : list (nat * JSON);
  console : list Console
}.

Definition set_ws (r : option nat) (s : State) : State :=
  {| ws := r; reconnectInterval := reconnectInterval s;
     messagesContainer := messagesContainer s;
     statusDot := statusDot s; statusText := statusText s;
     messageInput := messageInput s; sockets := sockets s;
     intervals := intervals s; sent := sent s; console := console s |}.

Definition set_reconnectInterval (r : option nat) (s : State) : State :=
  {| ws := ws s; reconnectInterval := r;
     messagesContainer := messagesContainer s;
     statusDot := statusDot s; statusText := statusText s;
     messageInput := messageInput s; sockets := sockets s;
     intervals := intervals s; sent := sent s; console := console s |}.

Definition appendChild (d : MessageDiv) (s : State) : State :=
  {| ws := ws s; reconnectInterval := reconnectInterval s;
     messagesContainer := messagesContainer s ++ [d];
     statusDot := statusDot s; statusText := statusText s;
     messageInput := messageInput s; sockets := sockets s;
     intervals := intervals s; sent := sent s; console := console s |}.

Definition set_messageInput (text : string) (s : State) : State :=
  {| ws := ws s; reconnectInterval := reconnectInterval s;
     messagesContainer := messagesContainer s;
     statusDot := statusDot s; statusText := statusText s;
     messageInput := text; sockets := sockets s;
     intervals := intervals s; sent := sent s; console := console s |}.

Definition set_sockets (l : list ReadyState) (s : State) : State :=
  {| ws := ws s; reconnectInterval := reconnectInterval s;
     messagesContainer := messagesContainer s;
     statusDot := statusDot s; statusText := statusText s;
     messageInput := messageInput s; sockets := l;
     intervals := intervals s; sent := sent s; console := console s |}.

Definition set_intervals (l : list Interval) (s : State) : State :=
  {| ws := ws s; reconnectInterval := reconnectInterval s;
     messagesContainer := messagesContainer s;
     statusDot := statusDot s; statusText := statusText s;
     messageInput := messageInput s; sockets := sockets s;
     intervals := l; sent := sent s; console := console s |}.

Definition set_sent (l : list (nat * JSON)) (s : State) : State :=
  {| ws := ws s; reconnectInterval := reconnectInterval s;
     messagesContainer := messagesContainer s;
     statusDot := statusDot s; statusText := statusText s;
     messageInput := messageInput s; sockets := sockets s;
     intervals := intervals s; sent := l; console := console s |}.

Definition print (c : Console) (s : State) : State :=
  {| ws := ws s; reconnectInterval := reconnectInterval s;
     messagesContainer := messagesContainer s;
     statusDot := statusDot s; statusText := statusText s;
     messageInput := messageInput s; sockets := sockets s;
     intervals := intervals s; sent := sent s;
     console := console s ++ [c] |}.

(** [updateStatus]. *)
Definition updateStatus (status text : string) (s : State) : State :=
  {| ws := ws s; reconnectInterval := reconnectInterval s;
     messagesContainer := messagesContainer s;
     statusDot := status; statusText := text;
     messageInput := messageInput s; sockets := sockets s;
     intervals := intervals s; sent := sent s; console := console s |}.

(** The environment's side of [setInterval], [clearInterval],
    [ws.send] and [ws.readyState]. *)
Definition setInterval (cb : Callback) (ms : Z) (s : State) : nat * State :=
  (length (intervals s),
   set_intervals
     (intervals s ++ [{| period := ms; callback := cb; active := true |}]) s).

Definition stopped (i : Interval) : Interval :=
  {| period := period i; callback := callback i; active := false |}.

Definition clearInterval (h : option nat) (s : State) : State :=
  match h with
  | Some h => set_intervals (alter stopped h (intervals s)) s
  | None => s
  end.

Definition ws_send (sock : nat) (frame : JSON) (s : State) : State :=
  set_sent (sent s ++ [(sock, frame)]) s.

Definition readyState (sock : nat) (s : State) : option ReadyState :=
  sockets s !! sock.

(** [ws && ws.readyState === WebSocket.OPEN]: the open socket, if any. *)
Definition open_socket (s : State) : option nat :=
  match ws s with
  | Some sock =>
      if bool_decide (readyState sock s = Some OPEN) then Some sock else None
  | None => None
  end.

(** [connect]: the constructor succeeds for the fixed URL. *)
Definition connect (s : State) : State :=
  set_ws (Some (length (sockets s)))
    (set_sockets (sockets s ++ [CONNECTING]) s).

(** [ws.onopen]. *)
Definition onopen (s : State) : State :=
  clearInterval (reconnectInterval s)
    (updateStatus "connected" "Connected"
       (print (ConsoleLog "Connected to ArbiterAI") s)).

(** [ws.onerror]. *)
Definition onerror (s : State) : State :=
  updateStatus "disconnected" "Connection error"
    (print (ConsoleError "WebSocket error:") s).

(** [ws.onclose]. *)
Definition onclose (s : State) : State :=
  let s := updateStatus "disconnected" "Disconnected"
             (print (ConsoleLog "Disconnected from ArbiterAI") s) in
  let '(h, s) := setInterval Reconnect 3000 s in
  set_reconnectInterval (Some h) s.

(** The callback of the reconnect interval. *)
Definition reconnect (s : State) : State :=
  connect (updateStatus "connecting" "Reconnecting..." s).

(** The callback of the 30 second interval at the end of the script. *)
Definition heartbeat (s : State) : State :=
  match open_socket s with
  | Some sock => ws_send sock ping_frame s
  | None => s
  end.

Definition addUserMessage (content : string) (s : State) : State :=
  appendChild {| className := "message user";
                 innerHTML := Escaped content |} s.

Definition addAgentMessage (content : JSVal) (s : State) : State :=
  appendChild {| className := "message agent";
                 innerHTML := Formatted content |} s.

Definition addStatusMessage (content : JSVal) (s : State) : State :=
  appendChild {| className := "message status";
                 innerHTML := StatusLine content |} s.

Definition addResultMessage (data : JSON) (s : State) : State :=
  appendChild
    {| className := if truthy (member "success" data)
                    then "message agent" else "message error";
       innerHTML := StepReport (member "stepNumber" data)
                      (member "totalSteps" data) (member "step" data)
                      (member "output" data) (member "error" data) |} s.

Definition addReflectionMessage (data : JSON) (s : State) : State :=
  appendChild {| className := "message agent";
                 innerHTML := Formatted (member "content" data) |} s.

Definition addCompleteMessage (data : JSON) (s : State) : State :=
  appendChild {| className := "message agent";
                 innerHTML := Formatted (member "content" data) |} s.

(** The [switch (messageType)] of [handleMessage]. *)
Definition dispatch (data : JSON) (s : State) : State :=
  let messageType := member "type" data in
  if is_str messageType "status" then
    addStatusMessage (member "content" data) s
  else if is_str messageType "agent" then
    addAgentMessage (member "content" data) s
  else if is_str messageType "result" then
    addResultMessage data s
  else if is_str messageType "reflection" then
    addReflectionMessage data s
  else if is_str messageType "complete" then
    addCompleteMessage data s
  else if is_str messageType "pong" then
    print (ConsoleLog "Pong received") s
  else print (ConsoleLog "Unknown message type:") s.

(** [handleMessage]; [None] when it throws, which it does on [null]
    at [data.type], before anything is written. *)
Definition handleMessage (data : JSON) (s : State) : option State :=
  match data with
  | JNull => None
  | _ => Some (dispatch data s)
  end.

(** [sendMessage]. *)
Definition sendMessage (s : State) : State :=
  let message := trim (messageInput s) in
  if (message =? "")%string then s
  else
    match open_socket s with
    | None => s
    | Some sock =>
        set_messageInput ""
          (ws_send sock (task_frame message) (addUserMessage message s))
    end.

Section Dispatch.

(** [JSON.parse]: [None] when it throws. *)
Variable JSON_parse : string -> option JSON.

(** [ws.onmessage]. *)
Definition onmessage (data : string) (s : State) : State :=
  match JSON_parse data with
  | None => print (ConsoleError "Error parsing message:") s
  | Some d =>
      match handleMessage d s with
      | Some s' => s'
      | None => print (ConsoleError "Error parsing message:") s
      end
  end.

(** One turn of the event loop, with the transport behaving as for
    the browser client. *)
Inductive Event : Type :=
| WsOpen (sock : nat)
| WsMessage (sock : nat) (data : string)
| WsError (sock : nat)
| WsClosing (sock : nat)
| WsClose (sock : nat)
| IntervalFires (h : nat)
| Type_ (text : string)
| Send.

Definition deliver (s : State) (e : Event) : State :=
  match e with
  | WsOpen sock =>
      if bool_decide (readyState sock s = Some CONNECTING) then
        onopen (set_sockets (<[sock := OPEN]> (sockets s)) s)
      else s
  | WsMessage sock data =>
      if bool_decide (readyState sock s = Some OPEN) then onmessage data s
      else s
  | WsError sock =>
      match readyState sock s with
      | Some CONNECTING | Some OPEN | Some CLOSING => onerror s
      | Some CLOSED | None => s
      end
  | WsClosing sock =>
      if bool_decide (readyState sock s = Some OPEN) then
        set_sockets (<[sock := CLOSING]> (sockets s)) s
      else s
  | WsClose sock =>
      match readyState sock s with
      | Some CONNECTING | Some OPEN | Some CLOSING =>
          onclose (set_sockets (<[sock := CLOSED]> (sockets s)) s)
      | Some CLOSED | None => s
      end
  | IntervalFires h =>
      match intervals s !! h with
      | Some i =>
          if active i then
            match callback i with
            | Reconnect => reconnect s
            | Heartbeat => heartbeat s
            end
          else s
      | None => s
      end
  | Type_ text => set_messageInput text s
  | Send => sendMessage s
  end.

Definition run (s : State) (events : list Event) : State :=
  fold_left deliver events s.

End Dispatch.

(** The page before the script runs. *)
Definition blank : State :=
  {| ws := None; reconnectInterval := None; messagesContainer := [];
     statusDot := ""; statusText := ""; messageInput := "";
     sockets := []; intervals := []; sent := []; console := [] |}.

(** The top level of the script: [connect()], then the heartbeat
    [setInterval(..., 30000)]. *)
Definition init : State :=
  snd (setInterval Heartbeat 30000 (connect blank)).

Definition quiet (s : State) : State :=
  {| ws := ws s; reconnectInterval := reconnectInterval s;
     messagesContainer := messagesContainer s;
     statusDot := statusDot s; statusText := statusText s;
     messageInput := messageInput s; sockets := sockets s;
     intervals := intervals s; sent := sent s; console := [] |}.

(** The periods of the reconnect intervals registered so far. *)
Definition scheduled (s : State) : list Z :=
  map period
    (filter (fun i => callback i = Reconnect) (intervals s)).

(** The interval registered by the last statement of the script. *)
Definition heartbeat_interval : Interval :=
  {| period := 30000; callback := Heartbeat; active := true |}.

(** The heartbeat is the first interval and is running, and the handle
    kept in [reconnectInterval] is not the heartbeat's. *)
Definition heartbeat_running (s : State) : Prop :=
  intervals s !! 0 = Some heartbeat_interval
  /\ reconnectInterval s <> Some 0.

End Electron.

(** ** Sample frames

    [JSON.parse] is a parameter of both dispatchers.  The examples run
    them with its restriction to the frames below: the text produced by
    [stringify] parses back to the value, and the text of [garbage] makes
    it throw. *)

Definition frame (type : string) (fields : list (string * JSON)) : JSON :=
  JObj (("type", JStr type) :: fields).

Definition samples : list JSON :=
  [ frame "status" [("content", JStr "idle")];
    frame "status" [("content", JStr "planning")];
    frame "status" [("content", JStr "executing")];
    frame "status" [("content", JStr "paused")];
    frame "agent" [("content", JStr "hello")];
    frame "result" [("content", JStr "done"); ("step", JStr "ls");
                    ("success", JBool true); ("stepNumber", JNum 1);
                    ("totalSteps", JNum 3)];
    frame "reflection" [("content", JStr "retrying")];
    frame "complete" [("content", JStr "finished")];
    frame "pong" [];
    frame "future" [];
    JNull ].

Definition garbage : string := "<html>502 Bad Gateway</html>".

Definition agent_hello : string :=
  stringify (frame "agent" [("content", JStr "hello")]).

Definition status_paused : string :=
  stringify (frame "status" [("content", JStr "paused")]).

Definition status_executing : string :=
  stringify (frame "status" [("content", JStr "executing")]).

Definition status_idle : string :=
  stringify (frame "status" [("content", JStr "idle")]).

Definition reflection_retrying : string :=
  stringify (frame "reflection" [("content", JStr "retrying")]).

Definition complete_finished : string :=
  stringify (frame "complete" [("content", JStr "finished")]).

Definition pong : string := stringify (frame "pong" []).

Definition sample_parse (text : string) : option JSON :=
  find (fun d => (stringify d =? text)%string) samples.


(** ** Vocabulary of the comparisons

    Operations on the dispatcher and the gate alone. *)

Inductive Op : Type :=
| Inbound (data : string)
| Prompt (text : string).

Definition browser_perform (JSON_parse : string -> option JSON)
    (s : Browser.State) (op : Op) : Browser.State :=
  match op with
  | Inbound data => Browser.onmessage JSON_parse data s
  | Prompt text => Browser.sendPrompt text s
  end.

Definition electron_perform (JSON_parse : string -> option JSON)
    (s : Electron.State) (op : Op) : Electron.State :=
  match op with
  | Inbound data => Electron.onmessage JSON_parse data s
  | Prompt text => Electron.sendMessage (Electron.set_messageInput text s)
  end.

Fixpoint count (p : Op -> bool) (ops : list Op) : nat :=
  match ops with
  | [] => 0
  | op :: rest => (if p op then 1 else 0) + count p rest
  end.

(** An inbound frame whose decoded [type] is one of [names]. *)
Definition inbound_of (JSON_parse : string -> option JSON)
    (names : list string) (op : Op) : bool :=
  match op with
  | Inbound data => frame_type_in names (JSON_parse data)
  | Prompt _ => false
  end.

Definition is_prompt (op : Op) : bool :=
  match op with
  | Prompt _ => true
  | Inbound _ => false
  end.

Definition nonblank_prompt (op : Op) : bool :=
  match op with
  | Prompt text => negb (trim text =? "")%string
  | Inbound _ => false
  end.

(** The log length the protocol description gives for a sequence of
    operations on a connected, idle session: one entry per [agent],
    [result], [reflection] or [complete] frame and one per submission. *)
Definition described_log_length (JSON_parse : string -> option JSON)
    (ops : list Op) : nat :=
  count (inbound_of JSON_parse ["agent"; "result"; "reflection"; "complete"]) ops
  + count is_prompt ops.

(** The two clients driven by the same inputs: what happens to the
    newest socket, the reconnect timer coming due, the user submitting a
    text, and the 30 second timer coming due. *)
Inductive Input : Type :=
| Opens
| Closes
| Receives (data : string)
| RetryDue
| Submits (text : string)
| HeartbeatDue.

Definition browser_events (s : Browser.State) (i : Input)
    : list Browser.Event :=
  let newest := pred (length (Browser.sockets s)) in
  match i with
  | Opens => [Browser.WsOpen newest]
  | Closes => [Browser.WsClose newest]
  | Receives data => [Browser.WsMessage newest data]
  | RetryDue =>
      match Browser.reconnectTimeoutRef s with
      | Some h => [Browser.TimeoutFires h]
      | None => []
      end
  | Submits text => [Browser.Type_ text; Browser.Submit]
  | HeartbeatDue => []
  end.

Definition electron_events (s : Electron.State) (i : Input)
    : list Electron.Event :=
  let newest := pred (length (Electron.sockets s)) in
  match i with
  | Opens => [Electron.WsOpen newest]
  | Closes => [Electron.WsClose newest]
  | Receives data => [Electron.WsMessage newest data]
  | RetryDue =>
      match Electron.reconnectInterval s with
      | Some h => [Electron.IntervalFires h]
      | None => []
      end
  | Submits text => [Electron.Type_ text; Electron.Send]
  | HeartbeatDue => [Electron.IntervalFires 0]
  end.

Definition browser_drive (JSON_parse : string -> option JSON)
    (s : Browser.State) (inputs : list Input) : Browser.State :=
  fold_left (fun s i => Browser.run JSON_parse s (browser_events s i)) inputs s.

Definition electron_drive (JSON_parse : string -> option JSON)
    (s : Electron.State) (inputs : list Input) : Electron.State :=
  fold_left (fun s i => Electron.run JSON_parse s (electron_events s i)) inputs s.

(** What an outside observer of a client sees: the reconnect delays it
    asked for, the length of its log, and the frames it sent. *)
Record Observation : Type := {
  delays : list Z;
  log_length : nat;
  frames : list JSON
}.

Definition browser_observe (s : Browser.State) : Observation :=
  {| delays := Browser.scheduled s;
     log_length := length (Browser.messages s);
     frames := map snd (Browser.sent s) |}.

Definition electron_observe (s : Electron.State) : Observation :=
  {| delays := Electron.scheduled s;
     log_length := length (Electron.messagesContainer s);
     frames := map snd (Electron.sent s) |}.

(** The two clients behave alike on every sequence of inputs. *)
Definition implementations_match (JSON_parse : string -> option JSON) : Prop :=
  forall inputs,
    browser_observe (browser_drive JSON_parse Browser.start inputs)
    = electron_observe (electron_drive JSON_parse Electron.init inputs).

(** The inputs on which they do: a socket opening, and inbound frames
    other than [status], [reflection] and [complete]. *)
Definition common_input (JSON_parse : string -> option JSON) (i : Input) : bool :=
  match i with
  | Opens => true
  | Receives data =>
      negb (frame_type_in ["status"; "reflection"; "complete"] (JSON_parse data))
  | _ => false
  end.

(** The relation kept between the two clients while only common inputs
    arrive. *)
Definition alike (sb : Browser.State) (se : Electron.State) : Prop :=
  Browser.sockets sb = Electron.sockets se
  /\ Electron.reconnectInterval se = None
  /\ Browser.scheduled sb = Electron.scheduled se
  /\ length (Browser.messages sb) = length (Electron.messagesContainer se)
  /\ Browser.sent sb = Electron.sent se.

(** Five closes in a row, each retry timer firing in between. *)
Definition five_failures : list Browser.Event :=
  [Browser.WsClose 0; Browser.TimeoutFires 0;
   Browser.WsClose 1; Browser.TimeoutFires 1;
   Browser.WsClose 2; Browser.TimeoutFires 2;
   Browser.WsClose 3; Browser.TimeoutFires 3;
   Browser.WsClose 4].

(** ** What [Home] shows *)

Module Home.

(** [getStatusColor]. *)
Definition getStatusColor (s : Browser.State) : string :=
  if is_str (Browser.status s) "planning" then "bg-blue-500"
  else if is_str (Browser.status s) "executing" then "bg-yellow-500"
  else if is_str (Browser.status s) "idle" then
    if Browser.isConnected s then "bg-green-500" else "bg-red-500"
  else "bg-gray-500".

(** [getStatusText]. *)
Definition getStatusText (s : Browser.State) : string :=
  if negb (Browser.isConnected s) then "Disconnected"
  else if is_str (Browser.status s) "planning" then "Planning..."
  else if is_str (Browser.status s) "executing" then "Executing..."
  else if is_str (Browser.status s) "idle" then "Ready"
  else "Unknown".

(** The [placeholder] of the input field. *)
Definition placeholder (s : Browser.State) : string :=
  if negb (Browser.isConnected s) then "Connecting to server..."
  else if negb (is_str (Browser.status s) "idle") then "Agent is busy..."
  else "Enter a coding task...".

(** The [disabled] attribute of the input field. *)
Definition inputDisabled (s : Browser.State) : bool :=
  negb (Browser.isConnected s) || negb (is_str (Browser.status s) "idle").

(** The [disabled] attribute of the submit button. *)
Definition submitDisabled (s : Browser.State) : bool :=
  (trim (Browser.input s) =? "")%string
  || negb (Browser.isConnected s)
  || negb (is_str (Browser.status s) "idle").

(** Whether the clear button is rendered: [messages.length > 0]. *)
Definition clearShown (s : Browser.State) : bool :=
  (0 <? length (Browser.messages s))%nat.

End Home.

(** ** Vocabulary of the further properties *)

(** The provider mounted once: the effect neither runs again nor is
    cleaned up. *)
Definition single_mount (e : Browser.Event) : bool :=
  match e with
  | Browser.Mount | Browser.Cleanup => false
  | _ => true
  end.

Definition settled (l : list Browser.Timeout) : Prop :=
  Forall (fun t => Browser.pending t = false) l.

(** The four situations of a provider mounted once: its newest socket
    connecting; its newest socket opened (OPEN, or CLOSING once the
    server has started the closing handshake); waiting for the retry
    timeout whose handle is in [reconnectTimeoutRef]; or given up.  Every
    other socket is closed and every other timeout is settled. *)
Inductive Session (s : Browser.State) : Prop :=
| SessionConnecting (k : nat) :
    Browser.sockets s = replicate k CLOSED ++ [CONNECTING] ->
    Browser.wsRef s = Some k ->
    Browser.isConnected s = false ->
    settled (Browser.timeouts s) ->
    Browser.reconnectAttemptsRef s <= 5 ->
    Session s
| SessionOpen (k : nat) (r : ReadyState) :
    r = OPEN \/ r = CLOSING ->
    Browser.sockets s = replicate k CLOSED ++ [r] ->
    Browser.wsRef s = Some k ->
    Browser.isConnected s = true ->
    settled (Browser.timeouts s) ->
    Browser.reconnectAttemptsRef s = 0 ->
    Session s
| SessionWaiting (k : nat) (finished : list Browser.Timeout) (t : Browser.Timeout) :
    Browser.sockets s = replicate k CLOSED ->
    Browser.wsRef s = None ->
    Browser.isConnected s = false ->
    Browser.timeouts s = finished ++ [t] ->
    settled finished ->
    Browser.pending t = true ->
    Browser.reconnectTimeoutRef s = Some (length finished) ->
    Browser.reconnectAttemptsRef s < 5 ->
    Session s
| SessionGivenUp (k : nat) :
    Browser.sockets s = replicate k CLOSED ->
    Browser.wsRef s = None ->
    Browser.isConnected s = false ->
    settled (Browser.timeouts s) ->
    Browser.reconnectAttemptsRef s = 5 ->
    Session s.

(** The provider has given up: every socket closed, nothing pending,
    the counter at five. *)
Definition given_up (s : Browser.State) : Prop :=
  (exists k, Browser.sockets s = replicate k CLOSED)
  /\ Browser.wsRef s = None
  /\ Browser.isConnected s = false
  /\ settled (Browser.timeouts s)
  /\ Browser.reconnectAttemptsRef s = 5.

(** The log entry the browser's dispatcher makes of a raw frame, if any. *)
Definition browser_entry (JSON_parse : string -> option JSON) (data : string)
    : option Browser.Message :=
  match JSON_parse data with
  | None | Some JNull => None
  | Some d =>
      if is_str (member "type" d) "agent" then
        Some {| Browser.type := Browser.agent;
                Browser.content := member "content" d;
                Browser.step := None; Browser.success := None;
                Browser.stepNumber := None; Browser.totalSteps := None |}
      else if is_str (member "type" d) "result" then
        Some {| Browser.type := Browser.result;
                Browser.content := member "content" d;
                Browser.step := member "step" d;
                Browser.success := member "success" d;
                Browser.stepNumber := member "stepNumber" d;
                Browser.totalSteps := member "totalSteps" d |}
      else None
  end.

(** The message [div] the desktop shell makes of a raw frame, if any. *)
Definition electron_entry (JSON_parse : string -> option JSON) (data : string)
    : option Electron.MessageDiv :=
  match JSON_parse data with
  | None | Some JNull => None
  | Some d =>
      let t := member "type" d in
      if is_str t "status" then
        Some {| Electron.className := "message status";
                Electron.innerHTML := Electron.StatusLine (member "content" d) |}
      else if is_str t "agent" || is_str t "reflection" || is_str t "complete" then
        Some {| Electron.className := "message agent";
                Electron.innerHTML := Electron.Formatted (member "content" d) |}
      else if is_str t "result" then
        Some {| Electron.className :=
                  if truthy (member "success" d)
                  then "message agent" else "message error";
                Electron.innerHTML :=
                  Electron.StepReport (member "stepNumber" d)
                    (member "totalSteps" d) (member "step" d)
                    (member "output" d) (member "error" d) |}
      else None
  end.

(** The reconnect intervals of the desktop shell that are running. *)
Definition running (s : Electron.State) : list Electron.Interval :=
  filter (fun i => Electron.callback i = Electron.Reconnect
                   /\ Electron.active i = true)
    (Electron.intervals s).

(** The sockets of the desktop shell that have closed. *)
Definition electron_closes (s : Electron.State) : nat :=
  length (filter (fun r => r = CLOSED) (Electron.sockets s)).

Definition not_open (e : Electron.Event) : bool :=
  match e with
  | Electron.WsOpen _ => false
  | _ => true
  end.

(** The handle kept in [reconnectInterval] is that of the interval
    registered last. *)
Definition newest_handle (s : Electron.State) : Prop :=
  forall r, Electron.reconnectInterval s = Some r ->
            S r = length (Electron.intervals s).

(** The events of a session in which the server sends no [status] frame
    and prompts are submitted through the form of [Home] only. *)
Definition busy_event (JSON_parse : string -> option JSON)
    (e : Browser.Event) : bool :=
  match e with
  | Browser.SendPrompt _ => false
  | _ => negb (Browser.status_frame JSON_parse e)
  end.

(** ** Further sample inputs *)

(** Five failures, the last retry, and a sixth failure. *)
Definition exhausted : list Browser.Event :=
  five_failures ++ [Browser.TimeoutFires 4; Browser.WsClose 5].

(** Two failures of the desktop shell's socket, each followed by a tick
    of the newest reconnect interval. *)
Definition tick_session : list Electron.Event :=
  [Electron.WsClose 0; Electron.IntervalFires 1;
   Electron.WsClose 1; Electron.IntervalFires 2].

(** A message text carrying markup. *)
Definition markup : string := "<img src=x onerror=alert(1)>".

(** The effect of the provider run again after the first socket has
    opened, and a task typed. *)
Definition remounted : list Browser.Event :=
  [Browser.WsOpen 0; Browser.Cleanup; Browser.Mount; Browser.Type_ "ls"].

(** ** Rendering of message text

    The three patterns the clients replace have the shape
    [/D(.*?)D/g] or [/D([\s\S]*?)D/g] for a fixed delimiter [D]. *)

Definition LF : Ascii.ascii := Ascii.ascii_of_nat 10.
Definition asterisk : Ascii.ascii := Ascii.ascii_of_nat 42.
Definition backtick : Ascii.ascii := Ascii.ascii_of_nat 96.
Definition less_than : Ascii.ascii := Ascii.ascii_of_nat 60.
Definition greater_than : Ascii.ascii := Ascii.ascii_of_nat 62.

(** Whether the text starts with a line terminator, which [.] does not
    match: LF, CR, U+2028 or U+2029. *)
Definition line_terminator_at (s : string) : bool :=
  String.prefix (bytes [10]) s
  || String.prefix (bytes [13]) s
  || String.prefix (bytes [226; 128; 168]) s
  || String.prefix (bytes [226; 128; 169]) s.

Fixpoint drop_chars (n : nat) (s : string) : string :=
  match n, s with
  | S n, String _ rest => drop_chars n rest
  | _, _ => s
  end.

(** The lazy group [(.*?)] (or [([\s\S]*?)] when [dot] is false)
    followed by [close]: the shortest text up to an occurrence of
    [close], and what follows that occurrence; [None] when the end, or
    with [dot] a line terminator, comes first. *)
Fixpoint lazy_until (dot : bool) (close : string) (s : string)
    : option (string * string) :=
  match s with
  | EmptyString => None
  | String c rest =>
      if String.prefix close s then
        Some (EmptyString, drop_chars (String.length close) s)
      else if dot && line_terminator_at s then None
      else match lazy_until dot close rest with
           | Some (group, after) => Some (String c group, after)
           | None => None
           end
  end.

(** [s.replace(/D(...)D/g, wrap($1))], reading [s] from the left: at a
    position where the pattern matches, the replacement is written and the
    [skip] characters of the match are passed over; elsewhere the
    character is copied. *)
Fixpoint replace_from (dot : bool) (delim : string) (wrap : string -> string)
    (skip : nat) (s : string) : string :=
  match s with
  | EmptyString => EmptyString
  | String c rest =>
      match skip with
      | S k => replace_from dot delim wrap k rest
      | 0 =>
          if String.prefix delim s then
            match lazy_until dot delim (drop_chars (String.length delim) s) with
            | Some (group, _) =>
                (wrap group
                 ++ replace_from dot delim wrap
                      (String.length delim + String.length group
                       + String.length delim - 1) rest)%string
            | None => String c (replace_from dot delim wrap 0 rest)
            end
          else String c (replace_from dot delim wrap 0 rest)
      end
  end.

Definition replace_delimited (dot : bool) (delim : string)
    (wrap : string -> string) (s : string) : string :=
  replace_from dot delim wrap 0 s.

Definition strong (group : string) : string :=
  ("<strong>" ++ group ++ "</strong>")%string.

(** [s.split('\n')]. *)
Fixpoint split_lines (s : string) : list string :=
  match s with
  | EmptyString => [EmptyString]
  | String c rest =>
      if Ascii.eqb c LF then EmptyString :: split_lines rest
      else match split_lines rest with
           | line :: lines => String c line :: lines
           | [] => [String c EmptyString]
           end
  end.

(** Whether a character occurs in a text. *)
Fixpoint occurs (c : Ascii.ascii) (s : string) : bool :=
  match s with
  | EmptyString => false
  | String c' rest => Ascii.eqb c c' || occurs c rest
  end.

Fixpoint occurrences (c : Ascii.ascii) (s : string) : nat :=
  match s with
  | EmptyString => 0
  | String c' rest => (if Ascii.eqb c c' then 1 else 0) + occurrences c rest
  end.

Module HomeText.

(** The HTML of one line in [formatContent] of [Home]: the bold markup
    replaced, and ['<br/>'] for a line that is empty. *)
Definition line_html (line : string) : string :=
  let line := replace_delimited true "**" strong line in
  if (line =? "")%string then "<br/>" else line.

(** [formatContent] of [Home]: the [__html] of the [div]s it returns,
    or [None] when [content.split] throws because [content] is not a
    string. *)
Definition formatContent (content : JSVal) : option (list string) :=
  match content with
  | Some (JStr text) => Some (map line_html (split_lines text))
  | _ => None
  end.

End HomeText.

Module ShellText.

(** [escapeHtml]: the text as [innerHTML] serialises a text node. *)
Fixpoint escapeHtml (text : string) : string :=
  match text with
  | EmptyString => EmptyString
  | String c rest =>
      if String.prefix "&" text then ("&amp;" ++ escapeHtml rest)%string
      else if String.prefix "<" text then ("&lt;" ++ escapeHtml rest)%string
      else if String.prefix ">" text then ("&gt;" ++ escapeHtml rest)%string
      else if String.prefix (bytes [194; 160]) text then
        match rest with
        | String _ rest' => ("&nbsp;" ++ escapeHtml rest')%string
        | EmptyString => String c EmptyString
        end
      else String c (escapeHtml rest)
  end.

Definition code_block (group : string) : string :=
  ("<div class=" ++ quoted "code-block" ++ ">" ++ group ++ "</div>")%string.

Definition inline_code (group : string) : string :=
  ("<code style="
   ++ quoted "background: rgba(255,255,255,0.1); padding: 2px 6px; border-radius: 4px;"
   ++ ">" ++ group ++ "</code>")%string.

(** [s.replace(/\n/g, '<br>')]. *)
Fixpoint line_breaks (s : string) : string :=
  match s with
  | EmptyString => EmptyString
  | String c rest =>
      if Ascii.eqb c LF then ("<br>" ++ line_breaks rest)%string
      else String c (line_breaks rest)
  end.

(** [formatContent] of the desktop shell. *)
Definition formatContent (content : string) : string :=
  let formatted := escapeHtml content in
  let formatted := replace_delimited true "**" strong formatted in
  let formatted := replace_delimited false "```" code_block formatted in
  let formatted := replace_delimited true "`" inline_code formatted in
  line_breaks formatted.

End ShellText.

(** ** Properties *)

(** Unfolding of the handlers down to record expressions. *)
Ltac browser_unfold :=
  cbv [Browser.deliver Browser.onmessage Browser.dispatch
       Browser.handleSubmit
       Browser.sendPrompt Browser.open_socket Browser.clearMessages
       Browser.cleanup
       Browser.onclose Browser.onopen Browser.onerror Browser.reconnect
       Browser.connect Browser.addMessage Browser.ws_send Browser.ws_close
       Browser.clearTimeout Browser.setTimeout Browser.readyState
       Browser.print Browser.setStatus Browser.setMessages
       Browser.setIsConnected Browser.set_wsRef
       Browser.set_reconnectTimeoutRef Browser.set_reconnectAttemptsRef
       Browser.setInput Browser.set_sockets Browser.set_timeouts
       Browser.set_sent
       Browser.status Browser.messages Browser.isConnected Browser.wsRef
       Browser.reconnectTimeoutRef Browser.reconnectAttemptsRef
       Browser.input Browser.sockets Browser.timeouts Browser.sent
       Browser.console] in *.

Ltac electron_unfold :=
  cbv [Electron.deliver Electron.onmessage Electron.handleMessage
       Electron.dispatch
       Electron.sendMessage Electron.heartbeat Electron.reconnect
       Electron.onclose Electron.onopen Electron.onerror Electron.connect
       Electron.open_socket Electron.addUserMessage Electron.addAgentMessage
       Electron.addStatusMessage Electron.addResultMessage
       Electron.addReflectionMessage Electron.addCompleteMessage
       Electron.ws_send Electron.clearInterval Electron.setInterval
       Electron.readyState Electron.print
       Electron.updateStatus Electron.set_ws Electron.set_reconnectInterval
       Electron.appendChild Electron.set_messageInput Electron.set_sockets
       Electron.set_intervals Electron.set_sent
       Electron.ws Electron.reconnectInterval Electron.messagesContainer
       Electron.statusDot Electron.statusText Electron.messageInput
       Electron.sockets Electron.intervals Electron.sent
       Electron.console] in *.

(** Case analysis on the conditions the handlers branch on. *)
Ltac case_cond :=
  match goal with
  | |- context [bool_decide ?P] => destruct (bool_decide P) eqn:?
  | |- context [is_str ?v ?l] => destruct (is_str v l) eqn:?
  | |- context [(?a <? ?b)%nat] => destruct (a <? b)%nat eqn:?
  | |- context [(?a =? ?b)%string] => destruct (a =? b)%string eqn:?
  | |- context [@lookup _ _ _ _ ?i ?l] =>
      destruct (@lookup _ _ _ _ i l) as [[]|] eqn:?
  | |- context [Browser.pending ?t] => destruct (Browser.pending t) eqn:?
  | |- context [Electron.active ?t] => destruct (Electron.active t) eqn:?
  | |- context [Electron.callback ?t] => destruct (Electron.callback t) eqn:?
  end.

(** *** Lists of sockets and timeouts *)

Lemma live_socket (m ws : nat) (r x : ReadyState) :
  (replicate m CLOSED ++ [r]) !! ws = Some x -> x <> CLOSED -> ws = m /\ x = r.
Proof.
  intros [[_ H]|[-> ->]]%lookup_snoc_Some Hx.
  - apply lookup_replicate in H as [-> _]. contradiction.
  - now rewrite length_replicate.
Qed.

Lemma close_live (m : nat) (r : ReadyState) :
  <[m := CLOSED]> (replicate m CLOSED ++ [r]) = replicate (S m) CLOSED.
Proof.
  rewrite replicate_S_end, insert_app_r_alt by (rewrite length_replicate; lia).
  rewrite length_replicate, Nat.sub_diag. reflexivity.
Qed.

Lemma closing_live (m ws : nat) (r : ReadyState) :
  (replicate m CLOSED ++ [r]) !! ws = Some OPEN ->
  ws = m /\ r = OPEN
  /\ <[ws := CLOSING]> (replicate m CLOSED ++ [r])
     = replicate m CLOSED ++ [CLOSING].
Proof.
  intros H. destruct (live_socket m ws r OPEN H) as [-> <-]; [discriminate|].
  split; [reflexivity|]. split; [reflexivity|].
  rewrite insert_app_r_alt by (rewrite length_replicate; lia).
  now rewrite length_replicate, Nat.sub_diag.
Qed.

Lemma closing_lookup (l : list ReadyState) (i j : nat) :
  <[i := CLOSING]> l !! j = Some OPEN -> l !! j = Some OPEN.
Proof.
  intros [(_ & ? & _)|[_ H]]%list_lookup_insert_Some; [discriminate|exact H].
Qed.

Lemma fired_done (n : nat) :
  Forall (fun t => Browser.pending t = false) (Browser.fired n).
Proof. unfold Browser.fired. apply Forall_fmap, Forall_true. reflexivity. Qed.

Lemma fired_S (n : nat) :
  n < 5 ->
  Browser.fired (S n)
  = Browser.fired n ++ [{| Browser.delay := Browser.backoff n;
                           Browser.pending := false |}].
Proof.
  intros Hn. do 5 (destruct n as [|n]; [reflexivity|]). lia.
Qed.

Lemma due_timeout (finished : list Browser.Timeout) (t t' : Browser.Timeout) (h : nat) :
  Forall (fun t => Browser.pending t = false) finished ->
  (finished ++ [t]) !! h = Some t' -> Browser.pending t' = true ->
  h = length finished /\ t' = t.
Proof.
  intros Hdone [[_ H]|[-> ->]]%lookup_snoc_Some Ht; [|done].
  rewrite Forall_lookup in Hdone. apply Hdone in H. congruence.
Qed.

Lemma no_due_timeout (finished : list Browser.Timeout) (t : Browser.Timeout) (h : nat) :
  Forall (fun t => Browser.pending t = false) finished ->
  finished !! h = Some t -> Browser.pending t = false.
Proof. intros Hdone H. rewrite Forall_lookup in Hdone. eauto. Qed.

Lemma is_str_true (v : JSVal) (lit : string) :
  is_str v lit = true -> v = Some (JStr lit).
Proof.
  destruct v as [[]|]; try discriminate. cbn.
  now intros ->%String.eqb_eq.
Qed.

(** Case analysis on [data.type], in the order of the [switch]. *)
Ltac case_type d :=
  repeat match goal with
  | |- context [is_str (member "type" d) ?lit] =>
      let E := fresh "Etype" in
      destruct (is_str (member "type" d) lit) eqn:E;
      [apply is_str_true in E; rewrite E in *;
       cbn [is_str String.eqb Ascii.eqb Bool.eqb existsb orb negb andb] in * |]
  end.

Section Properties.

Variable JSON_parse : string -> option JSON.

(** *** Handlers do not read the console *)

Lemma browser_console_unread st ms ic wr rt ra inp so ti se c1 c2 e :
  Browser.quiet
    (Browser.deliver JSON_parse
       (Browser.Build_State st ms ic wr rt ra inp so ti se c1) e)
  = Browser.quiet
      (Browser.deliver JSON_parse
         (Browser.Build_State st ms ic wr rt ra inp so ti se c2) e).
Proof.
  destruct e, wr, rt; browser_unfold;
    try destruct (JSON_parse data) as [[]|];
    repeat (case_cond; browser_unfold; cbn [negb andb]); reflexivity.
Qed.

Lemma browser_quiet_deliver (s : Browser.State) (e : Browser.Event) :
  Browser.quiet (Browser.deliver JSON_parse (Browser.quiet s) e)
  = Browser.quiet (Browser.deliver JSON_parse s e).
Proof. destruct s. apply browser_console_unread. Qed.

Lemma browser_quiet_run (events : list Browser.Event) (s s' : Browser.State) :
  Browser.quiet s = Browser.quiet s' ->
  Browser.quiet (Browser.run JSON_parse s events)
  = Browser.quiet (Browser.run JSON_parse s' events).
Proof.
  revert s s'. induction events as [|e events IH]; intros s s' Hq; [exact Hq|].
  cbn. apply IH.
  rewrite <- (browser_quiet_deliver s), <- (browser_quiet_deliver s').
  now rewrite Hq.
Qed.

Lemma electron_console_unread w ri mc sd stx mi so iv se c1 c2 e :
  Electron.quiet
    (Electron.deliver JSON_parse
       (Electron.Build_State w ri mc sd stx mi so iv se c1) e)
  = Electron.quiet
      (Electron.deliver JSON_parse
         (Electron.Build_State w ri mc sd stx mi so iv se c2) e).
Proof.
  destruct e, w, ri; electron_unfold;
    try destruct (JSON_parse data) as [[]|];
    repeat (case_cond; electron_unfold); reflexivity.
Qed.

Lemma electron_quiet_deliver (s : Electron.State) (e : Electron.Event) :
  Electron.quiet (Electron.deliver JSON_parse (Electron.quiet s) e)
  = Electron.quiet (Electron.deliver JSON_parse s e).
Proof. destruct s. apply electron_console_unread. Qed.

Lemma electron_quiet_run (events : list Electron.Event) (s s' : Electron.State) :
  Electron.quiet s = Electron.quiet s' ->
  Electron.quiet (Electron.run JSON_parse s events)
  = Electron.quiet (Electron.run JSON_parse s' events).
Proof.
  revert s s'. induction events as [|e events IH]; intros s s' Hq; [exact Hq|].
  cbn. apply IH.
  rewrite <- (electron_quiet_deliver s), <- (electron_quiet_deliver s').
  now rewrite Hq.
Qed.

(** *** Malformed frames *)

Lemma browser_quiet_print (c : Console) (s : Browser.State) :
  Browser.quiet (Browser.print c s) = Browser.quiet s.
Proof. reflexivity. Qed.

Lemma electron_quiet_print (c : Console) (s : Electron.State) :
  Electron.quiet (Electron.print c s) = Electron.quiet s.
Proof. reflexivity. Qed.

(** C4.  A frame that [JSON.parse] rejects is dropped by both clients
    with one [console.error] line and nothing else changes: log, status,
    connection flag, refs, sockets, timers and sent frames are those of
    the state before.  Whatever events follow are processed exactly as if
    the frame had never arrived.  From the initial state, a malformed
    frame followed by a valid [agent] frame leaves a log of length 1
    holding the event of the valid frame. *)
Theorem malformed_frame_dropped (bad : string) :
  JSON_parse bad = None ->
  (forall s, Browser.onmessage JSON_parse bad s
             = Browser.print (ConsoleError "Error parsing WebSocket message:") s)
  /\ (forall s, Electron.onmessage JSON_parse bad s
                = Electron.print (ConsoleError "Error parsing message:") s)
  /\ (forall s sock later,
        Browser.quiet
          (Browser.run JSON_parse s (Browser.WsMessage sock bad :: later))
        = Browser.quiet (Browser.run JSON_parse s later))
  /\ (forall s sock later,
        Electron.quiet
          (Electron.run JSON_parse s (Electron.WsMessage sock bad :: later))
        = Electron.quiet (Electron.run JSON_parse s later))
  /\ (forall good fields,
        JSON_parse good = Some (JObj fields) ->
        assoc "type" fields = Some (JStr "agent") ->
        Browser.messages
          (Browser.run JSON_parse Browser.start
             [Browser.WsOpen 0; Browser.WsMessage 0 bad;
              Browser.WsMessage 0 good])
        = [ {| Browser.type := Browser.agent;
               Browser.content := assoc "content" fields;
               Browser.step := None; Browser.success := None;
               Browser.stepNumber := None; Browser.totalSteps := None |} ]
        /\ Electron.messagesContainer
             (Electron.run JSON_parse Electron.init
                [Electron.WsOpen 0; Electron.WsMessage 0 bad;
                 Electron.WsMessage 0 good])
           = [ {| Electron.className := "message agent";
                  Electron.innerHTML :=
                    Electron.Formatted (assoc "content" fields) |} ]).
Proof.
  intros Hbad.
  assert (Hb : forall s, Browser.onmessage JSON_parse bad s
             = Browser.print (ConsoleError "Error parsing WebSocket message:") s).
  { intros s. unfold Browser.onmessage. now rewrite Hbad. }
  assert (He : forall s, Electron.onmessage JSON_parse bad s
                = Electron.print (ConsoleError "Error parsing message:") s).
  { intros s. unfold Electron.onmessage. now rewrite Hbad. }
  split; [exact Hb|]. split; [exact He|]. split; [|split].
  - intros s sock later. cbn [Browser.run fold_left].
    apply browser_quiet_run. cbn [Browser.deliver].
    destruct (bool_decide _); [|reflexivity].
    rewrite Hb. apply browser_quiet_print.
  - intros s sock later. cbn [Electron.run fold_left].
    apply electron_quiet_run. cbn [Electron.deliver].
    destruct (bool_decide _); [|reflexivity].
    rewrite He. apply electron_quiet_print.
  - intros good fields Hgood Htype. split.
    + cbn. rewrite Hb. cbn. unfold Browser.onmessage. rewrite Hgood.
      unfold Browser.dispatch. cbn. rewrite Htype. reflexivity.
    + cbn. rewrite He. cbn. unfold Electron.onmessage. rewrite Hgood.
      unfold Electron.handleMessage, Electron.dispatch. cbn.
      rewrite Htype. reflexivity.
Qed.

(** *** Reconnection of the browser client *)

Lemma retrying_ext old k s s' :
  Browser.sockets s' = Browser.sockets s ->
  Browser.timeouts s' = Browser.timeouts s ->
  Browser.reconnectAttemptsRef s' = Browser.reconnectAttemptsRef s ->
  Browser.Retrying old k s -> Browser.Retrying old k s'.
Proof.
  intros Hs Ht Ha [n r ? ? ? ? ?|n ? ? ? ?|? ? ?].
  - eapply Browser.Live; eauto; congruence.
  - eapply Browser.Waiting; eauto; congruence.
  - eapply Browser.GivenUp; congruence.
Qed.

Lemma retrying_close old k s ws :
  Browser.Retrying old k s ->
  Browser.Retrying old k (Browser.deliver JSON_parse s (Browser.WsClose ws)).
Proof.
  destruct s as [st ms ic wr rt ra inp so ti se co].
  intros [n r Hn Hr Hso Hti Hra|n Hn Hso Hti Hra|Hso Hti Hra];
    cbn in Hso, Hti, Hra; subst so ti ra.
  - cbn [Browser.deliver].
    unfold Browser.readyState. cbn [Browser.sockets].
    destruct (_ !! ws) as [x|] eqn:Hws.
    2:{ eapply Browser.Live; eauto. }
    assert (x = CLOSED \/ (ws = k + n /\ x = r)) as [->|[-> ->]].
    { destruct (decide (x = CLOSED)); [now left|right].
      eapply live_socket; eauto. }
    { eapply Browser.Live; eauto. }
    assert (Hgo : Browser.Retrying old k
      (Browser.onclose (Browser.set_sockets (<[k + n := CLOSED]> (replicate (k + n) CLOSED ++ [r])) 
         {| Browser.status := st; Browser.messages := ms; Browser.isConnected := ic;
            Browser.wsRef := wr; Browser.reconnectTimeoutRef := rt;
            Browser.reconnectAttemptsRef := n; Browser.input := inp;
            Browser.sockets := replicate (k + n) CLOSED ++ [r];
            Browser.timeouts := old ++ Browser.fired n; Browser.sent := se;
            Browser.console := co |}))).
    { rewrite close_live. browser_unfold.
      destruct (n <? Browser.maxReconnectAttempts)%nat eqn:Hlt.
      - apply Nat.ltb_lt in Hlt. unfold Browser.maxReconnectAttempts in Hlt.
        browser_unfold.
        apply Browser.Waiting with (n := n); cbn;
          [assumption | now rewrite Nat.add_succ_r
          | now rewrite <- app_assoc | reflexivity].
      - apply Nat.ltb_ge in Hlt. unfold Browser.maxReconnectAttempts in Hlt.
        assert (n = 5) as -> by lia.
        browser_unfold. apply Browser.GivenUp; cbn; [|reflexivity..].
        now replace (k + 6) with (S (k + 5)) by lia. }
    destruct r; try exact Hgo. contradiction.
  - cbn [Browser.deliver]. unfold Browser.readyState. cbn [Browser.sockets].
    destruct (_ !! ws) as [x|] eqn:Hws.
    2:{ eapply Browser.Waiting; eauto. }
    apply lookup_replicate in Hws as [-> _].
    eapply Browser.Waiting; eauto.
  - cbn [Browser.deliver]. unfold Browser.readyState. cbn [Browser.sockets].
    destruct (_ !! ws) as [x|] eqn:Hws.
    2:{ eapply Browser.GivenUp; eauto. }
    apply lookup_replicate in Hws as [-> _].
    eapply Browser.GivenUp; eauto.
Qed.


Lemma retrying_closing old k s ws :
  Browser.Retrying old k s ->
  Browser.Retrying old k (Browser.deliver JSON_parse s (Browser.WsClosing ws)).
Proof.
  destruct s as [st ms ic wr rt ra inp so ti se co].
  intros H. cbn [Browser.deliver]. unfold Browser.readyState.
  cbn [Browser.sockets]. case_bool_decide as Hws; [|exact H].
  destruct H as [n r Hn Hr Hso Hti Hra|n Hn Hso Hti Hra|Hso Hti Hra];
    cbn in Hso, Hti, Hra; subst so ti ra.
  - apply closing_live in Hws as (-> & -> & Hins).
    apply Browser.Live with (n := n) (r := CLOSING);
      [assumption | discriminate | exact Hins | reflexivity..].
  - apply lookup_replicate in Hws as [? _]. discriminate.
  - apply lookup_replicate in Hws as [? _]. discriminate.
Qed.

Lemma retrying_timeout old k s h :
  Forall (fun t => Browser.pending t = false) old ->
  Browser.Retrying old k s ->
  Browser.Retrying old k (Browser.deliver JSON_parse s (Browser.TimeoutFires h)).
Proof.
  intros Hold.
  destruct s as [st ms ic wr rt ra inp so ti se co].
  intros [n r Hn Hr Hso Hti Hra|n Hn Hso Hti Hra|Hso Hti Hra];
    cbn in Hso, Hti, Hra; subst so ti ra;
    cbn [Browser.deliver Browser.timeouts];
    destruct (_ !! h) as [t|] eqn:Hh.
  - rewrite (no_due_timeout (old ++ Browser.fired n) t h); auto.
    + eapply Browser.Live; eauto.
    + apply Forall_app; auto using fired_done.
  - eapply Browser.Live; eauto.
  - destruct (Browser.pending t) eqn:Ht.
    2:{ eapply Browser.Waiting; eauto. }
    rewrite app_assoc in Hh.
    eapply due_timeout in Hh as [-> ->]; auto.
    2:{ apply Forall_app; auto using fired_done. }
    browser_unfold.
    apply Browser.Live with (n := S n) (r := CONNECTING);
      [lia | discriminate | reflexivity | | reflexivity].
    cbn [Browser.timeouts].
    rewrite app_assoc, insert_app_r_alt, Nat.sub_diag by lia.
    rewrite fired_S, app_assoc by assumption. reflexivity.
  - eapply Browser.Waiting; eauto.
  - rewrite (no_due_timeout (old ++ Browser.fired 5) t h); auto.
    + eapply Browser.GivenUp; eauto.
    + apply Forall_app; auto using fired_done.
  - eapply Browser.GivenUp; eauto.
Qed.

(** Events that concern neither sockets nor timers. *)
Lemma browser_local_transport (s : Browser.State) (e : Browser.Event) :
  match e with
  | Browser.WsMessage _ _ | Browser.WsError _ | Browser.SendPrompt _
  | Browser.ClearMessages | Browser.Type_ _ | Browser.Submit => True
  | _ => False
  end ->
  let s' := Browser.deliver JSON_parse s e in
  Browser.sockets s' = Browser.sockets s
  /\ Browser.timeouts s' = Browser.timeouts s
  /\ Browser.reconnectAttemptsRef s' = Browser.reconnectAttemptsRef s
  /\ Browser.wsRef s' = Browser.wsRef s
  /\ Browser.isConnected s' = Browser.isConnected s
  /\ Browser.reconnectTimeoutRef s' = Browser.reconnectTimeoutRef s.
Proof.
  destruct s as [st ms ic [wr|] [rt|] ra inp so ti se co];
  destruct e; intros []; cbv zeta; browser_unfold;
    try destruct (JSON_parse data) as [[]|];
    repeat (case_cond; browser_unfold; cbn [negb andb]); auto 10.
Qed.

Lemma retrying_deliver old k s e :
  Forall (fun t => Browser.pending t = false) old ->
  Browser.no_reopen e = true ->
  Browser.Retrying old k s ->
  Browser.Retrying old k (Browser.deliver JSON_parse s e).
Proof.
  intros Hold He Hs.
  destruct e; try discriminate He;
    try (now apply retrying_close); try (now apply retrying_closing);
    try (now apply retrying_timeout);
    (eapply retrying_ext; [..|exact Hs]; eapply browser_local_transport; exact I).
Qed.

Lemma retrying_run old k events s :
  Forall (fun t => Browser.pending t = false) old ->
  forallb Browser.no_reopen events = true ->
  Browser.Retrying old k s ->
  Browser.Retrying old k (Browser.run JSON_parse s events).
Proof.
  intros Hold. revert s.
  induction events as [|e events IH]; intros s Hev Hs; [exact Hs|].
  cbn in Hev. apply andb_true_iff in Hev as [He Hev].
  cbn. apply IH; [exact Hev|]. now apply retrying_deliver.
Qed.

(** A successful open during the retries leads back to a stable state,
    from which the backoff starts over. *)
Lemma open_restores_stable old k s ws :
  Forall (fun t => Browser.pending t = false) old ->
  Browser.Retrying old k s ->
  Browser.readyState ws s = Some CONNECTING ->
  Browser.Stable (Browser.deliver JSON_parse s (Browser.WsOpen ws)).
Proof.
  intros Hold Hs Hws. cbn [Browser.deliver]. rewrite Hws.
  rewrite bool_decide_eq_true_2 by reflexivity.
  unfold Browser.readyState in Hws.
  destruct s as [st ms ic wr rt ra inp so ti se co].
  destruct Hs as [n r Hn Hr Hso Hti Hra|n Hn Hso Hti Hra|Hso Hti Hra];
    cbn in Hso, Hti, Hra, Hws; subst so ti ra.
  - apply live_socket in Hws as [-> <-]; [|discriminate].
    split; [|split; [|reflexivity]].
    + exists (k + n), OPEN. split; [discriminate|]. cbn.
      rewrite insert_app_r_alt by (rewrite length_replicate; lia).
      now rewrite length_replicate, Nat.sub_diag.
    + cbn. apply Forall_app; auto using fired_done.
  - apply lookup_replicate in Hws as [? _]. discriminate.
  - apply lookup_replicate in Hws as [? _]. discriminate.
Qed.

Lemma closes_closed (k : nat) :
  length (filter (fun r => r = CLOSED) (replicate k CLOSED)) = k.
Proof.
  induction k as [|k IH]; [reflexivity|].
  cbn [replicate]. rewrite filter_cons_True by reflexivity.
  cbn. now rewrite IH.
Qed.

Lemma closes_live (k : nat) (r : ReadyState) :
  r <> CLOSED ->
  length (filter (fun r => r = CLOSED) (replicate k CLOSED ++ [r])) = k.
Proof.
  intros Hr. rewrite filter_app, length_app, closes_closed.
  rewrite filter_cons_False by assumption. cbn. lia.
Qed.

Lemma delays_fired (n : nat) :
  map Browser.delay (Browser.fired n) = take n Browser.backoff_delays.
Proof.
  unfold Browser.fired. rewrite map_map. cbn. apply map_id.
Qed.

Lemma retrying_scheduled old k s :
  Browser.Retrying old k s ->
  drop (length old) (Browser.scheduled s)
  = take (Browser.closes s - k) Browser.backoff_delays
  /\ length (Browser.scheduled s) <= length old + 5
  /\ (Browser.closes s - k = 5 ->
      forall ws x, Browser.readyState ws s = Some x -> x <> CLOSED ->
      Browser.reconnectAttemptsRef s = 5).
Proof.
  unfold Browser.scheduled, Browser.closes, Browser.readyState.
  intros [n r Hn Hr Hso Hti Hra|n Hn Hso Hti Hra|Hso Hti Hra];
    rewrite Hso, Hti, ?closes_live, ?closes_closed by assumption;
    rewrite map_app, drop_app_length', ?length_app, !length_map
      by (now rewrite length_map).
  - replace (k + n - k) with n by lia. rewrite delays_fired.
    split; [reflexivity|]. split.
    + unfold Browser.fired. rewrite length_map, length_take. lia.
    + intros -> _ _ _ _. exact Hra.
  - replace (k + S n - k) with (S n) by lia. split; [|split].
    + do 5 (destruct n as [|n]; [reflexivity|]). lia.
    + unfold Browser.fired. rewrite length_app, length_map, length_take.
      cbn. lia.
    + intros _ ws x Hx%lookup_replicate Hne. now destruct Hx.
  - replace (k + 6 - k) with 6 by lia. split; [reflexivity|]. split.
    + cbn. lia.
    + intros ?. lia.
Qed.

Lemma stable_retrying s :
  Browser.Stable s ->
  exists k, Browser.Retrying (Browser.timeouts s) k s
            /\ Browser.closes s = k.
Proof.
  intros [(k & r & Hr & Hso) [Hti Hra]]. exists k. split.
  - apply Browser.Live with (n := 0) (r := r); auto with lia.
    + now rewrite Nat.add_0_r.
    + cbn. now rewrite app_nil_r.
  - unfold Browser.closes. rewrite Hso. now apply closes_live.
Qed.

Lemma browser_last_close s ws x :
  Browser.readyState ws s = Some x -> x <> CLOSED ->
  Browser.reconnectAttemptsRef s = 5 ->
  let s' := Browser.deliver JSON_parse s (Browser.WsClose ws) in
  Browser.timeouts s' = Browser.timeouts s
  /\ Browser.messages s' = Browser.messages s ++ [Browser.connection_lost].
Proof.
  destruct s as [st ms ic wr rt ra inp so ti se co].
  intros Hx Hne Hra. cbn in Hra. subst ra.
  cbn [Browser.deliver]. rewrite Hx.
  destruct x; try contradiction; now browser_unfold.
Qed.

Lemma browser_open_resets s ws :
  Browser.readyState ws s = Some CONNECTING ->
  Browser.reconnectAttemptsRef
    (Browser.deliver JSON_parse s (Browser.WsOpen ws)) = 0.
Proof.
  intros H. cbn [Browser.deliver]. rewrite H.
  rewrite bool_decide_eq_true_2 by reflexivity. reflexivity.
Qed.

Lemma electron_close_schedules (s : Electron.State) (sock : nat) (x : ReadyState) :
  Electron.readyState sock s = Some x -> x <> CLOSED ->
  let s' := Electron.deliver JSON_parse s (Electron.WsClose sock) in
  Electron.scheduled s' = Electron.scheduled s ++ [3000%Z]
  /\ Electron.messagesContainer s' = Electron.messagesContainer s.
Proof.
  intros Hx Hne. cbn [Electron.deliver]. rewrite Hx.
  assert (Hgo :
    let s' := Electron.onclose
                (Electron.set_sockets (<[sock := CLOSED]> (Electron.sockets s)) s) in
    Electron.scheduled s' = Electron.scheduled s ++ [3000%Z]
    /\ Electron.messagesContainer s' = Electron.messagesContainer s).
  { destruct s. unfold Electron.scheduled. electron_unfold.
    rewrite filter_app, map_app. split; reflexivity. }
  destruct x; try exact Hgo. contradiction.
Qed.

(** C1, as the code has it.  Browser client: take any stable state (one
    live socket, counter at zero: the state after the first [connect()]
    or after a successful open) and any run from it in which no socket
    opens and the provider is not torn down.  If [n] sockets have closed
    during the run, the delays given to [setTimeout] during the run are
    the first [n] of [1000; 2000; 4000; 8000; 10000], each
    [min (1000 * 2^attempts) 10000]; no sixth timeout is ever scheduled;
    once five sockets have closed, the close of the socket of the fifth
    retry schedules nothing and appends the connection-lost notice; and
    an open resets the counter to 0.  Desktop shell: every close of a
    live socket registers one more 3000 ms interval and writes nothing to
    the log, however many closes came before. *)
Theorem reconnect_backoff (s0 : Browser.State) (events : list Browser.Event) :
  Browser.Stable s0 ->
  forallb Browser.no_reopen events = true ->
  let s := Browser.run JSON_parse s0 events in
  let n := Browser.closes s - Browser.closes s0 in
  Browser.backoff_delays = [1000; 2000; 4000; 8000; 10000]%Z
  /\ drop (length (Browser.scheduled s0)) (Browser.scheduled s)
     = take n Browser.backoff_delays
  /\ length (Browser.scheduled s) <= length (Browser.scheduled s0) + 5
  /\ (n = 5 ->
      forall ws x, Browser.readyState ws s = Some x -> x <> CLOSED ->
      let s' := Browser.deliver JSON_parse s (Browser.WsClose ws) in
      Browser.scheduled s' = Browser.scheduled s
      /\ Browser.messages s'
         = Browser.messages s ++ [Browser.connection_lost])
  /\ (forall s1 ws, Browser.readyState ws s1 = Some CONNECTING ->
      Browser.reconnectAttemptsRef
        (Browser.deliver JSON_parse s1 (Browser.WsOpen ws)) = 0)
  /\ (forall se sock x,
      Electron.readyState sock se = Some x -> x <> CLOSED ->
      let se' := Electron.deliver JSON_parse se (Electron.WsClose sock) in
      Electron.scheduled se' = Electron.scheduled se ++ [3000%Z]
      /\ Electron.messagesContainer se' = Electron.messagesContainer se).
Proof.
  intros Hstable Hev s n.
  destruct (stable_retrying s0 Hstable) as (k & Hre & Hk).
  assert (Hold : Forall (fun t => Browser.pending t = false) (Browser.timeouts s0))
    by apply Hstable.
  pose proof (retrying_run _ _ events s0 Hold Hev Hre) as Hs. fold s in Hs.
  apply retrying_scheduled in Hs as (Hd & Hl & Hlast).
  assert (Hlen : length (Browser.scheduled s0) = length (Browser.timeouts s0))
    by apply length_map.
  subst n. rewrite Hk, Hlen.
  split; [reflexivity|]. split; [exact Hd|]. split; [exact Hl|].
  split; [|split; [apply browser_open_resets|apply electron_close_schedules]].
  intros Hn ws x Hx Hne.
  destruct (browser_last_close s ws x Hx Hne (Hlast Hn ws x Hx Hne)) as [Ht Hm].
  split; [|exact Hm]. unfold Browser.scheduled. now rewrite Ht.
Qed.

(** *** The gate of the browser client *)

Lemma browser_open_socket_connected (s : Browser.State) (e : Browser.Event) :
  (forall ws, Browser.open_socket s = Some ws -> Browser.isConnected s = true) ->
  forall ws, Browser.open_socket (Browser.deliver JSON_parse s e) = Some ws ->
             Browser.isConnected (Browser.deliver JSON_parse s e) = true.
Proof.
  intros Hs ws.
  destruct e;
    try (match goal with
         | |- context [Browser.deliver _ _ ?e] =>
             destruct (browser_local_transport s e I)
               as (Hso & _ & _ & Hwr & Hic & _)
         end;
         unfold Browser.open_socket, Browser.readyState in *;
         rewrite Hso, Hwr, Hic; now apply Hs).
  - (* open *)
    cbn [Browser.deliver]. destruct (bool_decide _); [reflexivity|apply Hs].
  - (* closing handshake *)
    cbn [Browser.deliver]. case_bool_decide; [|apply Hs].
    destruct s as [st ms ic [wr|] rt ra inp so ti se co];
      browser_unfold; [|intros [=]].
    destruct (bool_decide (<[ws0:=CLOSING]> so !! wr = Some OPEN)) eqn:Hopen;
      [|intros [=]].
    intros _. apply bool_decide_eq_true_1, closing_lookup in Hopen.
    apply (Hs wr).
    now rewrite bool_decide_eq_true_2.
  - (* close *)
    cbn [Browser.deliver].
    destruct (Browser.readyState ws0 s) as [[]|]; try apply Hs;
      destruct s; unfold Browser.onclose; browser_unfold;
      case_cond; discriminate.
  - (* timeout *)
    destruct s as [st ms ic wr rt ra inp so ti se co].
    browser_unfold. destruct (ti !! h) as [t|]; [|apply Hs].
    destruct (Browser.pending t); [|apply Hs].
    rewrite list_lookup_middle by reflexivity.
    rewrite bool_decide_eq_false_2 by discriminate. discriminate.
  - (* mount *)
    destruct s as [st ms ic wr rt ra inp so ti se co].
    browser_unfold. rewrite list_lookup_middle by reflexivity.
    rewrite bool_decide_eq_false_2 by discriminate. discriminate.
  - (* cleanup *)
    destruct s as [st ms ic [wr|] [rt|] ra inp so ti se co];
      browser_unfold; try discriminate.
    all: rewrite list_lookup_alter_eq; destruct (so !! wr) as [[]|]; cbn;
      rewrite bool_decide_eq_false_2 by discriminate; discriminate.
Qed.

Lemma browser_reachable_connected (s : Browser.State) :
  Browser.reachable JSON_parse s ->
  forall ws, Browser.open_socket s = Some ws -> Browser.isConnected s = true.
Proof.
  intros [events ->].
  induction events as [|e events IH] using rev_ind; [discriminate|].
  unfold Browser.run. rewrite fold_left_app. cbn [fold_left].
  now apply browser_open_socket_connected.
Qed.


(** C10.  In the browser client both user-visible error signals are
    entries of the log with type [agent]: [sendPrompt] without an OPEN
    socket appends the not-connected notice (and does nothing else), and
    the close of a socket once the attempt counter has reached five
    appends the connection-lost notice next to the usual bookkeeping of
    [onclose]; no other field of the state carries either signal. *)
Theorem error_notices_are_log_entries (s : Browser.State) :
  Browser.type Browser.not_connected = Browser.agent
  /\ Browser.type Browser.connection_lost = Browser.agent
  /\ (forall prompt,
        Browser.open_socket s = None ->
        Browser.sendPrompt prompt s
        = Browser.setMessages (fun prev => prev ++ [Browser.not_connected]) s)
  /\ (forall ws x,
        Browser.readyState ws s = Some x -> x <> CLOSED ->
        Browser.reconnectAttemptsRef s = Browser.maxReconnectAttempts ->
        Browser.deliver JSON_parse s (Browser.WsClose ws)
        = Browser.setMessages (fun prev => prev ++ [Browser.connection_lost])
            (Browser.set_wsRef None
               (Browser.setIsConnected false
                  (Browser.print (ConsoleLog "WebSocket disconnected")
                     (Browser.set_sockets
                        (<[ws := CLOSED]> (Browser.sockets s)) s))))).
Proof.
  split; [reflexivity|]. split; [reflexivity|]. split.
  - intros prompt Hno. unfold Browser.sendPrompt. now rewrite Hno.
  - intros ws x Hx Hne Hra. cbn [Browser.deliver]. rewrite Hx.
    assert (Hgo : Browser.onclose
                    (Browser.set_sockets (<[ws := CLOSED]> (Browser.sockets s)) s)
                  = Browser.setMessages (fun prev => prev ++ [Browser.connection_lost])
            (Browser.set_wsRef None
               (Browser.setIsConnected false
                  (Browser.print (ConsoleLog "WebSocket disconnected")
                     (Browser.set_sockets
                        (<[ws := CLOSED]> (Browser.sockets s)) s))))).
    { unfold Browser.onclose. cbn. now rewrite Hra. }
    destruct x; try exact Hgo. contradiction.
Qed.

(** C5, as the code has it.  The gate is split over two functions of a
    reachable state.  [sendPrompt] checks the connection only: when
    [wsRef.current] is not an OPEN socket, as whenever [isConnected] is
    false, it sends nothing and appends the not-connected notice to the
    log; when the socket is OPEN it sends the [prompt] frame whatever the
    status is, for it neither reads nor writes the status.  The status is
    checked by [handleSubmit]: when [isConnected] is false or the status
    is not ["idle"], it sends no frame and leaves the status alone; with
    a status other than ["idle"], or a blank input, it changes nothing at
    all (and tells the user nothing); with the status ["idle"] and an
    input that is not blank the log gains exactly the not-connected
    notice. *)
Theorem rejected_submission (s : Browser.State) :
  Browser.reachable JSON_parse s ->
  (Browser.isConnected s = false -> Browser.open_socket s = None)
  /\ (Browser.open_socket s = None ->
      forall prompt,
        Browser.sendPrompt prompt s
        = Browser.setMessages (fun prev => prev ++ [Browser.not_connected]) s)
  /\ (forall ws prompt,
      Browser.open_socket s = Some ws ->
      Browser.sent (Browser.sendPrompt prompt s)
      = Browser.sent s ++ [(ws, prompt_frame prompt)])
  /\ (forall v prompt,
      Browser.sendPrompt prompt (Browser.setStatus v s)
      = Browser.setStatus v (Browser.sendPrompt prompt s))
  /\ (Browser.isConnected s = false \/ is_str (Browser.status s) "idle" = false ->
      let s' := Browser.handleSubmit s in
      Browser.sent s' = Browser.sent s
      /\ Browser.status s' = Browser.status s
      /\ (is_str (Browser.status s) "idle" = false -> s' = s)
      /\ (trim (Browser.input s) = "" -> s' = s)
      /\ (is_str (Browser.status s) "idle" = true ->
          trim (Browser.input s) <> "" ->
          Browser.messages s' = Browser.messages s ++ [Browser.not_connected])).
Proof.
  intros Hreach.
  assert (Hno : Browser.isConnected s = false -> Browser.open_socket s = None).
  { intros Hic. destruct (Browser.open_socket s) as [ws|] eqn:Hws; [|reflexivity].
    apply (browser_reachable_connected s Hreach) in Hws. congruence. }
  assert (Hdirect : Browser.open_socket s = None ->
      forall prompt,
        Browser.sendPrompt prompt s
        = Browser.setMessages (fun prev => prev ++ [Browser.not_connected]) s).
  { intros Hnone prompt. unfold Browser.sendPrompt. now rewrite Hnone. }
  split; [exact Hno|]. split; [exact Hdirect|]. split; [|split].
  - intros ws prompt Hws. unfold Browser.sendPrompt. now rewrite Hws.
  - intros v prompt. unfold Browser.sendPrompt.
    change (Browser.open_socket (Browser.setStatus v s))
      with (Browser.open_socket s).
    now destruct (Browser.open_socket s).
  - intros Hrej s'. subst s'. unfold Browser.handleSubmit.
    destruct (is_str (Browser.status s) "idle") eqn:Hidle.
    + destruct Hrej as [Hic|]; [|discriminate].
      destruct (trim (Browser.input s) =? "")%string eqn:Hblank;
        cbn [negb andb].
      * split; [reflexivity|]. split; [reflexivity|]. split; [discriminate|].
        split; [reflexivity|].
        intros _ Hne. now apply String.eqb_eq in Hblank.
      * rewrite (Hdirect (Hno Hic)).
        split; [reflexivity|]. split; [reflexivity|]. split; [discriminate|].
        split; [|reflexivity].
        intros Hempty. apply String.eqb_neq in Hblank. contradiction.
    + rewrite andb_false_r. split; [reflexivity|]. split; [reflexivity|].
      split; [reflexivity|]. split; [reflexivity|discriminate].
Qed.

(** C6, as the code has it.  In the browser client [sendPrompt] with an
    OPEN socket appends the user's text to the log as a [user] entry,
    then sends the one frame [{type: "prompt", content: text}] on that
    socket, and leaves the status alone; [handleSubmit] does so with the
    trimmed input when the status is ["idle"].  The desktop shell does
    the same with the trimmed, non-blank input, except that its frame is
    [{type: "task", content: text}]. *)
Theorem accepted_submission :
  (forall s ws prompt,
      Browser.open_socket s = Some ws ->
      let s' := Browser.sendPrompt prompt s in
      s' = Browser.ws_send ws (prompt_frame prompt)
             (Browser.addMessage (Browser.note Browser.user prompt) s)
      /\ Browser.messages s'
         = Browser.messages s ++ [Browser.note Browser.user prompt]
      /\ Browser.sent s' = Browser.sent s ++ [(ws, prompt_frame prompt)]
      /\ Browser.status s' = Browser.status s)
  /\ (forall s ws,
      Browser.open_socket s = Some ws ->
      is_str (Browser.status s) "idle" = true ->
      trim (Browser.input s) <> "" ->
      Browser.handleSubmit s
      = Browser.setInput "" (Browser.sendPrompt (trim (Browser.input s)) s))
  /\ (forall s sock,
      Electron.open_socket s = Some sock ->
      trim (Electron.messageInput s) <> "" ->
      let text := trim (Electron.messageInput s) in
      let s' := Electron.sendMessage s in
      s' = Electron.set_messageInput ""
             (Electron.ws_send sock (task_frame text)
                (Electron.addUserMessage text s))
      /\ Electron.messagesContainer s'
         = Electron.messagesContainer s
           ++ [{| Electron.className := "message user";
                  Electron.innerHTML := Electron.Escaped text |}]
      /\ Electron.sent s' = Electron.sent s ++ [(sock, task_frame text)]).
Proof.
  split; [|split].
  - intros s ws prompt Hws s'. subst s'. unfold Browser.sendPrompt.
    rewrite Hws. repeat split.
  - intros s ws Hws Hidle Hne. unfold Browser.handleSubmit.
    apply String.eqb_neq in Hne. now rewrite Hne, Hidle.
  - intros s sock Hsock Hne text s'. subst text s'.
    unfold Electron.sendMessage. apply String.eqb_neq in Hne.
    rewrite Hne, Hsock. repeat split.
Qed.

Lemma frame_type_in_single (name : string) (d : JSON) :
  d <> JNull ->
  frame_type_in [name] (Some d) = is_str (member "type" d) name.
Proof.
  intros Hd. destruct d; try contradiction; cbn;
    reflexivity || apply orb_false_r.
Qed.

Lemma browser_status_onmessage (data : string) (s : Browser.State) :
  frame_type_in ["status"] (JSON_parse data) = false ->
  Browser.status (Browser.onmessage JSON_parse data s) = Browser.status s.
Proof.
  intros He. unfold Browser.onmessage.
  destruct (JSON_parse data) as [[]|]; try reflexivity;
    cbn [frame_type_in existsb] in He;
    rewrite orb_false_r in He; unfold Browser.dispatch; cbv zeta;
    rewrite He; repeat case_cond; reflexivity.
Qed.

Lemma browser_status_deliver (s : Browser.State) (e : Browser.Event) :
  Browser.status_frame JSON_parse e = false ->
  Browser.status (Browser.deliver JSON_parse s e) = Browser.status s.
Proof.
  intros He. destruct e; cbn in He.
  2:{ cbn [Browser.deliver]. destruct (bool_decide _); [|reflexivity].
      now apply browser_status_onmessage. }
  all: destruct s as [st ms ic [wr|] [rt|] ra inp so ti se co];
    browser_unfold;
    repeat (case_cond; browser_unfold; cbn [negb andb]); reflexivity.
Qed.

(** C7, as the code has it.  No event other than the arrival of a
    decodable [status] frame on an OPEN socket changes the status, over
    single events and over whole runs; and such a frame sets the status
    to whatever its [content] is, without checking that it is one of the
    three status words. *)
Theorem status_set_only_by_status_frames :
  (forall s e,
      Browser.status_frame JSON_parse e = false ->
      Browser.status (Browser.deliver JSON_parse s e) = Browser.status s)
  /\ (forall events s,
      forallb (fun e => negb (Browser.status_frame JSON_parse e)) events = true ->
      Browser.status (Browser.run JSON_parse s events) = Browser.status s)
  /\ (forall s ws data,
      Browser.readyState ws s <> Some OPEN ->
      Browser.deliver JSON_parse s (Browser.WsMessage ws data) = s)
  /\ (forall s ws data d,
      Browser.readyState ws s = Some OPEN ->
      JSON_parse data = Some d ->
      is_str (member "type" d) "status" = true ->
      Browser.status (Browser.deliver JSON_parse s (Browser.WsMessage ws data))
      = member "content" d).
Proof.
  split; [exact browser_status_deliver|]. split; [|split].
  - unfold Browser.run.
    induction events as [|e events IH]; intros s Hev; [reflexivity|].
    cbn [forallb] in Hev. apply andb_true_iff in Hev as [He Hev].
    cbn [fold_left]. rewrite (IH _ Hev). apply browser_status_deliver.
    now apply negb_true_iff.
  - intros s ws data Hne. cbn [Browser.deliver].
    now rewrite bool_decide_eq_false_2.
  - intros s ws data d Hopen Hd Hty. cbn [Browser.deliver].
    rewrite bool_decide_eq_true_2 by assumption.
    unfold Browser.onmessage. rewrite Hd.
    destruct d; try discriminate Hty; unfold Browser.dispatch; cbv zeta;
      now rewrite Hty.
Qed.

(** *** Log entries by frame type *)

Lemma browser_dispatch_length (d : JSON) (s : Browser.State) :
  length (Browser.messages (Browser.dispatch d s))
  = length (Browser.messages s)
    + (if existsb (is_str (member "type" d)) ["agent"; "result"] then 1 else 0).
Proof.
  unfold Browser.dispatch. cbv zeta. cbn [existsb].
  case_type d; cbn; rewrite ?length_app; cbn; lia.
Qed.

Lemma electron_dispatch_length (d : JSON) (s : Electron.State) :
  length (Electron.messagesContainer (Electron.dispatch d s))
  = length (Electron.messagesContainer s)
    + (if existsb (is_str (member "type" d))
            ["status"; "agent"; "result"; "reflection"; "complete"]
       then 1 else 0).
Proof.
  unfold Electron.dispatch. cbv zeta. cbn [existsb].
  case_type d; cbn; rewrite ?length_app; cbn; lia.
Qed.

Lemma browser_perform_length (s : Browser.State) (op : Op) :
  length (Browser.messages (browser_perform JSON_parse s op))
  = length (Browser.messages s)
    + (if inbound_of JSON_parse ["agent"; "result"] op then 1 else 0)
    + (if is_prompt op then 1 else 0).
Proof.
  destruct op as [data|text]; cbn [browser_perform inbound_of is_prompt].
  - unfold Browser.onmessage.
    destruct (JSON_parse data) as [d|]; [|cbn; lia].
    destruct d; try (rewrite browser_dispatch_length; cbn [frame_type_in]; lia).
    cbn; lia.
  - unfold Browser.sendPrompt.
    destruct (Browser.open_socket s); cbn; rewrite length_app; cbn; lia.
Qed.

Lemma electron_dispatch_socket (d : JSON) (s : Electron.State) :
  Electron.open_socket (Electron.dispatch d s) = Electron.open_socket s.
Proof.
  unfold Electron.dispatch. cbv zeta. repeat case_cond; reflexivity.
Qed.

Lemma electron_perform_length (s : Electron.State) (op : Op) :
  Electron.open_socket (electron_perform JSON_parse s op)
  = Electron.open_socket s
  /\ length (Electron.messagesContainer (electron_perform JSON_parse s op))
     = length (Electron.messagesContainer s)
       + (if inbound_of JSON_parse
               ["status"; "agent"; "result"; "reflection"; "complete"] op
          then 1 else 0)
       + match Electron.open_socket s with
         | Some _ => if nonblank_prompt op then 1 else 0
         | None => 0
         end.
Proof.
  destruct op as [data|text]; cbn [electron_perform inbound_of nonblank_prompt].
  - unfold Electron.onmessage.
    destruct (JSON_parse data) as [d|].
    2:{ split; [reflexivity|]. destruct (Electron.open_socket s); cbn; lia. }
    destruct d; cbn [Electron.handleMessage frame_type_in];
      rewrite ?electron_dispatch_length, ?electron_dispatch_socket;
      (split; [reflexivity|]); destruct (Electron.open_socket s); cbn; lia.
  - unfold Electron.sendMessage. cbn [Electron.messageInput Electron.set_messageInput].
    change (Electron.open_socket (Electron.set_messageInput text s))
      with (Electron.open_socket s).
    destruct (trim text =? "")%string; cbn [negb].
    + split; [reflexivity|]. destruct (Electron.open_socket s); cbn; lia.
    + destruct (Electron.open_socket s) as [sock|] eqn:Hsock.
      * split; [exact Hsock|]. cbn. rewrite length_app. cbn. lia.
      * split; [exact Hsock|]. cbn. lia.
Qed.

(** C3, as the code has it.  After any sequence of inbound frames and
    submissions the browser's log has grown by one entry per decoded
    [agent] or [result] frame and one per [sendPrompt] call (the user's
    text when the socket is OPEN, the not-connected notice otherwise);
    [status], [reflection], [complete] and [pong] frames add nothing
    there.  The desktop shell's log has grown by one entry per decoded
    [status], [agent], [result], [reflection] or [complete] frame and one
    per non-blank submission made while the socket is OPEN; [pong] adds
    nothing.  Its [reflection] and [complete] entries are built exactly
    like an agent message, with no kind of their own. *)
Theorem log_length_by_frame_type (ops : list Op) :
  (forall s,
      length (Browser.messages (fold_left (browser_perform JSON_parse) ops s))
      = length (Browser.messages s)
        + count (inbound_of JSON_parse ["agent"; "result"]) ops
        + count is_prompt ops)
  /\ (forall s,
      length (Electron.messagesContainer
                (fold_left (electron_perform JSON_parse) ops s))
      = length (Electron.messagesContainer s)
        + count (inbound_of JSON_parse
                   ["status"; "agent"; "result"; "reflection"; "complete"]) ops
        + match Electron.open_socket s with
          | Some _ => count nonblank_prompt ops
          | None => 0
          end)
  /\ (forall d s,
      Electron.addReflectionMessage d s
      = Electron.addAgentMessage (member "content" d) s
      /\ Electron.addCompleteMessage d s
         = Electron.addAgentMessage (member "content" d) s).
Proof.
  split; [|split].
  - induction ops as [|op ops IH]; intros s; [cbn; lia|].
    cbn [fold_left count]. rewrite IH, browser_perform_length.
    destruct (inbound_of _ _ op), (is_prompt op); lia.
  - induction ops as [|op ops IH]; intros s.
    { cbn. destruct (Electron.open_socket s); lia. }
    cbn [fold_left count]. rewrite IH.
    destruct (electron_perform_length s op) as [-> ->].
    destruct (Electron.open_socket s), (inbound_of _ _ op),
      (nonblank_prompt op); lia.
  - intros d s. split; reflexivity.
Qed.

(** *** The heartbeat of the desktop shell *)

Lemma electron_dispatch_intervals (d : JSON) (s : Electron.State) :
  Electron.intervals (Electron.dispatch d s) = Electron.intervals s
  /\ Electron.reconnectInterval (Electron.dispatch d s)
     = Electron.reconnectInterval s.
Proof.
  unfold Electron.dispatch. cbv zeta. repeat case_cond; split; reflexivity.
Qed.

Lemma electron_heartbeat_kept (s : Electron.State) (e : Electron.Event) :
  Electron.heartbeat_running s ->
  Electron.heartbeat_running (Electron.deliver JSON_parse s e).
Proof.
  unfold Electron.heartbeat_running.
  destruct s as [w ri mc sd stx mi so iv se co].
  cbn [Electron.intervals Electron.reconnectInterval].
  intros [Hb Hri]. destruct e.
  - (* open *)
    cbn [Electron.deliver]. destruct (bool_decide _); [|now split].
    electron_unfold. destruct ri as [[|h]|]; try contradiction; split; auto.
    now rewrite list_lookup_alter_ne by lia.
  - (* message *)
    cbn [Electron.deliver]. destruct (bool_decide _); [|now split].
    unfold Electron.onmessage.
    destruct (JSON_parse data) as [d|]; [|now split].
    destruct d; cbn [Electron.handleMessage]; try (now split);
      match goal with
      | |- context [Electron.dispatch ?d ?s] =>
          destruct (electron_dispatch_intervals d s) as [-> ->]
      end; now split.
  - (* error *)
    cbn [Electron.deliver]. unfold Electron.readyState. cbn [Electron.sockets].
    destruct (so !! sock) as [[]|]; now split.
  - (* closing handshake *)
    cbn [Electron.deliver]. destruct (bool_decide _); now split.
  - (* close *)
    cbn [Electron.deliver]. unfold Electron.readyState. cbn [Electron.sockets].
    assert (Hlen : length iv <> 0).
    { intros Hz. apply length_zero_iff_nil in Hz. subst iv. discriminate. }
    destruct (so !! sock) as [[]|]; try (now split); electron_unfold;
      (split; [now apply lookup_app_l_Some|congruence]).
  - (* interval *)
    cbn [Electron.deliver Electron.intervals].
    destruct (iv !! h) as [i|]; [|now split].
    destruct (Electron.active i); [|now split].
    destruct (Electron.callback i), w; electron_unfold;
      repeat case_cond; now split.
  - (* typing *)
    now split.
  - (* send *)
    destruct w; electron_unfold; repeat case_cond; now split.
Qed.

Lemma electron_heartbeat_run (events : list Electron.Event) (s : Electron.State) :
  Electron.heartbeat_running s ->
  Electron.heartbeat_running (Electron.run JSON_parse s events).
Proof.
  revert s. induction events as [|e events IH]; intros s Hs; [exact Hs|].
  cbn. apply IH. now apply electron_heartbeat_kept.
Qed.

(** C8.  In the desktop shell the interval registered with a period of
    30000 ms stays registered and running through every run.  Whenever
    it comes due while the current socket is OPEN it sends exactly the
    frame [{type: "ping"}] on that socket and changes nothing else,
    whatever the rest of the state is; with no OPEN socket it does
    nothing.  A decoded [pong] frame writes one console line and changes
    nothing else, in either client. *)
Theorem heartbeat_and_pong :
  (forall events,
      let s := Electron.run JSON_parse Electron.init events in
      Electron.intervals s !! 0 = Some Electron.heartbeat_interval
      /\ (forall sock,
            Electron.open_socket s = Some sock ->
            Electron.deliver JSON_parse s (Electron.IntervalFires 0)
            = Electron.set_sent (Electron.sent s ++ [(sock, ping_frame)]) s)
      /\ (Electron.open_socket s = None ->
          Electron.deliver JSON_parse s (Electron.IntervalFires 0) = s))
  /\ (forall data d,
        JSON_parse data = Some d ->
        is_str (member "type" d) "pong" = true ->
        (forall s, Electron.onmessage JSON_parse data s
                   = Electron.print (ConsoleLog "Pong received") s)
        /\ (forall s, Browser.onmessage JSON_parse data s
                      = Browser.print (ConsoleLog "Unknown message type:") s)).
Proof.
  split.
  - intros events s.
    assert (Hrun : Electron.heartbeat_running s).
    { apply electron_heartbeat_run. split; [reflexivity|discriminate]. }
    destruct Hrun as [Hb _]. split; [exact Hb|].
    cbn [Electron.deliver]. rewrite Hb. cbn. unfold Electron.heartbeat.
    split.
    + intros sock ->. reflexivity.
    + intros ->. reflexivity.
  - intros data d Hd Hty. apply is_str_true in Hty. split; intros s.
    + unfold Electron.onmessage. rewrite Hd.
      destruct d; try discriminate Hty.
      cbn [Electron.handleMessage]. unfold Electron.dispatch.
      cbv zeta. now rewrite Hty.
    + unfold Browser.onmessage. rewrite Hd.
      destruct d; try discriminate Hty.
      unfold Browser.dispatch. cbv zeta. now rewrite Hty.
Qed.

(** *** Teardown of the browser client *)

(** C9 fails on the browser client.  After the socket has opened, the
    effect's cleanup runs and closes it; the close event of that socket
    then reaches [onclose], which schedules a retry as for any other
    close; the timeout fires, a second socket is created, and it opens.
    What the cleanup does achieve: a timeout already pending when it runs
    is cancelled, and its firing creates no socket. *)
Theorem teardown_does_not_stop_reconnecting :
  (let s := Browser.run JSON_parse Browser.start
              [Browser.WsOpen 0; Browser.Cleanup] in
   let s' := Browser.run JSON_parse s
               [Browser.WsClose 0; Browser.TimeoutFires 0; Browser.WsOpen 1] in
   Browser.sockets s = [CLOSING]
   /\ Browser.timeouts s = []
   /\ Browser.sockets s' = [CLOSED; OPEN]
   /\ Browser.scheduled s' = [1000%Z]
   /\ Browser.open_socket s' = Some 1
   /\ Browser.isConnected s' = true)
  /\ (let s := Browser.run JSON_parse Browser.start
                 [Browser.WsClose 0; Browser.Cleanup;
                  Browser.TimeoutFires 0] in
      Browser.sockets s = [CLOSED]
      /\ Browser.timeouts s
         = [{| Browser.delay := 1000; Browser.pending := false |}]).
Proof. split; vm_compute; auto 10. Qed.

(** *** The two clients side by side *)

Lemma alike_dispatch (d : JSON) (sb : Browser.State) (se : Electron.State) :
  existsb (is_str (member "type" d)) ["status"; "reflection"; "complete"] = false ->
  alike sb se -> alike (Browser.dispatch d sb) (Electron.dispatch d se).
Proof.
  unfold alike, Browser.dispatch, Electron.dispatch, Browser.scheduled,
    Electron.scheduled.
  destruct sb, se. cbv zeta. cbn [existsb]. intros Hd (? & ? & ? & ? & ?).
  case_type d; try discriminate Hd; browser_unfold; electron_unfold;
    rewrite ?length_app; cbn [length]; repeat split; auto; lia.
Qed.

Lemma alike_deliver (i : Input) (sb : Browser.State) (se : Electron.State) :
  common_input JSON_parse i = true ->
  alike sb se ->
  alike (Browser.run JSON_parse sb (browser_events sb i))
        (Electron.run JSON_parse se (electron_events se i)).
Proof.
  intros Hi Hal. pose proof Hal as (Hso & Hri & Hsch & Hlen & Hsent).
  destruct i; try discriminate Hi;
    cbn [browser_events electron_events Browser.run Electron.run fold_left
         Browser.deliver Electron.deliver];
    unfold Browser.readyState, Electron.readyState; rewrite <- Hso.
  - (* a socket opens *)
    destruct (bool_decide _); [|exact Hal].
    unfold alike in *. destruct sb, se. cbn in Hri, Hso. subst.
    repeat split; assumption.
  - (* a frame arrives *)
    destruct (bool_decide _); [|exact Hal].
    unfold Browser.onmessage, Electron.onmessage.
    cbn [common_input] in Hi. apply negb_true_iff in Hi.
    destruct (JSON_parse data) as [d|]; [|exact Hal].
    destruct d; cbn [Electron.handleMessage]; try exact Hal;
      now apply alike_dispatch.
Qed.


Lemma alike_drive (inputs : list Input) (sb : Browser.State) (se : Electron.State) :
  forallb (common_input JSON_parse) inputs = true ->
  alike sb se ->
  alike (browser_drive JSON_parse sb inputs) (electron_drive JSON_parse se inputs).
Proof.
  revert sb se. induction inputs as [|i inputs IH]; intros sb se Hin Hal;
    [exact Hal|].
  cbn [forallb] in Hin. apply andb_true_iff in Hin as [Hi Hin].
  unfold browser_drive, electron_drive. cbn [fold_left].
  apply IH; [exact Hin|]. now apply alike_deliver.
Qed.

Lemma browser_sends_prompts_only (s : Browser.State) (e : Browser.Event) :
  Browser.sent (Browser.deliver JSON_parse s e) = Browser.sent s
  \/ exists ws text,
       Browser.sent (Browser.deliver JSON_parse s e)
       = Browser.sent s ++ [(ws, prompt_frame text)].
Proof.
  destruct s as [st ms ic [wr|] [rt|] ra inp so ti se co];
  destruct e; browser_unfold;
    try destruct (JSON_parse data) as [[]|];
    repeat (case_cond; browser_unfold; cbn [negb andb]); eauto.
Qed.

Lemma electron_sends_tasks_and_pings (s : Electron.State) (e : Electron.Event) :
  Electron.sent (Electron.deliver JSON_parse s e) = Electron.sent s
  \/ (exists sock,
       Electron.sent (Electron.deliver JSON_parse s e)
       = Electron.sent s ++ [(sock, ping_frame)])
  \/ (exists sock text,
       Electron.sent (Electron.deliver JSON_parse s e)
       = Electron.sent s ++ [(sock, task_frame text)]).
Proof.
  destruct s as [[w|] [ri|] mc sd stx mi so iv se co];
  destruct e; electron_unfold;
    try destruct (JSON_parse data) as [[]|];
    repeat (case_cond; electron_unfold; cbn [negb andb]); eauto.
Qed.

(** C2, as the code has it.  The two clients are observed alike (same
    reconnect delays requested, same log length, same frames sent) on
    every sequence of inputs made of sockets opening and of inbound frames
    other than [status], [reflection] and [complete].  Beyond that they
    differ by construction: every close of a live socket makes the
    desktop shell register one more 3000 ms reconnect interval, with no
    bound, where the browser client follows its capped five-step backoff;
    the browser client never sends anything but [prompt] frames, the
    desktop shell never anything but [task] and [ping] frames. *)
Theorem clients_agree_on_common_inputs :
  (forall inputs,
      forallb (common_input JSON_parse) inputs = true ->
      browser_observe (browser_drive JSON_parse Browser.start inputs)
      = electron_observe (electron_drive JSON_parse Electron.init inputs))
  /\ (forall s sock x,
        Electron.readyState sock s = Some x -> x <> CLOSED ->
        Electron.scheduled (Electron.deliver JSON_parse s (Electron.WsClose sock))
        = Electron.scheduled s ++ [3000%Z])
  /\ (forall s e,
        Browser.sent (Browser.deliver JSON_parse s e) = Browser.sent s
        \/ exists ws text,
             Browser.sent (Browser.deliver JSON_parse s e)
             = Browser.sent s ++ [(ws, prompt_frame text)])
  /\ (forall s e,
        Electron.sent (Electron.deliver JSON_parse s e) = Electron.sent s
        \/ (exists sock,
             Electron.sent (Electron.deliver JSON_parse s e)
             = Electron.sent s ++ [(sock, ping_frame)])
        \/ (exists sock text,
             Electron.sent (Electron.deliver JSON_parse s e)
             = Electron.sent s ++ [(sock, task_frame text)])).
Proof.
  split; [|split; [intros s sock x Hx Hne;
                   apply (electron_close_schedules s sock x Hx Hne)|
           split; [exact browser_sends_prompts_only|
                   exact electron_sends_tasks_and_pings]]].
  intros inputs Hin.
  assert (Hstart : alike Browser.start Electron.init) by (repeat split).
  destruct (alike_drive inputs _ _ Hin Hstart) as (_ & _ & Hsch & Hlen & Hsent).
  unfold browser_observe, electron_observe. now rewrite Hsch, Hlen, Hsent.
Qed.

End Properties.

(** ** Instances on the sample frames *)

Lemma start_stable : Browser.Stable Browser.start.
Proof.
  split; [exists 0, CONNECTING; split; [discriminate|reflexivity]|].
  split; [constructor|reflexivity].
Qed.

(** Five failures from the first connection: the delays are those of the
    backoff table. *)
Lemma reconnect_backoff_witness :
  let s := Browser.run sample_parse Browser.start five_failures in
  drop (length (Browser.scheduled Browser.start)) (Browser.scheduled s)
  = take (Browser.closes s - Browser.closes Browser.start)
      Browser.backoff_delays.
Proof.
  destruct (reconnect_backoff sample_parse Browser.start five_failures
              start_stable eq_refl) as (_ & H & _).
  exact H.
Defined.

Example five_failures_delays :
  Browser.scheduled (Browser.run sample_parse Browser.start five_failures)
  = [1000; 2000; 4000; 8000; 10000]%Z.
Proof. vm_compute. reflexivity. Qed.

(** C1 does not hold of the desktop shell: five closes in a row, the
    first reconnect interval coming due in between, register five
    intervals of 3000 ms, none of them cancelled; a sixth close registers a
    sixth; and the log stays empty, no connection-lost entry being
    written. *)
Lemma desktop_reconnect_is_a_fixed_interval :
  let s := Electron.run sample_parse Electron.init
             [Electron.WsClose 0; Electron.IntervalFires 1;
              Electron.WsClose 1; Electron.IntervalFires 1;
              Electron.WsClose 2; Electron.IntervalFires 1;
              Electron.WsClose 3; Electron.IntervalFires 1;
              Electron.WsClose 4] in
  let s' := Electron.run sample_parse s
              [Electron.IntervalFires 1; Electron.WsClose 5] in
  Electron.scheduled s = [3000; 3000; 3000; 3000; 3000]%Z
  /\ Electron.scheduled s <> Browser.backoff_delays
  /\ Electron.scheduled s' = [3000; 3000; 3000; 3000; 3000; 3000]%Z
  /\ Electron.messagesContainer s' = []
  /\ Forall (fun i => Electron.active i = true) (Electron.intervals s').
Proof.
  vm_compute. repeat split; try discriminate.
  repeat constructor.
Qed.

(** C2 does not hold: after a single close the browser client has asked
    for a retry in 1000 ms and the desktop shell for one every 3000 ms. *)
Lemma implementations_differ : ~ implementations_match sample_parse.
Proof.
  intros H. specialize (H [Closes]).
  assert (Hb : browser_observe (browser_drive sample_parse Browser.start [Closes])
               = {| delays := [1000%Z]; log_length := 0; frames := [] |})
    by (vm_compute; reflexivity).
  assert (He : electron_observe (electron_drive sample_parse Electron.init [Closes])
               = {| delays := [3000%Z]; log_length := 0; frames := [] |})
    by (vm_compute; reflexivity).
  rewrite Hb, He in H. discriminate H.
Qed.

Example dispatch_differs :
  browser_observe
    (browser_drive sample_parse Browser.start
       [Opens; Receives status_idle; Receives reflection_retrying])
  = {| delays := []; log_length := 0; frames := [] |}
  /\ electron_observe
       (electron_drive sample_parse Electron.init
          [Opens; Receives status_idle; Receives reflection_retrying])
     = {| delays := []; log_length := 2; frames := [] |}.
Proof. split; vm_compute; reflexivity. Qed.

Example outbound_differs :
  browser_observe
    (browser_drive sample_parse Browser.start
       [Opens; Submits "hi"; HeartbeatDue])
  = {| delays := []; log_length := 1; frames := [prompt_frame "hi"] |}
  /\ electron_observe
       (electron_drive sample_parse Electron.init
          [Opens; Submits "hi"; HeartbeatDue])
     = {| delays := []; log_length := 1;
          frames := [task_frame "hi"; ping_frame] |}.
Proof. split; vm_compute; reflexivity. Qed.

Lemma clients_agree_on_common_inputs_witness :
  browser_observe
    (browser_drive sample_parse Browser.start
       [Opens; Receives agent_hello; Receives garbage; Receives pong])
  = electron_observe
      (electron_drive sample_parse Electron.init
         [Opens; Receives agent_hello; Receives garbage; Receives pong]).
Proof.
  exact (proj1 (clients_agree_on_common_inputs sample_parse)
           [Opens; Receives agent_hello; Receives garbage; Receives pong]
           eq_refl).
Defined.

(** C3 does not hold of either client: the browser's log stays empty
    after a [reflection] and a [complete] frame, where the description
    counts two entries; the desktop shell's log has one entry after a
    [status] frame, where the description counts none. *)
Lemma log_length_differs_from_description :
  let ops := [Inbound reflection_retrying; Inbound complete_finished] in
  let ops' := [Inbound status_idle] in
  length (Browser.messages
            (fold_left (browser_perform sample_parse) ops
               (Browser.run sample_parse Browser.start [Browser.WsOpen 0])))
  = 0
  /\ described_log_length sample_parse ops = 2
  /\ length (Electron.messagesContainer
               (fold_left (electron_perform sample_parse) ops'
                  (Electron.run sample_parse Electron.init [Electron.WsOpen 0])))
     = 1
  /\ described_log_length sample_parse ops' = 0.
Proof. vm_compute. repeat split. Qed.

(** C4 on the sample frames. *)
Lemma malformed_frame_dropped_witness :
  Browser.messages
    (Browser.run sample_parse Browser.start
       [Browser.WsOpen 0; Browser.WsMessage 0 garbage;
        Browser.WsMessage 0 agent_hello])
  = [ {| Browser.type := Browser.agent;
         Browser.content := assoc "content"
                              [("type", JStr "agent"); ("content", JStr "hello")];
         Browser.step := None; Browser.success := None;
         Browser.stepNumber := None; Browser.totalSteps := None |} ]
  /\ Electron.messagesContainer
       (Electron.run sample_parse Electron.init
          [Electron.WsOpen 0; Electron.WsMessage 0 garbage;
           Electron.WsMessage 0 agent_hello])
     = [ {| Electron.className := "message agent";
            Electron.innerHTML :=
              Electron.Formatted
                (assoc "content"
                   [("type", JStr "agent"); ("content", JStr "hello")]) |} ].
Proof.
  exact (proj2 (proj2 (proj2 (proj2
           (malformed_frame_dropped sample_parse garbage eq_refl))))
           agent_hello [("type", JStr "agent"); ("content", JStr "hello")]
           eq_refl eq_refl).
Defined.

(** C5 does not hold as stated.  A submission made while [isConnected]
    is false is rejected by adding the not-connected notice to the log,
    which therefore changes.  And [sendPrompt] itself does not look at
    the status: called with an OPEN socket while the status is
    ["executing"], it sends the [prompt] frame. *)
Lemma rejected_submission_changes_log :
  let s := Browser.run sample_parse Browser.init
             [Browser.Mount; Browser.Type_ "hi"] in
  let busy := Browser.run sample_parse Browser.start
                [Browser.WsOpen 0; Browser.WsMessage 0 status_executing] in
  (Browser.isConnected s = false
   /\ Browser.messages s = []
   /\ Browser.messages (Browser.handleSubmit s) = [Browser.not_connected]
   /\ Browser.messages (Browser.handleSubmit s) <> Browser.messages s)
  /\ (Browser.isConnected busy = true
      /\ Browser.status busy = Some (JStr "executing")
      /\ Browser.sent busy = []
      /\ Browser.sent (Browser.sendPrompt "hi" busy) = [(0, prompt_frame "hi")]).
Proof. vm_compute. repeat split. discriminate. Qed.

Lemma hi_not_empty : trim "hi" <> "".
Proof. intros H. cbv in H. discriminate H. Qed.

(** C5 on a submission typed before the first socket has opened. *)
Lemma rejected_submission_witness :
  let s := Browser.run sample_parse Browser.init
             [Browser.Mount; Browser.Type_ "hi"] in
  let s' := Browser.handleSubmit s in
  Browser.open_socket s = None
  /\ (forall prompt,
        Browser.sendPrompt prompt s
        = Browser.setMessages (fun prev => prev ++ [Browser.not_connected]) s)
  /\ Browser.sent s' = Browser.sent s
  /\ Browser.status s' = Browser.status s
  /\ Browser.messages s' = Browser.messages s ++ [Browser.not_connected].
Proof.
  destruct (rejected_submission sample_parse
              (Browser.run sample_parse Browser.init
                 [Browser.Mount; Browser.Type_ "hi"])
              (ex_intro _ [Browser.Mount; Browser.Type_ "hi"] eq_refl))
    as (H1 & H2 & _ & _ & H5).
  destruct (H5 (or_introl eq_refl)) as (Hs & Hst & _ & _ & Hm).
  exact (conj (H1 eq_refl)
           (conj (H2 (H1 eq_refl))
              (conj Hs (conj Hst (Hm eq_refl hi_not_empty))))).
Defined.

(** C6 does not hold of the desktop shell: the frame it sends for a
    submission has type ["task"]. *)
Lemma desktop_submission_is_a_task :
  let s := Electron.run sample_parse Electron.init
             [Electron.WsOpen 0; Electron.Type_ "hi"] in
  Electron.open_socket s = Some 0
  /\ Electron.sent (Electron.sendMessage s) = [(0, task_frame "hi")]
  /\ task_frame "hi" <> prompt_frame "hi".
Proof. vm_compute. repeat split. discriminate. Qed.

Lemma accepted_submission_witness :
  let s := Browser.run sample_parse Browser.start [Browser.WsOpen 0] in
  let s' := Browser.sendPrompt "hi" s in
  s' = Browser.ws_send 0 (prompt_frame "hi")
         (Browser.addMessage (Browser.note Browser.user "hi") s)
  /\ Browser.messages s'
     = Browser.messages s ++ [Browser.note Browser.user "hi"]
  /\ Browser.sent s' = Browser.sent s ++ [(0, prompt_frame "hi")]
  /\ Browser.status s' = Browser.status s.
Proof.
  exact (proj1 accepted_submission
           (Browser.run sample_parse Browser.start [Browser.WsOpen 0])
           0 "hi" eq_refl).
Defined.

(** C7 does not hold as stated: a [status] frame carrying ["paused"]
    changes the status, to a value that is none of the three words. *)
Lemma status_frame_content_is_unchecked :
  let s := Browser.run sample_parse Browser.start [Browser.WsOpen 0] in
  let s' := Browser.deliver sample_parse s (Browser.WsMessage 0 status_paused) in
  Browser.status s = Some (JStr "idle")
  /\ Browser.status s' = Some (JStr "paused")
  /\ ~ In (Browser.status s')
         [Some (JStr "idle"); Some (JStr "planning"); Some (JStr "executing")].
Proof.
  vm_compute. repeat split.
  intros [H|[H|[H|[]]]]; discriminate H.
Qed.

Lemma status_set_only_by_status_frames_witness :
  Browser.status
    (Browser.run sample_parse Browser.start
       [Browser.WsOpen 0; Browser.WsMessage 0 agent_hello;
        Browser.SendPrompt "hi"; Browser.WsClose 0; Browser.ClearMessages])
  = Browser.status Browser.start.
Proof.
  exact (proj1 (proj2 (status_set_only_by_status_frames sample_parse))
           [Browser.WsOpen 0; Browser.WsMessage 0 agent_hello;
            Browser.SendPrompt "hi"; Browser.WsClose 0; Browser.ClearMessages]
           Browser.start eq_refl).
Defined.

(** C8 on a run that opens the first socket. *)
Lemma heartbeat_and_pong_witness :
  let s := Electron.run sample_parse Electron.init [Electron.WsOpen 0] in
  Electron.deliver sample_parse s (Electron.IntervalFires 0)
  = Electron.set_sent (Electron.sent s ++ [(0, ping_frame)]) s.
Proof.
  exact (proj1 (proj2 (proj1 (heartbeat_and_pong sample_parse)
                         [Electron.WsOpen 0])) 0 eq_refl).
Defined.

(** C10 on the state reached after five failures and the fifth retry. *)
Lemma error_notices_are_log_entries_witness :
  let s := Browser.run sample_parse Browser.start
             (five_failures ++ [Browser.TimeoutFires 4]) in
  Browser.deliver sample_parse s (Browser.WsClose 5)
  = Browser.setMessages (fun prev => prev ++ [Browser.connection_lost])
      (Browser.set_wsRef None
         (Browser.setIsConnected false
            (Browser.print (ConsoleLog "WebSocket disconnected")
               (Browser.set_sockets
                  (<[5 := CLOSED]> (Browser.sockets s)) s)))).
Proof.
  exact (proj2 (proj2 (proj2
           (error_notices_are_log_entries sample_parse
              (Browser.run sample_parse Browser.start
                 (five_failures ++ [Browser.TimeoutFires 4])))))
           5 CONNECTING eq_refl ltac:(discriminate) eq_refl).
Defined.

(** ** Further properties *)

Lemma settled_lookup (l : list Browser.Timeout) (h : nat) (t : Browser.Timeout) :
  settled l -> l !! h = Some t -> Browser.pending t = false.
Proof. intros Hl H. unfold settled in Hl. rewrite Forall_lookup in Hl. eauto. Qed.

Lemma session_ext (s s' : Browser.State) :
  Browser.sockets s' = Browser.sockets s ->
  Browser.timeouts s' = Browser.timeouts s ->
  Browser.reconnectAttemptsRef s' = Browser.reconnectAttemptsRef s ->
  Browser.wsRef s' = Browser.wsRef s ->
  Browser.isConnected s' = Browser.isConnected s ->
  Browser.reconnectTimeoutRef s' = Browser.reconnectTimeoutRef s ->
  Session s -> Session s'.
Proof.
  intros Hso Hti Hra Hwr Hic Hrt
    [k ? ? ? ? ?|k r ? ? ? ? ? ?|k finished t ? ? ? ? ? ? ? ?|k ? ? ? ? ?].
  - apply SessionConnecting with k; congruence.
  - apply SessionOpen with k r; congruence.
  - apply SessionWaiting with k finished t; congruence.
  - apply SessionGivenUp with k; congruence.
Qed.

Section Sessions.

Variable JSON_parse : string -> option JSON.

Lemma session_open (s : Browser.State) (ws : nat) :
  Session s -> Session (Browser.deliver JSON_parse s (Browser.WsOpen ws)).
Proof.
  intros Hs. cbn [Browser.deliver]. unfold Browser.readyState.
  destruct (bool_decide _) eqn:Hdec; [|exact Hs].
  apply bool_decide_eq_true_1 in Hdec.
  destruct s as [st ms ic wr rt ra inp so ti se co].
  destruct Hs as [k Hso Hwr Hic Hti Hra|k r Hr Hso Hwr Hic Hti Hra
                 |k finished t Hso Hwr Hic Hti Hfin Ht Hrt Hra|k Hso Hwr Hic Hti Hra];
    cbn in *; subst.
  - apply live_socket in Hdec as [-> _]; [|discriminate].
    apply SessionOpen with k OPEN; cbn; auto.
    rewrite insert_app_r_alt by (rewrite length_replicate; lia).
    now rewrite length_replicate, Nat.sub_diag.
  - apply live_socket in Hdec as [_ <-]; [|discriminate].
    destruct Hr; discriminate.
  - apply lookup_replicate in Hdec as [? _]. discriminate.
  - apply lookup_replicate in Hdec as [? _]. discriminate.
Qed.

Lemma session_close (s : Browser.State) (ws : nat) :
  Session s -> Session (Browser.deliver JSON_parse s (Browser.WsClose ws)).
Proof.
  intros Hs. cbn [Browser.deliver].
  destruct (Browser.readyState ws s) as [x|] eqn:Hx; [|exact Hs].
  destruct (decide (x = CLOSED)) as [->|Hne]; [exact Hs|].
  assert (Hgo : Session (Browser.onclose
            (Browser.set_sockets (<[ws := CLOSED]> (Browser.sockets s)) s))).
  { unfold Browser.readyState in Hx.
    destruct s as [st ms ic wr rt ra inp so ti se co].
    assert (Hlive : forall k r, so = replicate k CLOSED ++ [r] ->
              settled ti -> ra <= 5 ->
              Session (Browser.onclose (Browser.set_sockets (<[ws := CLOSED]> so)
                 (Browser.Build_State st ms ic wr rt ra inp so ti se co)))).
    { intros k r -> Hti Hra. cbn in Hx.
      apply live_socket in Hx as [-> ->]; [|assumption].
      rewrite close_live. browser_unfold.
      destruct (ra <? Browser.maxReconnectAttempts)%nat eqn:Hlt; browser_unfold.
      - apply Nat.ltb_lt in Hlt. unfold Browser.maxReconnectAttempts in Hlt.
        eapply SessionWaiting with (k := S k) (finished := ti); cbn; eauto.
      - apply Nat.ltb_ge in Hlt. unfold Browser.maxReconnectAttempts in Hlt.
        apply SessionGivenUp with (S k); cbn; auto. lia. }
    destruct Hs as [k Hso Hwr Hic Hti Hra|k r Hr Hso Hwr Hic Hti Hra
                   |k finished t Hso Hwr Hic Hti Hfin Ht Hrt Hra|k Hso Hwr Hic Hti Hra];
      cbn in Hso, Hti, Hra.
    - eapply Hlive; eauto.
    - eapply Hlive; eauto. lia.
    - subst so. cbn in Hx. apply lookup_replicate in Hx as [? _]. contradiction.
    - subst so. cbn in Hx. apply lookup_replicate in Hx as [? _]. contradiction. }
  destruct x; try exact Hgo. contradiction.
Qed.

Lemma session_closing (s : Browser.State) (ws : nat) :
  Session s -> Session (Browser.deliver JSON_parse s (Browser.WsClosing ws)).
Proof.
  intros Hs. cbn [Browser.deliver]. unfold Browser.readyState.
  destruct (bool_decide _) eqn:Hdec; [|exact Hs].
  apply bool_decide_eq_true_1 in Hdec.
  destruct s as [st ms ic wr rt ra inp so ti se co].
  destruct Hs as [k Hso Hwr Hic Hti Hra|k r Hr Hso Hwr Hic Hti Hra
                 |k finished t Hso Hwr Hic Hti Hfin Ht Hrt Hra|k Hso Hwr Hic Hti Hra];
    cbn in *; subst.
  - apply live_socket in Hdec as [_ ?]; discriminate.
  - apply closing_live in Hdec as (-> & -> & Hins).
    apply SessionOpen with k CLOSING; cbn; auto.
  - apply lookup_replicate in Hdec as [? _]. discriminate.
  - apply lookup_replicate in Hdec as [? _]. discriminate.
Qed.

Lemma session_timeout (s : Browser.State) (h : nat) :
  Session s -> Session (Browser.deliver JSON_parse s (Browser.TimeoutFires h)).
Proof.
  intros Hs. cbn [Browser.deliver].
  destruct (Browser.timeouts s !! h) as [t'|] eqn:Hh; [|exact Hs].
  destruct (Browser.pending t') eqn:Hp; [|exact Hs].
  destruct s as [st ms ic wr rt ra inp so ti se co].
  destruct Hs as [k Hso Hwr Hic Hti Hra|k r Hr Hso Hwr Hic Hti Hra
                 |k finished t Hso Hwr Hic Hti Hfin Ht Hrt Hra|k Hso Hwr Hic Hti Hra];
    cbn in *; subst;
    try (pose proof (settled_lookup _ _ _ Hti Hh); congruence).
  eapply due_timeout in Hh as [-> ->]; [|exact Hfin|exact Hp].
  browser_unfold.
  apply SessionConnecting with k; cbn;
    [reflexivity|now rewrite length_replicate|reflexivity| |lia].
  rewrite insert_app_r_alt, Nat.sub_diag by lia. cbn.
  apply Forall_app. split; [exact Hfin|]. now repeat constructor.
Qed.

Lemma session_deliver (s : Browser.State) (e : Browser.Event) :
  single_mount e = true -> Session s ->
  Session (Browser.deliver JSON_parse s e).
Proof.
  intros He Hs.
  destruct e; try discriminate He;
    try (now apply session_open); try (now apply session_closing);
    try (now apply session_close); try (now apply session_timeout);
    match goal with
    | |- context [Browser.deliver _ _ ?e] =>
        destruct (browser_local_transport JSON_parse s e I)
          as (? & ? & ? & ? & ? & ?)
    end; eapply session_ext; eauto.
Qed.

Lemma session_run (events : list Browser.Event) (s : Browser.State) :
  forallb single_mount events = true -> Session s ->
  Session (Browser.run JSON_parse s events).
Proof.
  revert s. induction events as [|e events IH]; intros s Hev Hs; [exact Hs|].
  cbn [forallb] in Hev. apply andb_true_iff in Hev as [He Hev].
  cbn. apply IH; [exact Hev|]. now apply session_deliver.
Qed.

Lemma session_start : Session Browser.start.
Proof.
  apply SessionConnecting with 0; cbn;
    [reflexivity|reflexivity|reflexivity|constructor|lia].
Qed.

End Sessions.

Section SessionProperties.

Variable JSON_parse : string -> option JSON.

Lemma closed_sockets_lookup (k i : nat) (x : ReadyState) :
  replicate k CLOSED !! i = Some x -> x = CLOSED.
Proof. now intros [-> _]%lookup_replicate. Qed.

Lemma session_open_socket (s : Browser.State) :
  Session s ->
  (forall ws, Browser.open_socket s = Some ws -> Browser.isConnected s = true)
  /\ (Browser.isConnected s = true ->
      exists ws, Browser.wsRef s = Some ws
                 /\ (Browser.readyState ws s = Some OPEN
                     \/ Browser.readyState ws s = Some CLOSING)).
Proof.
  unfold Browser.open_socket, Browser.readyState.
  intros [k Hso Hwr Hic Hti Hra|k r Hr Hso Hwr Hic Hti Hra
         |k finished t Hso Hwr Hic Hti Hfin Ht Hrt Hra|k Hso Hwr Hic Hti Hra];
    rewrite Hwr, Hic, ?Hso.
  - rewrite list_lookup_middle by now rewrite length_replicate.
    rewrite bool_decide_eq_false_2 by discriminate.
    split; [discriminate|discriminate].
  - rewrite list_lookup_middle by now rewrite length_replicate.
    split; [reflexivity|]. intros _. exists k. split; [reflexivity|].
    rewrite list_lookup_middle by now rewrite length_replicate.
    destruct Hr as [->| ->]; auto.
  - split; [discriminate|discriminate].
  - split; [discriminate|discriminate].
Qed.

(** X1.  While the provider stays mounted once, at most one socket is not
    CLOSED at any time and [wsRef.current] names the newest socket.
    Whenever [wsRef.current] is an OPEN socket [isConnected] is true; and
    when [isConnected] is true, [wsRef.current] is a socket that is OPEN
    or, the server having started the closing handshake, CLOSING: until
    the [close] event arrives the flag still says connected although
    nothing can be sent. *)
Theorem one_live_socket (events : list Browser.Event) :
  forallb single_mount events = true ->
  let s := Browser.run JSON_parse Browser.start events in
  (forall i j x y,
      Browser.sockets s !! i = Some x -> x <> CLOSED ->
      Browser.sockets s !! j = Some y -> y <> CLOSED -> i = j)
  /\ (forall ws, Browser.wsRef s = Some ws -> S ws = length (Browser.sockets s))
  /\ (forall ws, Browser.open_socket s = Some ws -> Browser.isConnected s = true)
  /\ (Browser.isConnected s = true ->
      exists ws, Browser.wsRef s = Some ws
                 /\ (Browser.readyState ws s = Some OPEN
                     \/ Browser.readyState ws s = Some CLOSING)).
Proof.
  intros Hev s.
  assert (Hs : Session s) by (apply session_run; [exact Hev|apply session_start]).
  split; [|split; [|now apply session_open_socket]].
  - intros i j x y Hi Hx Hj Hy.
    destruct Hs as [k Hso Hwr Hic Hti Hra|k r Hr Hso Hwr Hic Hti Hra
         |k finished t Hso Hwr Hic Hti Hfin Ht Hrt Hra|k Hso Hwr Hic Hti Hra];
      rewrite Hso in Hi, Hj;
      try (apply closed_sockets_lookup in Hi; contradiction).
    + apply live_socket in Hi as [-> _], Hj as [-> _]; auto.
    + apply live_socket in Hi as [-> _], Hj as [-> _]; auto.
  - intros ws Hws.
    destruct Hs as [k Hso Hwr Hic Hti Hra|k r Hr Hso Hwr Hic Hti Hra
         |k finished t Hso Hwr Hic Hti Hfin Ht Hrt Hra|k Hso Hwr Hic Hti Hra];
      rewrite Hwr in Hws; try discriminate; injection Hws as <-;
      rewrite Hso, length_app, length_replicate; cbn; lia.
Qed.

(** X2.  While the provider stays mounted once, the attempt counter never
    exceeds five, at most one timeout is pending at any time, a pending
    timeout is the one whose handle is in [reconnectTimeoutRef], and
    while it is pending every socket is closed. *)
Theorem retry_bookkeeping (events : list Browser.Event) :
  forallb single_mount events = true ->
  let s := Browser.run JSON_parse Browser.start events in
  Browser.reconnectAttemptsRef s <= Browser.maxReconnectAttempts
  /\ (forall h t,
        Browser.timeouts s !! h = Some t -> Browser.pending t = true ->
        Browser.reconnectTimeoutRef s = Some h
        /\ Forall (fun r => r = CLOSED) (Browser.sockets s)).
Proof.
  intros Hev s.
  assert (Hs : Session s) by (apply session_run; [exact Hev|apply session_start]).
  unfold Browser.maxReconnectAttempts.
  destruct Hs as [k Hso Hwr Hic Hti Hra|k r Hr Hso Hwr Hic Hti Hra
       |k finished t Hso Hwr Hic Hti Hfin Ht Hrt Hra|k Hso Hwr Hic Hti Hra];
    (split; [lia|]); intros h t' Hh Hp;
    try (pose proof (settled_lookup _ _ _ Hti Hh); congruence).
  rewrite Hti in Hh. eapply due_timeout in Hh as [-> ->]; eauto.
  split; [exact Hrt|]. rewrite Hso. apply Forall_replicate. reflexivity.
Qed.

(** X3.  The cleanup of a provider mounted once leaves no timeout
    pending and no socket OPEN or CONNECTING: the retry that was due is
    cancelled, so its firing does nothing, and the one live socket is
    closing. *)
Theorem cleanup_cancels_and_closes (events : list Browser.Event) :
  forallb single_mount events = true ->
  let s := Browser.cleanup (Browser.run JSON_parse Browser.start events) in
  settled (Browser.timeouts s)
  /\ Forall (fun r => r = CLOSED \/ r = CLOSING) (Browser.sockets s)
  /\ (forall h, Browser.deliver JSON_parse s (Browser.TimeoutFires h) = s).
Proof.
  intros Hev.
  assert (Hs : Session (Browser.run JSON_parse Browser.start events))
    by (apply session_run; [exact Hev|apply session_start]).
  destruct (Browser.run JSON_parse Browser.start events)
    as [st ms ic wr rt ra inp so ti se co].
  assert (Hfire : forall s, settled (Browser.timeouts s) ->
            forall h, Browser.deliver JSON_parse s (Browser.TimeoutFires h) = s).
  { intros s Hset h. cbn [Browser.deliver].
    destruct (Browser.timeouts s !! h) as [t|] eqn:Hh; [|reflexivity].
    now rewrite (settled_lookup _ _ _ Hset Hh). }
  assert (Hcancel : forall l h, settled l -> settled (alter Browser.cancelled h l)).
  { intros l h Hl. unfold settled in *. rewrite Forall_lookup in *.
    intros i t Hi. rewrite list_lookup_alter in Hi.
    destruct (decide (h = i)) as [->|]; [|eauto].
    destruct (l !! i); [|discriminate]. injection Hi as <-. reflexivity. }
  assert (Hclosing : forall k r,
            Forall (fun r => r = CLOSED \/ r = CLOSING)
              (alter closing k (replicate k CLOSED ++ [r]))).
  { intros k r.
    rewrite alter_app_r_alt by (rewrite length_replicate; lia).
    rewrite length_replicate, Nat.sub_diag. apply Forall_app. split.
    - apply Forall_replicate. now left.
    - destruct r; cbn; (constructor; [auto|constructor]). }
  destruct Hs as [k Hso Hwr Hic Hti Hra|k r Hr Hso Hwr Hic Hti Hra
       |k finished t Hso Hwr Hic Hti Hfin Ht Hrt Hra|k Hso Hwr Hic Hti Hra];
    cbn in *; subst.
  - assert (Hset : settled (Browser.timeouts (Browser.cleanup
        {| Browser.status := st; Browser.messages := ms; Browser.isConnected := false;
           Browser.wsRef := Some k; Browser.reconnectTimeoutRef := rt;
           Browser.reconnectAttemptsRef := ra; Browser.input := inp;
           Browser.sockets := replicate k CLOSED ++ [CONNECTING];
           Browser.timeouts := ti; Browser.sent := se; Browser.console := co |}))).
    { destruct rt; browser_unfold; auto. }
    split; [exact Hset|]. split; [|now apply Hfire].
    destruct rt; browser_unfold; apply Hclosing.
  - assert (Hset : settled (Browser.timeouts (Browser.cleanup
        {| Browser.status := st; Browser.messages := ms; Browser.isConnected := true;
           Browser.wsRef := Some k; Browser.reconnectTimeoutRef := rt;
           Browser.reconnectAttemptsRef := 0; Browser.input := inp;
           Browser.sockets := replicate k CLOSED ++ [r];
           Browser.timeouts := ti; Browser.sent := se; Browser.console := co |}))).
    { destruct rt; browser_unfold; auto. }
    split; [exact Hset|]. split; [|now apply Hfire].
    destruct rt; browser_unfold; apply Hclosing.
  - assert (Hset : settled (alter Browser.cancelled (length finished) (finished ++ [t]))).
    { rewrite alter_app_r_alt, Nat.sub_diag by lia. cbn.
      apply Forall_app. split; [exact Hfin|]. now repeat constructor. }
    split; [exact Hset|]. split; [|now apply Hfire].
    browser_unfold. apply Forall_replicate. now left.
  - assert (Hset : settled (Browser.timeouts (Browser.cleanup
        {| Browser.status := st; Browser.messages := ms; Browser.isConnected := false;
           Browser.wsRef := None; Browser.reconnectTimeoutRef := rt;
           Browser.reconnectAttemptsRef := 5; Browser.input := inp;
           Browser.sockets := replicate k CLOSED;
           Browser.timeouts := ti; Browser.sent := se; Browser.console := co |}))).
    { destruct rt; browser_unfold; auto. }
    split; [exact Hset|]. split; [|now apply Hfire].
    destruct rt; browser_unfold; apply Forall_replicate; now left.
Qed.

End SessionProperties.

Lemma blank_trimStart (s : string) (k : nat) :
  blank_from k s = blank (trimStart_from k s).
Proof.
  revert k. induction s as [|c s IH]; intros k; [reflexivity|].
  cbn [blank_from trimStart_from]. destruct k; [|apply IH].
  destruct (space_length (String c s)) eqn:Hc; [|apply IH].
  unfold blank. cbn [blank_from]. now rewrite Hc.
Qed.

(** [trim] leaves nothing exactly of a text made of white space. *)
Lemma trim_empty (s : string) : trim s = "" <-> blank s = true.
Proof.
  unfold trim, trimStart. unfold blank at 1. rewrite blank_trimStart.
  destruct (trimStart_from 0 s) as [|c t]; [now split|].
  cbn [trimEnd]. destruct (blank (String c t)); now split.
Qed.

Lemma trim_blank (s : string) : blank s = true -> trim s = "".
Proof. apply trim_empty. Qed.

Section GateProperties.

Variable JSON_parse : string -> option JSON.

Lemma given_up_deliver (s : Browser.State) (e : Browser.Event) :
  single_mount e = true -> given_up s ->
  let s' := Browser.deliver JSON_parse s e in
  given_up s'
  /\ Browser.sockets s' = Browser.sockets s
  /\ Browser.timeouts s' = Browser.timeouts s
  /\ Browser.sent s' = Browser.sent s.
Proof.
  intros He ([k Hso] & Hwr & Hic & Hti & Hra).
  assert (Hsame : forall s', 
    Browser.sockets s' = Browser.sockets s ->
    Browser.timeouts s' = Browser.timeouts s ->
    Browser.reconnectAttemptsRef s' = Browser.reconnectAttemptsRef s ->
    Browser.wsRef s' = Browser.wsRef s ->
    Browser.isConnected s' = Browser.isConnected s ->
    Browser.sent s' = Browser.sent s ->
    given_up s'
    /\ Browser.sockets s' = Browser.sockets s
    /\ Browser.timeouts s' = Browser.timeouts s
    /\ Browser.sent s' = Browser.sent s).
  { intros s' E1 E2 E3 E4 E5 E6. unfold given_up.
    rewrite E1, E2, E3, E4, E5. repeat split; eauto. }
  assert (Hno : Browser.open_socket s = None)
    by (unfold Browser.open_socket; now rewrite Hwr).
  assert (Hlook : forall ws x, Browser.sockets s !! ws = Some x -> x = CLOSED).
  { intros ws x. rewrite Hso. apply closed_sockets_lookup. }
  destruct e; try discriminate He; cbv zeta; cbn [Browser.deliver].
  - (* open *)
    unfold Browser.readyState.
    rewrite bool_decide_eq_false_2; [now apply Hsame|].
    intros H%Hlook. discriminate.
  - (* message *)
    destruct (bool_decide _); [|now apply Hsame].
    unfold Browser.onmessage.
    destruct (JSON_parse data) as [d|]; [|now apply Hsame].
    destruct d; try (now apply Hsame);
      unfold Browser.dispatch; cbv zeta; repeat case_cond; now apply Hsame.
  - (* error *)
    destruct (Browser.readyState ws s) as [[]|]; now apply Hsame.
  - (* closing handshake *)
    unfold Browser.readyState.
    rewrite bool_decide_eq_false_2; [now apply Hsame|].
    intros H%Hlook. discriminate.
  - (* close *)
    unfold Browser.readyState.
    destruct (Browser.sockets s !! ws) as [x|] eqn:Hx; [|now apply Hsame].
    apply Hlook in Hx. subst x. now apply Hsame.
  - (* timeout *)
    destruct (Browser.timeouts s !! h) as [t|] eqn:Hh; [|now apply Hsame].
    rewrite (settled_lookup _ _ _ Hti Hh). now apply Hsame.
  - (* sendPrompt *)
    unfold Browser.sendPrompt. rewrite Hno. now apply Hsame.
  - (* clear *)
    now apply Hsame.
  - (* typing *)
    now apply Hsame.
  - (* submit *)
    unfold Browser.handleSubmit. destruct (_ && _); [|now apply Hsame].
    unfold Browser.sendPrompt. rewrite Hno. now apply Hsame.
Qed.

(** X4.  Once the provider has given up (every socket closed, nothing
    pending, the counter at five), no event short of a new mount brings
    it back: whatever follows, it stays given up, creates no socket,
    schedules no timeout and sends no frame. *)
Theorem giving_up_is_final (s : Browser.State) (events : list Browser.Event) :
  given_up s ->
  forallb single_mount events = true ->
  let s' := Browser.run JSON_parse s events in
  given_up s'
  /\ Browser.sockets s' = Browser.sockets s
  /\ Browser.timeouts s' = Browser.timeouts s
  /\ Browser.sent s' = Browser.sent s.
Proof.
  intros Hs Hev. revert s Hs.
  induction events as [|e events IH]; intros s Hs;
    [cbn; split; [exact Hs|now repeat split]|].
  cbn [forallb] in Hev. apply andb_true_iff in Hev as [He Hev].
  pose proof (given_up_deliver s e He Hs) as Hstep. cbv zeta in Hstep.
  destruct Hstep as (Hg & E1 & E2 & E3).
  pose proof (IH Hev _ Hg) as Hrest. cbv zeta in Hrest.
  destruct Hrest as (Hg' & F1 & F2 & F3).
  cbv zeta. cbn [Browser.run fold_left]. unfold Browser.run in *.
  split; [exact Hg'|]. rewrite F1, F2, F3. now repeat split.
Qed.

(** X5.  While the provider stays mounted once, an enabled submit button
    has one of two outcomes.  If the current socket is OPEN,
    [handleSubmit] appends the trimmed input to the log as a user entry,
    sends exactly one [prompt] frame carrying it on that socket, and
    empties the input.  Otherwise the server has started the closing
    handshake and the [close] event has not arrived yet (the socket is
    CLOSING, [isConnected] still true): [handleSubmit] sends nothing,
    appends the not-connected notice, and empties the input all the
    same. *)
Theorem enabled_submit_sends_or_notifies (events : list Browser.Event) :
  forallb single_mount events = true ->
  let s := Browser.run JSON_parse Browser.start events in
  Home.submitDisabled s = false ->
  exists ws,
    Browser.wsRef s = Some ws
    /\ ((Browser.readyState ws s = Some OPEN
         /\ Browser.handleSubmit s
            = Browser.setInput ""
                (Browser.ws_send ws (prompt_frame (trim (Browser.input s)))
                   (Browser.addMessage
                      (Browser.note Browser.user (trim (Browser.input s))) s)))
        \/ (Browser.readyState ws s = Some CLOSING
            /\ Browser.handleSubmit s
               = Browser.setInput ""
                   (Browser.addMessage Browser.not_connected s))).
Proof.
  intros Hev s Hen.
  assert (Hs : Session s) by (apply session_run; [exact Hev|apply session_start]).
  unfold Home.submitDisabled in Hen.
  apply orb_false_iff in Hen as [Hen Hidle].
  apply orb_false_iff in Hen as [Hblank Hic].
  apply negb_false_iff in Hidle, Hic.
  apply (session_open_socket s Hs) in Hic as (ws & Hwr & Hready).
  exists ws. split; [exact Hwr|].
  unfold Browser.handleSubmit, Browser.sendPrompt, Browser.open_socket.
  rewrite Hblank, Hidle, Hwr. cbn [negb andb].
  destruct Hready as [Hready|Hready]; [left|right];
    (split; [exact Hready|]); rewrite Hready.
  - now rewrite bool_decide_eq_true_2.
  - now rewrite bool_decide_eq_false_2.
Qed.

(** X6.  Neither client submits white space: when the input holds
    nothing but white space, [handleSubmit] in the browser and
    [sendMessage] in the desktop shell leave the whole state as it was,
    whatever the connection and the status are. *)
Theorem blank_input_is_not_submitted :
  (forall s, blank (Browser.input s) = true -> Browser.handleSubmit s = s)
  /\ (forall s, blank (Electron.messageInput s) = true ->
                Electron.sendMessage s = s).
Proof.
  split; intros s Hb.
  - unfold Browser.handleSubmit. now rewrite (trim_blank _ Hb).
  - unfold Electron.sendMessage. now rewrite (trim_blank _ Hb).
Qed.

(** X7.  In the browser, a submission made while the status is ["idle"]
    but no socket is OPEN costs the user the typed text: the input is
    emptied although no frame was sent and only the not-connected notice
    went to the log.  A submission made while the status is not ["idle"]
    keeps the text. *)
Theorem disconnected_submit_loses_the_text (s : Browser.State) :
  (is_str (Browser.status s) "idle" = true ->
   trim (Browser.input s) <> "" ->
   Browser.open_socket s = None ->
   let s' := Browser.handleSubmit s in
   Browser.input s' = ""
   /\ Browser.sent s' = Browser.sent s
   /\ Browser.messages s' = Browser.messages s ++ [Browser.not_connected])
  /\ (is_str (Browser.status s) "idle" = false ->
      Browser.input (Browser.handleSubmit s) = Browser.input s).
Proof.
  split.
  - intros Hidle Hne Hno. apply String.eqb_neq in Hne.
    unfold Browser.handleSubmit, Browser.sendPrompt.
    now rewrite Hne, Hidle, Hno.
  - intros Hbusy. unfold Browser.handleSubmit.
    now rewrite Hbusy, andb_false_r.
Qed.

(** X8.  The four things [Home] derives from the status and the
    connection flag agree on readiness: the dot is green, the label reads
    ["Ready"], the placeholder invites a task and the input field is
    enabled, each exactly when the client is connected and the status is
    ["idle"].  They do not agree on disconnection: the label reads
    ["Disconnected"] whenever the client is not connected, but the dot is
    red only if the status is ["idle"] as well. *)
Theorem indicator_shows_readiness (s : Browser.State) :
  let ready := Browser.isConnected s && is_str (Browser.status s) "idle" in
  (Home.getStatusColor s = "bg-green-500" <-> ready = true)
  /\ (Home.getStatusText s = "Ready" <-> ready = true)
  /\ (Home.placeholder s = "Enter a coding task..." <-> ready = true)
  /\ (Home.inputDisabled s = false <-> ready = true)
  /\ (Home.getStatusText s = "Disconnected" <-> Browser.isConnected s = false)
  /\ (Home.getStatusColor s = "bg-red-500"
      <-> Browser.isConnected s = false
          /\ is_str (Browser.status s) "idle" = true).
Proof.
  unfold Home.getStatusColor, Home.getStatusText, Home.placeholder,
    Home.inputDisabled.
  destruct (Browser.isConnected s);
    destruct (is_str (Browser.status s) "planning") eqn:Hp;
    destruct (is_str (Browser.status s) "executing") eqn:He;
    destruct (is_str (Browser.status s) "idle") eqn:Hi;
    try (apply is_str_true in Hp; rewrite Hp in *; discriminate);
    try (apply is_str_true in He; rewrite He in *; discriminate);
    cbn; intuition discriminate.
Qed.

End GateProperties.

Section LogProperties.

Variable JSON_parse : string -> option JSON.

Lemma browser_log_grows (s : Browser.State) (e : Browser.Event) :
  e <> Browser.ClearMessages ->
  exists added,
    Browser.messages (Browser.deliver JSON_parse s e)
    = Browser.messages s ++ added
    /\ length added <= 1.
Proof.
  intros He.
  destruct s as [st ms ic [wr|] [rt|] ra inp so ti se co];
  destruct e; try contradiction; browser_unfold;
    try destruct (JSON_parse data) as [[]|];
    repeat (case_cond; browser_unfold; cbn [negb andb]);
    (exists []; split; [now rewrite app_nil_r|cbn; lia])
    || (eexists [_]; split; [reflexivity|cbn; lia]).
Qed.

(** X9.  The browser's log is append-only: every event other than
    [clearMessages] leaves the entries already there in place and adds at
    most one at the end, so after any run without a clear the old log is
    a prefix of the new one. *)
Theorem browser_log_is_append_only :
  (forall s e,
      e <> Browser.ClearMessages ->
      exists added,
        Browser.messages (Browser.deliver JSON_parse s e)
        = Browser.messages s ++ added
        /\ length added <= 1)
  /\ (forall events s,
      Forall (fun e => e <> Browser.ClearMessages) events ->
      Browser.messages s
      `prefix_of` Browser.messages (Browser.run JSON_parse s events)).
Proof.
  split; [exact browser_log_grows|].
  induction events as [|e events IH]; intros s Hev; [reflexivity|].
  apply Forall_cons in Hev as [He Hev].
  cbn [Browser.run fold_left].
  destruct (browser_log_grows s e He) as (added & Hadd & _).
  transitivity (Browser.messages (Browser.deliver JSON_parse s e)).
  - rewrite Hadd. now apply prefix_app_r.
  - apply IH, Hev.
Qed.

Lemma electron_log_grows (s : Electron.State) (e : Electron.Event) :
  exists added,
    Electron.messagesContainer (Electron.deliver JSON_parse s e)
    = Electron.messagesContainer s ++ added
    /\ length added <= 1.
Proof.
  destruct s as [[w|] [ri|] mc sd stx mi so iv se co];
  destruct e; electron_unfold;
    try destruct (JSON_parse data) as [[]|];
    repeat (case_cond; electron_unfold; cbn [negb andb]);
    (exists []; split; [now rewrite app_nil_r|cbn; lia])
    || (eexists [_]; split; [reflexivity|cbn; lia]).
Qed.

(** X10.  The desktop shell never removes or reorders a message: every
    event leaves the children of the message container in place and adds
    at most one at the end, so the container before any run is a prefix
    of the container after it. *)
Theorem electron_log_is_append_only :
  (forall s e,
      exists added,
        Electron.messagesContainer (Electron.deliver JSON_parse s e)
        = Electron.messagesContainer s ++ added
        /\ length added <= 1)
  /\ (forall events s,
      Electron.messagesContainer s
      `prefix_of` Electron.messagesContainer (Electron.run JSON_parse s events)).
Proof.
  split; [exact electron_log_grows|].
  induction events as [|e events IH]; intros s; [reflexivity|].
  cbn [Electron.run fold_left].
  destruct (electron_log_grows s e) as (added & Hadd & _).
  transitivity (Electron.messagesContainer (Electron.deliver JSON_parse s e)).
  - rewrite Hadd. now apply prefix_app_r.
  - apply IH.
Qed.

(** X11.  Neither client hands a frame to a socket that is not OPEN:
    each event sends nothing or sends one frame on a socket whose
    [readyState] is OPEN at that moment, and frames already sent are
    never withdrawn. *)
Theorem frames_go_to_open_sockets :
  (forall s e,
      Browser.sent (Browser.deliver JSON_parse s e) = Browser.sent s
      \/ exists ws frame,
           Browser.sent (Browser.deliver JSON_parse s e)
           = Browser.sent s ++ [(ws, frame)]
           /\ Browser.readyState ws s = Some OPEN)
  /\ (forall s e,
      Electron.sent (Electron.deliver JSON_parse s e) = Electron.sent s
      \/ exists sock frame,
           Electron.sent (Electron.deliver JSON_parse s e)
           = Electron.sent s ++ [(sock, frame)]
           /\ Electron.readyState sock s = Some OPEN).
Proof.
  split; intros s e.
  - destruct s as [st ms ic [wr|] [rt|] ra inp so ti se co];
    destruct e; browser_unfold;
      try destruct (JSON_parse data) as [[]|];
      repeat (case_cond; browser_unfold; cbn [negb andb]);
      try (now left);
      right; do 2 eexists; (split; [reflexivity|]);
      match goal with
      | H : bool_decide _ = true |- _ => now apply bool_decide_eq_true_1 in H
      end.
  - destruct s as [[w|] [ri|] mc sd stx mi so iv se co];
    destruct e; electron_unfold;
      try destruct (JSON_parse data) as [[]|];
      repeat (case_cond; electron_unfold; cbn [negb andb]);
      try (now left);
      right; do 2 eexists; (split; [reflexivity|]);
      match goal with
      | H : bool_decide _ = true |- _ => now apply bool_decide_eq_true_1 in H
      end.
Qed.

Lemma browser_onmessage_entry (data : string) (s : Browser.State) :
  Browser.messages (Browser.onmessage JSON_parse data s)
  = Browser.messages s ++ option_list (browser_entry JSON_parse data).
Proof.
  unfold Browser.onmessage, browser_entry.
  destruct (JSON_parse data) as [d|]; [|cbn; now rewrite app_nil_r].
  assert (Hgo : Browser.messages (Browser.dispatch d s)
    = Browser.messages s ++ option_list
      (if is_str (member "type" d) "agent" then
        Some {| Browser.type := Browser.agent;
                Browser.content := member "content" d;
                Browser.step := None; Browser.success := None;
                Browser.stepNumber := None; Browser.totalSteps := None |}
      else if is_str (member "type" d) "result" then
        Some {| Browser.type := Browser.result;
                Browser.content := member "content" d;
                Browser.step := member "step" d;
                Browser.success := member "success" d;
                Browser.stepNumber := member "stepNumber" d;
                Browser.totalSteps := member "totalSteps" d |}
      else None)).
  { unfold Browser.dispatch. cbv zeta.
    case_type d; cbn; rewrite ?app_nil_r; reflexivity. }
  destruct d; first [exact Hgo | cbn; now rewrite app_nil_r].
Qed.

(** X12.  The browser's log keeps the frames in order of arrival: after
    any sequence of inbound frames the log is the old log followed by the
    entries of the [agent] and [result] frames among them, in that order,
    each carrying the frame's [content] (and, for a result, its [step],
    [success], [stepNumber] and [totalSteps], absent ones staying
    [undefined]). *)
Theorem browser_log_keeps_arrival_order (frames : list string) (s : Browser.State) :
  Browser.messages
    (fold_left (fun s data => Browser.onmessage JSON_parse data s) frames s)
  = Browser.messages s ++ omap (browser_entry JSON_parse) frames.
Proof.
  revert s. induction frames as [|data frames IH]; intros s.
  - cbn. now rewrite app_nil_r.
  - cbn [fold_left]. rewrite IH, browser_onmessage_entry.
    rewrite <- app_assoc. f_equal. cbn.
    now destruct (browser_entry JSON_parse data).
Qed.

Lemma electron_onmessage_entry (data : string) (s : Electron.State) :
  Electron.messagesContainer (Electron.onmessage JSON_parse data s)
  = Electron.messagesContainer s ++ option_list (electron_entry JSON_parse data).
Proof.
  unfold Electron.onmessage, electron_entry.
  destruct (JSON_parse data) as [d|]; [|cbn; now rewrite app_nil_r].
  assert (Hgo : Electron.messagesContainer (Electron.dispatch d s)
    = Electron.messagesContainer s ++ option_list
      (let t := member "type" d in
      if is_str t "status" then
        Some {| Electron.className := "message status";
                Electron.innerHTML := Electron.StatusLine (member "content" d) |}
      else if is_str t "agent" || is_str t "reflection" || is_str t "complete" then
        Some {| Electron.className := "message agent";
                Electron.innerHTML := Electron.Formatted (member "content" d) |}
      else if is_str t "result" then
        Some {| Electron.className :=
                  if truthy (member "success" d)
                  then "message agent" else "message error";
                Electron.innerHTML :=
                  Electron.StepReport (member "stepNumber" d)
                    (member "totalSteps" d) (member "step" d)
                    (member "output" d) (member "error" d) |}
      else None)).
  { unfold Electron.dispatch. cbv zeta.
    case_type d; cbn; rewrite ?app_nil_r; reflexivity. }
  destruct d; first [exact Hgo | cbn; now rewrite app_nil_r].
Qed.

(** X13.  The desktop shell's message container keeps the frames in
    order of arrival: after any sequence of inbound frames it holds its
    old children followed by one [div] per [status], [agent], [result],
    [reflection] or [complete] frame, in that order.  A result frame is
    given the class ["message agent"] when its [success] is truthy and
    ["message error"] otherwise, so a result without a [success] field
    is shown as an error. *)
Theorem electron_log_keeps_arrival_order (frames : list string) (s : Electron.State) :
  Electron.messagesContainer
    (fold_left (fun s data => Electron.onmessage JSON_parse data s) frames s)
  = Electron.messagesContainer s ++ omap (electron_entry JSON_parse) frames.
Proof.
  revert s. induction frames as [|data frames IH]; intros s.
  - cbn. now rewrite app_nil_r.
  - cbn [fold_left]. rewrite IH, electron_onmessage_entry.
    rewrite <- app_assoc. f_equal. cbn.
    now destruct (electron_entry JSON_parse data).
Qed.

End LogProperties.

Lemma closed_count_insert (l : list ReadyState) (i : nat) (x : ReadyState) :
  l !! i = Some x -> x <> CLOSED ->
  length (filter (fun r => r = CLOSED) (<[i := CLOSED]> l))
  = S (length (filter (fun r => r = CLOSED) l)).
Proof.
  revert i. induction l as [|r l IH]; intros i Hi Hx; [discriminate|].
  destruct i as [|i]; cbn in Hi.
  - injection Hi as ->.
    change (<[0 := CLOSED]> (x :: l)) with (CLOSED :: l).
    rewrite filter_cons_True by reflexivity.
    now rewrite filter_cons_False by assumption.
  - change (<[S i := CLOSED]> (r :: l)) with (r :: <[i := CLOSED]> l).
    destruct (decide (r = CLOSED)).
    + rewrite !filter_cons_True by assumption. cbn. f_equal. now apply IH.
    + rewrite !filter_cons_False by assumption. now apply IH.
Qed.

Lemma closed_count_closing (l : list ReadyState) (i : nat) :
  l !! i = Some OPEN ->
  length (filter (fun r => r = CLOSED) (<[i := CLOSING]> l))
  = length (filter (fun r => r = CLOSED) l).
Proof.
  revert i. induction l as [|r l IH]; intros i Hi; [discriminate|].
  destruct i as [|i]; cbn in Hi.
  - injection Hi as ->.
    change (<[0 := CLOSING]> (OPEN :: l)) with (CLOSING :: l).
    now rewrite !filter_cons_False by discriminate.
  - change (<[S i := CLOSING]> (r :: l)) with (r :: <[i := CLOSING]> l).
    destruct (decide (r = CLOSED)).
    + rewrite !filter_cons_True by assumption. cbn. f_equal. now apply IH.
    + rewrite !filter_cons_False by assumption. now apply IH.
Qed.

Lemma closed_count_connect (l : list ReadyState) :
  length (filter (fun r => r = CLOSED) (l ++ [CONNECTING]))
  = length (filter (fun r => r = CLOSED) l).
Proof.
  rewrite filter_app, length_app.
  rewrite filter_cons_False by discriminate. cbn. lia.
Qed.

Lemma running_stopped (l : list Electron.Interval) (h : nat) :
  length (filter (fun i => Electron.callback i = Electron.Reconnect
                           /\ Electron.active i = true) l)
  <= S (length (filter (fun i => Electron.callback i = Electron.Reconnect
                                 /\ Electron.active i = true)
                  (alter Electron.stopped h l))).
Proof.
  revert h. induction l as [|i l IH]; intros h; [cbn; lia|].
  destruct h as [|h].
  - change (alter Electron.stopped 0 (i :: l)) with (Electron.stopped i :: l).
    destruct (decide (Electron.callback i = Electron.Reconnect
                      /\ Electron.active i = true)).
    + rewrite filter_cons_True by assumption.
      rewrite (filter_cons_False _ (Electron.stopped i))
        by (cbn; intros [_ ?]; discriminate).
      cbn. lia.
    + rewrite filter_cons_False by assumption.
      rewrite (filter_cons_False _ (Electron.stopped i))
        by (cbn; intros [_ ?]; discriminate).
      lia.
  - change (alter Electron.stopped (S h) (i :: l))
      with (i :: alter Electron.stopped h l).
    destruct (decide (Electron.callback i = Electron.Reconnect
                      /\ Electron.active i = true)).
    + rewrite !filter_cons_True by assumption. cbn. specialize (IH h). lia.
    + rewrite !filter_cons_False by assumption. apply IH.
Qed.

Section IntervalProperties.

Variable JSON_parse : string -> option JSON.

Lemma electron_step_fields (s : Electron.State) (e : Electron.Event) :
  match e with
  | Electron.WsMessage _ _ | Electron.WsError _ | Electron.Type_ _
  | Electron.Send => True
  | _ => False
  end ->
  let s' := Electron.deliver JSON_parse s e in
  Electron.sockets s' = Electron.sockets s
  /\ Electron.intervals s' = Electron.intervals s
  /\ Electron.reconnectInterval s' = Electron.reconnectInterval s.
Proof.
  destruct s as [[w|] [ri|] mc sd stx mi so iv se co];
  destruct e; intros []; cbv zeta; electron_unfold;
    try destruct (JSON_parse data) as [[]|];
    repeat (case_cond; electron_unfold; cbn [negb andb]); auto.
Qed.

Lemma electron_tick_fields (s : Electron.State) (h : nat) :
  let s' := Electron.deliver JSON_parse s (Electron.IntervalFires h) in
  Electron.intervals s' = Electron.intervals s
  /\ Electron.reconnectInterval s' = Electron.reconnectInterval s
  /\ (Electron.sockets s' = Electron.sockets s
      \/ Electron.sockets s' = Electron.sockets s ++ [CONNECTING]).
Proof.
  destruct s as [[w|] [ri|] mc sd stx mi so iv se co];
    cbv zeta; electron_unfold;
    repeat (case_cond; electron_unfold); auto.
Qed.

Lemma electron_closing_fields (s : Electron.State) (sock : nat) :
  let s' := Electron.deliver JSON_parse s (Electron.WsClosing sock) in
  Electron.intervals s' = Electron.intervals s
  /\ Electron.reconnectInterval s' = Electron.reconnectInterval s
  /\ electron_closes s' = electron_closes s.
Proof.
  cbv zeta. cbn [Electron.deliver]. unfold Electron.readyState.
  destruct (bool_decide _) eqn:Hopen; [|now repeat split].
  apply bool_decide_eq_true_1 in Hopen.
  split; [reflexivity|]. split; [reflexivity|].
  unfold electron_closes. destruct s. cbn in *.
  now apply closed_count_closing.
Qed.

Lemma running_close (s : Electron.State) (sock : nat) (x : ReadyState) :
  Electron.readyState sock s = Some x -> x <> CLOSED ->
  let s' := Electron.deliver JSON_parse s (Electron.WsClose sock) in
  running s' = running s
                ++ [{| Electron.period := 3000;
                       Electron.callback := Electron.Reconnect;
                       Electron.active := true |}]
  /\ electron_closes s' = S (electron_closes s)
  /\ Electron.reconnectInterval s' = Some (length (Electron.intervals s))
  /\ Electron.intervals s'
     = Electron.intervals s
       ++ [{| Electron.period := 3000;
              Electron.callback := Electron.Reconnect;
              Electron.active := true |}].
Proof.
  intros Hx Hne. cbn [Electron.deliver]. rewrite Hx.
  assert (Hgo :
    let s' := Electron.onclose
                (Electron.set_sockets (<[sock := CLOSED]> (Electron.sockets s)) s) in
    running s' = running s
                  ++ [{| Electron.period := 3000;
                         Electron.callback := Electron.Reconnect;
                         Electron.active := true |}]
    /\ electron_closes s' = S (electron_closes s)
    /\ Electron.reconnectInterval s' = Some (length (Electron.intervals s))
    /\ Electron.intervals s'
       = Electron.intervals s
         ++ [{| Electron.period := 3000;
                Electron.callback := Electron.Reconnect;
                Electron.active := true |}]).
  { unfold Electron.readyState in Hx. destruct s.
    unfold running, electron_closes. electron_unfold.
    rewrite filter_app. split; [reflexivity|]. split; [|now split].
    now apply closed_count_insert with x. }
  destruct x; try exact Hgo. contradiction.
Qed.

Lemma running_deliver (s : Electron.State) (e : Electron.Event) :
  not_open e = true ->
  length (running (Electron.deliver JSON_parse s e)) + electron_closes s
  = length (running s) + electron_closes (Electron.deliver JSON_parse s e).
Proof.
  intros He. destruct e; try discriminate He.
  - destruct (electron_step_fields s (Electron.WsMessage sock data) I) as (Hso & Hiv & _).
    unfold running, electron_closes. now rewrite Hso, Hiv.
  - destruct (electron_step_fields s (Electron.WsError sock) I) as (Hso & Hiv & _).
    unfold running, electron_closes. now rewrite Hso, Hiv.
  - destruct (electron_closing_fields s sock) as (Hiv & _ & Hc).
    unfold running. now rewrite Hiv, Hc.
  - destruct (Electron.readyState sock s) as [x|] eqn:Hx.
    2:{ cbn [Electron.deliver]. now rewrite Hx. }
    destruct (decide (x = CLOSED)) as [->|Hne].
    { cbn [Electron.deliver]. now rewrite Hx. }
    destruct (running_close s sock x Hx Hne) as (Hr & Hc & _).
    rewrite Hr, Hc, length_app. cbn. lia.
  - destruct (electron_tick_fields s h) as (Hiv & _ & [Hso|Hso]);
      unfold running, electron_closes; rewrite Hiv, Hso; [lia|].
    rewrite closed_count_connect. lia.
  - destruct (electron_step_fields s (Electron.Type_ text) I) as (Hso & Hiv & _).
    unfold running, electron_closes. now rewrite Hso, Hiv.
  - destruct (electron_step_fields s Electron.Send I) as (Hso & Hiv & _).
    unfold running, electron_closes. now rewrite Hso, Hiv.
Qed.

Lemma running_mostly_kept (s : Electron.State) (e : Electron.Event) :
  length (running s) <= S (length (running (Electron.deliver JSON_parse s e))).
Proof.
  destruct e.
  - cbn [Electron.deliver]. destruct (bool_decide _); [|lia].
    destruct s as [w [ri|] mc sd stx mi so iv se co];
      unfold running; electron_unfold; [apply running_stopped|lia].
  - destruct (electron_step_fields s (Electron.WsMessage sock data) I) as (_ & Hiv & _).
    unfold running. rewrite Hiv. lia.
  - destruct (electron_step_fields s (Electron.WsError sock) I) as (_ & Hiv & _).
    unfold running. rewrite Hiv. lia.
  - destruct (electron_closing_fields s sock) as (Hiv & _).
    unfold running. rewrite Hiv. lia.
  - destruct (Electron.readyState sock s) as [x|] eqn:Hx.
    2:{ cbn [Electron.deliver]. rewrite Hx. lia. }
    destruct (decide (x = CLOSED)) as [->|Hne].
    { cbn [Electron.deliver]. rewrite Hx. lia. }
    destruct (running_close s sock x Hx Hne) as (Hr & _).
    rewrite Hr, length_app. cbn. lia.
  - destruct (electron_tick_fields s h) as (Hiv & _).
    unfold running. rewrite Hiv. lia.
  - destruct (electron_step_fields s (Electron.Type_ text) I) as (_ & Hiv & _).
    unfold running. rewrite Hiv. lia.
  - destruct (electron_step_fields s Electron.Send I) as (_ & Hiv & _).
    unfold running. rewrite Hiv. lia.
Qed.

(** X14.  The desktop shell's reconnect intervals pile up: in a run
    without a successful open, the number of reconnect intervals running
    equals the number of sockets that have closed; and no single event,
    an open included, stops more than one of them. *)
Theorem reconnect_intervals_pile_up :
  (forall events,
      forallb not_open events = true ->
      let s := Electron.run JSON_parse Electron.init events in
      length (running s) = electron_closes s)
  /\ (forall s e,
      length (running s)
      <= S (length (running (Electron.deliver JSON_parse s e)))).
Proof.
  split; [|exact running_mostly_kept].
  intros events Hev.
  assert (H : forall s,
    length (running (Electron.run JSON_parse s events)) + electron_closes s
    = length (running s) + electron_closes (Electron.run JSON_parse s events)).
  { induction events as [|e events IH]; intros s; [reflexivity|].
    cbn [forallb] in Hev. apply andb_true_iff in Hev as [He Hev].
    cbn [Electron.run fold_left]. specialize (IH Hev (Electron.deliver JSON_parse s e)).
    unfold Electron.run in *. pose proof (running_deliver s e He). lia. }
  specialize (H Electron.init). cbv zeta.
  change (electron_closes Electron.init) with 0 in H.
  change (length (running Electron.init)) with 0 in H. lia.
Qed.

Lemma older_intervals_deliver (s : Electron.State) (e : Electron.Event) :
  newest_handle s ->
  newest_handle (Electron.deliver JSON_parse s e)
  /\ length (Electron.intervals s)
     <= length (Electron.intervals (Electron.deliver JSON_parse s e))
  /\ (forall h i,
        Electron.intervals s !! h = Some i ->
        S h < length (Electron.intervals s) ->
        Electron.intervals (Electron.deliver JSON_parse s e) !! h = Some i).
Proof.
  intros Hnew.
  assert (Hsame : forall s',
    Electron.intervals s' = Electron.intervals s ->
    Electron.reconnectInterval s' = Electron.reconnectInterval s ->
    newest_handle s'
    /\ length (Electron.intervals s) <= length (Electron.intervals s')
    /\ (forall h i,
          Electron.intervals s !! h = Some i ->
          S h < length (Electron.intervals s) ->
          Electron.intervals s' !! h = Some i)).
  { intros s' E1 E2. unfold newest_handle. rewrite E1, E2.
    split; [exact Hnew|]. split; [lia|auto]. }
  destruct e.
  - cbn [Electron.deliver]. destruct (bool_decide _); [|now apply Hsame].
    unfold newest_handle in *.
    destruct s as [w [ri|] mc sd stx mi so iv se co]; electron_unfold.
    + specialize (Hnew ri eq_refl). rewrite length_alter.
      split; [intros r [= <-]; exact Hnew|]. split; [lia|].
      intros h i Hh Hlt. rewrite list_lookup_alter_ne by lia. exact Hh.
    + split; [discriminate|]. split; [lia|auto].
  - destruct (electron_step_fields s (Electron.WsMessage sock data) I) as (_ & ? & ?).
    now apply Hsame.
  - destruct (electron_step_fields s (Electron.WsError sock) I) as (_ & ? & ?).
    now apply Hsame.
  - destruct (electron_closing_fields s sock) as (? & ? & _). now apply Hsame.
  - destruct (Electron.readyState sock s) as [x|] eqn:Hx.
    2:{ cbn [Electron.deliver]. rewrite Hx. now apply Hsame. }
    destruct (decide (x = CLOSED)) as [->|Hne].
    { cbn [Electron.deliver]. rewrite Hx. now apply Hsame. }
    destruct (running_close s sock x Hx Hne) as (_ & _ & Hri & Hiv).
    unfold newest_handle. rewrite Hri, Hiv, length_app. cbn.
    split; [intros r [= <-]; lia|]. split; [lia|].
    intros h i Hh _. now apply lookup_app_l_Some.
  - destruct (electron_tick_fields s h) as (? & ? & _). now apply Hsame.
  - destruct (electron_step_fields s (Electron.Type_ text) I) as (_ & ? & ?).
    now apply Hsame.
  - destruct (electron_step_fields s Electron.Send I) as (_ & ? & ?).
    now apply Hsame.
Qed.

Lemma older_intervals_run (events : list Electron.Event) (s : Electron.State) :
  newest_handle s ->
  newest_handle (Electron.run JSON_parse s events)
  /\ length (Electron.intervals s)
     <= length (Electron.intervals (Electron.run JSON_parse s events))
  /\ (forall h i,
        Electron.intervals s !! h = Some i ->
        S h < length (Electron.intervals s) ->
        Electron.intervals (Electron.run JSON_parse s events) !! h = Some i).
Proof.
  revert s. induction events as [|e events IH]; intros s Hs.
  - split; [exact Hs|]. split; [cbn; lia|auto].
  - destruct (older_intervals_deliver s e Hs) as (Hs' & Hlen & Hkeep).
    destruct (IH _ Hs') as (Hs'' & Hlen' & Hkeep').
    cbn [Electron.run fold_left]. unfold Electron.run in *.
    split; [exact Hs''|]. split; [lia|].
    intros h i Hh Hlt. apply Hkeep'; [now apply Hkeep|lia].
Qed.

(** X15.  In the desktop shell only the interval registered last can
    ever be cancelled: once a newer interval exists, an interval keeps
    its state through every later event.  The reconnect interval of a
    failure that was followed by another failure therefore runs for the
    rest of the session, as does the heartbeat. *)
Theorem older_intervals_are_never_cancelled
    (events later : list Electron.Event) (h : nat) (i : Electron.Interval) :
  let s := Electron.run JSON_parse Electron.init events in
  Electron.intervals s !! h = Some i ->
  S h < length (Electron.intervals s) ->
  Electron.intervals (Electron.run JSON_parse s later) !! h = Some i.
Proof.
  intros s Hh Hlt.
  assert (Hinit : newest_handle Electron.init) by (intros r; discriminate).
  destruct (older_intervals_run events Electron.init Hinit) as (Hs & _).
  destruct (older_intervals_run later s Hs) as (_ & _ & Hkeep).
  now apply Hkeep.
Qed.

(** X16.  A reconnect interval that comes due does not look at the
    connection: whatever the state of the current socket, OPEN included,
    it creates a new socket and makes it the current one, without closing
    the old one.  Until the new socket opens the client sends nothing: a
    submission and a heartbeat both leave the state as it is. *)
Theorem reconnect_tick_replaces_the_socket
    (s : Electron.State) (h : nat) (i : Electron.Interval) :
  Electron.intervals s !! h = Some i ->
  Electron.active i = true ->
  Electron.callback i = Electron.Reconnect ->
  let s' := Electron.deliver JSON_parse s (Electron.IntervalFires h) in
  Electron.sockets s' = Electron.sockets s ++ [CONNECTING]
  /\ Electron.ws s' = Some (length (Electron.sockets s))
  /\ Electron.open_socket s' = None
  /\ Electron.sendMessage s' = s'
  /\ Electron.heartbeat s' = s'.
Proof.
  intros Hh Ha Hc. cbn [Electron.deliver]. rewrite Hh, Ha, Hc.
  assert (Hno : Electron.open_socket (Electron.reconnect s) = None).
  { destruct s. electron_unfold.
    rewrite list_lookup_middle by reflexivity.
    now rewrite bool_decide_eq_false_2 by discriminate. }
  cbv zeta. split; [reflexivity|]. split; [reflexivity|].
  split; [exact Hno|]. unfold Electron.sendMessage, Electron.heartbeat.
  rewrite Hno. split; [|reflexivity].
  now destruct (_ =? _)%string.
Qed.

End IntervalProperties.

Section AdmissionProperties.

Variable JSON_parse : string -> option JSON.

Lemma busy_deliver (s : Browser.State) (e : Browser.Event) :
  is_str (Browser.status s) "idle" = false ->
  busy_event JSON_parse e = true ->
  Browser.sent (Browser.deliver JSON_parse s e) = Browser.sent s
  /\ Browser.status (Browser.deliver JSON_parse s e) = Browser.status s.
Proof.
  intros Hbusy He. split.
  - destruct s as [st ms ic [wr|] [rt|] ra inp so ti se co];
      cbn in Hbusy; destruct e; try discriminate He; browser_unfold;
      try destruct (JSON_parse data) as [[]|];
      rewrite ?Hbusy, ?andb_false_r;
      repeat (case_cond; browser_unfold; cbn [negb andb]); reflexivity.
  - apply browser_status_deliver. unfold busy_event in He.
    destruct e; try reflexivity; try discriminate He.
    now apply negb_true_iff in He.
Qed.

(** X17.  The browser's form sends nothing while the status is not
    ["idle"], and only the server can lift that: from a state whose status
    is not ["idle"], through any run of socket events, timeouts, typing,
    form submissions, clears, mounts and cleanups that contains no
    [status] frame, the status stays as it is and not a single frame is
    sent, across disconnections and reconnections alike. *)
Theorem busy_form_sends_nothing (s : Browser.State) (events : list Browser.Event) :
  is_str (Browser.status s) "idle" = false ->
  forallb (busy_event JSON_parse) events = true ->
  Browser.sent (Browser.run JSON_parse s events) = Browser.sent s
  /\ Browser.status (Browser.run JSON_parse s events) = Browser.status s.
Proof.
  revert s. induction events as [|e events IH]; intros s Hbusy Hev;
    [now split|].
  cbn [forallb] in Hev. apply andb_true_iff in Hev as [He Hev].
  destruct (busy_deliver s e Hbusy He) as [Hsent Hst].
  cbn [Browser.run fold_left].
  destruct (IH (Browser.deliver JSON_parse s e)) as [Hsent' Hst'];
    [now rewrite Hst|exact Hev|].
  unfold Browser.run in *. split; congruence.
Qed.

End AdmissionProperties.

Lemma prefix_first_char (c a : Ascii.ascii) (d s : string) :
  Ascii.eqb c a = false -> String.prefix (String c d) (String a s) = false.
Proof.
  intros H. cbn. destruct (Ascii.ascii_dec c a) as [->|]; [|reflexivity].
  now rewrite Ascii.eqb_refl in H.
Qed.

Lemma prefix_same_char (c : Ascii.ascii) (s : string) :
  String.prefix (String c "") (String c s) = true.
Proof.
  cbn. destruct (Ascii.ascii_dec c c); [now destruct s|contradiction].
Qed.

Lemma replace_plain (dot : bool) (c : Ascii.ascii) (d : string)
    (wrap : string -> string) (s : string) :
  occurs c s = false -> replace_delimited dot (String c d) wrap s = s.
Proof.
  unfold replace_delimited. induction s as [|a s IH]; [reflexivity|].
  cbn [occurs]. intros [Ha Hs]%orb_false_iff.
  cbn [replace_from]. rewrite prefix_first_char by assumption.
  now rewrite IH.
Qed.

Lemma split_lines_length (s : string) :
  length (split_lines s) = S (occurrences LF s).
Proof.
  induction s as [|c s IH]; [reflexivity|].
  cbn [split_lines occurrences]. rewrite (Ascii.eqb_sym LF c).
  destruct (Ascii.eqb c LF); cbn [length]; [now rewrite IH|].
  destruct (split_lines s); [discriminate|]. cbn [length] in *. lia.
Qed.

Lemma split_lines_occurs (c : Ascii.ascii) (s : string) :
  occurs c s = false -> Forall (fun line => occurs c line = false) (split_lines s).
Proof.
  induction s as [|a s IH]; [repeat constructor|].
  cbn [occurs split_lines]. intros [Ha Hs]%orb_false_iff.
  specialize (IH Hs). destruct (Ascii.eqb a LF).
  - constructor; [reflexivity|exact IH].
  - destruct (split_lines s) as [|line lines].
    + repeat constructor. cbn. now rewrite Ha.
    + apply Forall_cons in IH as [Hl Hls]. constructor; [|exact Hls].
      cbn. now rewrite Ha, Hl.
Qed.

(** X18.  [formatContent] of [Home] renders one [div] per line of the
    text, as many as the text has line feeds plus one, and none of them
    with empty HTML: an empty line is given ['<br/>']. *)
Theorem home_renders_every_line (text : string) :
  exists htmls,
    HomeText.formatContent (Some (JStr text)) = Some htmls
    /\ length htmls = S (occurrences LF text)
    /\ Forall (fun html => html <> "") htmls.
Proof.
  eexists. split; [reflexivity|]. split.
  - now rewrite length_map, split_lines_length.
  - apply Forall_fmap, Forall_true. intros line. unfold HomeText.line_html.
    cbn. destruct (_ =? _)%string eqn:E; [discriminate|].
    now apply String.eqb_neq in E.
Qed.

(** X19.  [formatContent] of [Home] does not escape the text: a text
    without an asterisk reaches [dangerouslySetInnerHTML] line by line
    exactly as the server sent it, markup included. *)
Theorem home_inserts_text_verbatim (text : string) :
  occurs asterisk text = false ->
  HomeText.formatContent (Some (JStr text))
  = Some (map (fun line => if (line =? "")%string then "<br/>" else line)
            (split_lines text)).
Proof.
  intros Hno. cbn [HomeText.formatContent]. f_equal.
  apply split_lines_occurs in Hno.
  induction Hno as [|line lines Hl _ IH]; [reflexivity|].
  cbn [map]. f_equal; [|exact IH].
  unfold HomeText.line_html. cbv zeta.
  change "**" with (String asterisk "*").
  now rewrite (replace_plain true asterisk "*" strong line Hl).
Qed.

(** X20.  The browser's dispatcher does not check [content]: an [agent]
    or [result] frame whose [content] is missing or not a string is
    appended to the log all the same, and [formatContent] of [Home]
    throws on that entry; on every entry whose content is a string it
    returns. *)
Theorem unrenderable_entries_are_logged (d : JSON) (s : Browser.State) :
  is_str (member "type" d) "agent" || is_str (member "type" d) "result" = true ->
  exists m,
    Browser.messages (Browser.dispatch d s) = Browser.messages s ++ [m]
    /\ Browser.content m = member "content" d
    /\ ((forall text, member "content" d <> Some (JStr text)) ->
        HomeText.formatContent (Browser.content m) = None)
    /\ (forall text, member "content" d = Some (JStr text) ->
        HomeText.formatContent (Browser.content m)
        = Some (map HomeText.line_html (split_lines text))).
Proof.
  intros Hty. unfold Browser.dispatch. cbv zeta.
  case_type d; try discriminate Hty;
    (eexists; split; [reflexivity|]; split; [reflexivity|]; cbn; split;
     [intros Hc; destruct (member "content" d) as [[]|]; try reflexivity;
      now destruct (Hc s0)
     |now intros text ->]).
Qed.

Lemma occurs_app (c : Ascii.ascii) (s t : string) :
  occurs c (s ++ t)%string = occurs c s || occurs c t.
Proof.
  induction s as [|a s IH]; [reflexivity|].
  change (occurs c (String a (s ++ t)%string)
          = occurs c (String a s) || occurs c t).
  cbn [occurs]. now rewrite IH, orb_assoc.
Qed.

Lemma escapeHtml_occurs (c : Ascii.ascii) (text : string) :
  occurs c "&amp;" = false /\ occurs c "&lt;" = false
  /\ occurs c "&gt;" = false /\ occurs c "&nbsp;" = false ->
  occurs c text = false -> occurs c (ShellText.escapeHtml text) = false.
Proof.
  intros Hamp.
  destruct Hamp as (H1 & H2 & H3 & H4).
  assert (H : forall n text, String.length text <= n ->
              occurs c text = false -> occurs c (ShellText.escapeHtml text) = false).
  { clear text. induction n as [|n IH]; intros [|a text] Hlen Hno;
      try reflexivity; cbn in Hlen; [lia|].
    cbn [occurs] in Hno. apply orb_false_iff in Hno as [Ha Hno].
    cbn [ShellText.escapeHtml].
    repeat match goal with
    | |- context [if String.prefix ?p ?t then _ else _] =>
        destruct (String.prefix p t)
    end; rewrite ?occurs_app, ?H1, ?H2, ?H3, ?H4; cbn [orb];
      try (apply IH; [lia|assumption]).
    - destruct text as [|b text]; [cbn; now rewrite Ha|].
      cbv iota beta. rewrite occurs_app, H4. cbn [orb]. cbn [occurs] in Hno.
      apply orb_false_iff in Hno as [_ Hno]. apply IH; [cbn in *; lia|exact Hno].
    - cbn [occurs]. rewrite Ha. cbn [orb]. apply IH; [lia|assumption]. }
  apply (H (String.length text)). lia.
Qed.

Lemma escapeHtml_no_angle (text : string) :
  occurs less_than (ShellText.escapeHtml text) = false
  /\ occurs greater_than (ShellText.escapeHtml text) = false.
Proof.
  assert (H : forall n text, String.length text <= n ->
              occurs less_than (ShellText.escapeHtml text) = false
              /\ occurs greater_than (ShellText.escapeHtml text) = false).
  { clear text. induction n as [|n IH]; intros [|a text] Hlen;
      try (split; reflexivity); cbn in Hlen; [lia|].
    cbn [ShellText.escapeHtml].
    destruct (String.prefix "&" (String a text)) eqn:E1.
    { rewrite !occurs_app. cbn. apply IH. lia. }
    destruct (String.prefix "<" (String a text)) eqn:E2.
    { rewrite !occurs_app. cbn. apply IH. lia. }
    destruct (String.prefix ">" (String a text)) eqn:E3.
    { rewrite !occurs_app. cbn. apply IH. lia. }
    destruct (String.prefix (bytes [194; 160]) (String a text)) eqn:E4.
    { destruct text as [|b text].
      - cbn in E4. destruct (Ascii.ascii_dec _ a); discriminate.
      - cbv iota beta. rewrite !occurs_app. cbn. apply IH. cbn in *. lia. }
    cbn [occurs].
    assert (Hlt : Ascii.eqb less_than a = false).
    { destruct (Ascii.eqb less_than a) eqn:E; [|reflexivity].
      apply Ascii.eqb_eq in E. subst a.
      change "<" with (String less_than "") in E2.
      now rewrite prefix_same_char in E2. }
    assert (Hgt : Ascii.eqb greater_than a = false).
    { destruct (Ascii.eqb greater_than a) eqn:E; [|reflexivity].
      apply Ascii.eqb_eq in E. subst a.
      change ">" with (String greater_than "") in E3.
      now rewrite prefix_same_char in E3. }
    rewrite Hlt, Hgt. cbn [orb]. apply IH. lia. }
  apply (H (String.length text)). lia.
Qed.

Lemma line_breaks_plain (s : string) :
  occurs LF s = false -> ShellText.line_breaks s = s.
Proof.
  induction s as [|a s IH]; [reflexivity|].
  cbn [occurs]. intros [Ha Hs]%orb_false_iff.
  cbn [ShellText.line_breaks]. rewrite Ascii.eqb_sym, Ha. now rewrite IH.
Qed.

(** X21.  The text [escapeHtml] of the desktop shell returns holds no
    ['<'] and no ['>'], whatever text it is given; and [formatContent]
    returns exactly [escapeHtml] of a text that holds no asterisk, no
    backtick and no line feed.  This is a property of the two functions:
    what a renderer writes without passing it through [escapeHtml], as
    [addResultMessage] does with [stepNumber] and [totalSteps], is not
    covered. *)
Theorem escaped_text_has_no_angle_bracket (content : string) :
  occurs less_than (ShellText.escapeHtml content) = false
  /\ occurs greater_than (ShellText.escapeHtml content) = false
  /\ (occurs asterisk content = false ->
      occurs backtick content = false ->
      occurs LF content = false ->
      ShellText.formatContent content = ShellText.escapeHtml content).
Proof.
  destruct (escapeHtml_no_angle content) as [Hlt Hgt].
  split; [exact Hlt|]. split; [exact Hgt|].
  intros Hstar Htick Hlf. unfold ShellText.formatContent. cbv zeta.
  apply (escapeHtml_occurs asterisk) in Hstar; [|now repeat split].
  apply (escapeHtml_occurs backtick) in Htick; [|now repeat split].
  apply (escapeHtml_occurs LF) in Hlf; [|now repeat split].
  change "**" with (String asterisk "*").
  rewrite (replace_plain true asterisk "*" strong _ Hstar).
  change "```" with (String backtick "``").
  rewrite (replace_plain false backtick "``" ShellText.code_block _ Htick).
  change "`" with (String backtick "").
  rewrite (replace_plain true backtick "" ShellText.inline_code _ Htick).
  now apply line_breaks_plain.
Qed.

(** ** Instances of the further properties *)

(** An open, and the server starting to close the connection. *)
Lemma one_live_socket_witness :
  let s := Browser.run sample_parse Browser.start
             [Browser.WsOpen 0; Browser.WsClosing 0] in
  (forall i j x y,
      Browser.sockets s !! i = Some x -> x <> CLOSED ->
      Browser.sockets s !! j = Some y -> y <> CLOSED -> i = j)
  /\ (forall ws, Browser.wsRef s = Some ws -> S ws = length (Browser.sockets s))
  /\ (forall ws, Browser.open_socket s = Some ws -> Browser.isConnected s = true)
  /\ (Browser.isConnected s = true ->
      exists ws, Browser.wsRef s = Some ws
                 /\ (Browser.readyState ws s = Some OPEN
                     \/ Browser.readyState ws s = Some CLOSING)).
Proof.
  exact (one_live_socket sample_parse
           [Browser.WsOpen 0; Browser.WsClosing 0] eq_refl).
Defined.

Example connected_flag_outlives_the_socket :
  let s := Browser.run sample_parse Browser.start
             [Browser.WsOpen 0; Browser.WsClosing 0] in
  Browser.isConnected s = true
  /\ Browser.sockets s = [CLOSING]
  /\ Browser.open_socket s = None.
Proof. vm_compute. repeat split. Qed.

Lemma retry_bookkeeping_witness :
  let s := Browser.run sample_parse Browser.start five_failures in
  Browser.reconnectAttemptsRef s <= Browser.maxReconnectAttempts
  /\ (forall h t,
        Browser.timeouts s !! h = Some t -> Browser.pending t = true ->
        Browser.reconnectTimeoutRef s = Some h
        /\ Forall (fun r => r = CLOSED) (Browser.sockets s)).
Proof.
  exact (retry_bookkeeping sample_parse five_failures eq_refl).
Defined.

Lemma cleanup_cancels_and_closes_witness :
  let s := Browser.cleanup
             (Browser.run sample_parse Browser.start
                [Browser.WsOpen 0; Browser.WsClose 0]) in
  settled (Browser.timeouts s)
  /\ Forall (fun r => r = CLOSED \/ r = CLOSING) (Browser.sockets s)
  /\ (forall h, Browser.deliver sample_parse s (Browser.TimeoutFires h) = s).
Proof.
  exact (cleanup_cancels_and_closes sample_parse
           [Browser.WsOpen 0; Browser.WsClose 0] eq_refl).
Defined.

Lemma exhausted_given_up :
  given_up (Browser.run sample_parse Browser.start exhausted).
Proof.
  split; [exists 6; vm_compute; reflexivity|].
  repeat split; try (vm_compute; reflexivity).
  vm_compute. repeat constructor.
Qed.

(** After the sixth close, a late open, a timeout and a submission. *)
Lemma giving_up_is_final_witness :
  let s := Browser.run sample_parse Browser.start exhausted in
  let s' := Browser.run sample_parse s
              [Browser.WsOpen 5; Browser.TimeoutFires 4;
               Browser.Type_ "ls"; Browser.Submit] in
  given_up s'
  /\ Browser.sockets s' = Browser.sockets s
  /\ Browser.timeouts s' = Browser.timeouts s
  /\ Browser.sent s' = Browser.sent s.
Proof.
  exact (giving_up_is_final sample_parse
           (Browser.run sample_parse Browser.start exhausted)
           [Browser.WsOpen 5; Browser.TimeoutFires 4;
            Browser.Type_ "ls"; Browser.Submit]
           exhausted_given_up eq_refl).
Defined.

Lemma enabled_submit_sends_or_notifies_witness :
  let s := Browser.run sample_parse Browser.start
             [Browser.WsOpen 0; Browser.Type_ " ls "] in
  exists ws,
    Browser.wsRef s = Some ws
    /\ ((Browser.readyState ws s = Some OPEN
         /\ Browser.handleSubmit s
            = Browser.setInput ""
                (Browser.ws_send ws (prompt_frame (trim (Browser.input s)))
                   (Browser.addMessage
                      (Browser.note Browser.user (trim (Browser.input s))) s)))
        \/ (Browser.readyState ws s = Some CLOSING
            /\ Browser.handleSubmit s
               = Browser.setInput ""
                   (Browser.addMessage Browser.not_connected s))).
Proof.
  exact (enabled_submit_sends_or_notifies sample_parse
           [Browser.WsOpen 0; Browser.Type_ " ls "] eq_refl eq_refl).
Defined.

Example open_socket_submission :
  let s := Browser.run sample_parse Browser.start
             [Browser.WsOpen 0; Browser.Type_ " ls "] in
  Home.submitDisabled s = false
  /\ Browser.sent (Browser.handleSubmit s) = [(0, prompt_frame "ls")]
  /\ Browser.input (Browser.handleSubmit s) = "".
Proof. vm_compute. repeat split. Qed.

Example closing_socket_submission :
  let s := Browser.run sample_parse Browser.start
             [Browser.WsOpen 0; Browser.Type_ " ls "; Browser.WsClosing 0] in
  Home.submitDisabled s = false
  /\ Browser.sent (Browser.handleSubmit s) = []
  /\ Browser.messages (Browser.handleSubmit s) = [Browser.not_connected]
  /\ Browser.input (Browser.handleSubmit s) = "".
Proof. vm_compute. repeat split. Qed.

(** White space that is not ASCII: U+00A0 alone, and around a text with
    U+3000 and U+FEFF. *)
Example trim_removes_unicode_space :
  trim (bytes [194; 160]) = ""
  /\ blank (bytes [194; 160; 32; 227; 128; 128]) = true
  /\ trim (bytes [194; 160] ++ "ls" ++ bytes [227; 128; 128; 239; 187; 191])
     = "ls"
  /\ trim (" a" ++ bytes [226; 128; 168] ++ "b" ++ bytes [10]) 
     = ("a" ++ bytes [226; 128; 168] ++ "b")%string.
Proof. vm_compute. repeat split. Qed.

Example unicode_space_is_trimmed :
  let text := (bytes [194; 160] ++ "ls" ++ bytes [227; 128; 128])%string in
  Browser.sent
    (Browser.run sample_parse Browser.start
       [Browser.WsOpen 0; Browser.Type_ text; Browser.Submit])
  = [(0, prompt_frame "ls")]
  /\ Electron.sent
       (Electron.run sample_parse Electron.init
          [Electron.WsOpen 0; Electron.Type_ text; Electron.Send])
     = [(0, task_frame "ls")].
Proof. vm_compute. repeat split. Qed.

Example unicode_space_is_not_submitted :
  let s := Browser.run sample_parse Browser.start
             [Browser.WsOpen 0; Browser.Type_ (bytes [194; 160])] in
  let se := Electron.run sample_parse Electron.init
              [Electron.WsOpen 0; Electron.Type_ (bytes [194; 160])] in
  Home.submitDisabled s = true
  /\ Browser.handleSubmit s = s
  /\ Electron.sendMessage se = se.
Proof. vm_compute. repeat split. Qed.

(** A space, U+00A0 and a tab in the input. *)
Lemma blank_input_is_not_submitted_witness :
  Browser.handleSubmit (Browser.setInput (bytes [32; 194; 160; 9]) Browser.start)
  = Browser.setInput (bytes [32; 194; 160; 9]) Browser.start
  /\ Electron.sendMessage
       (Electron.set_messageInput (bytes [32; 194; 160; 9]) Electron.init)
     = Electron.set_messageInput (bytes [32; 194; 160; 9]) Electron.init.
Proof.
  exact (conj
           (proj1 blank_input_is_not_submitted
              (Browser.setInput (bytes [32; 194; 160; 9]) Browser.start) eq_refl)
           (proj2 blank_input_is_not_submitted
              (Electron.set_messageInput (bytes [32; 194; 160; 9]) Electron.init)
              eq_refl)).
Defined.

Lemma ls_not_empty : trim "ls" <> "".
Proof. intros H. cbv in H. discriminate H. Qed.

(** Typed after the effect has run again (the first socket closing, the
    second still connecting, [isConnected] still true, so the button is
    enabled), and typed while the agent is paused. *)
Lemma disconnected_submit_loses_the_text_witness :
  let s := Browser.run sample_parse Browser.start remounted in
  let busy := Browser.setStatus (Some (JStr "paused")) s in
  (Browser.input (Browser.handleSubmit s) = ""
   /\ Browser.sent (Browser.handleSubmit s) = Browser.sent s
   /\ Browser.messages (Browser.handleSubmit s)
      = Browser.messages s ++ [Browser.not_connected])
  /\ Browser.input (Browser.handleSubmit busy) = Browser.input busy.
Proof.
  exact (conj
           (proj1 (disconnected_submit_loses_the_text
                     (Browser.run sample_parse Browser.start remounted))
              eq_refl ls_not_empty eq_refl)
           (proj2 (disconnected_submit_loses_the_text
                     (Browser.setStatus (Some (JStr "paused"))
                        (Browser.run sample_parse Browser.start remounted)))
              eq_refl)).
Defined.

Example enabled_button_loses_the_text :
  let s := Browser.run sample_parse Browser.start remounted in
  Home.submitDisabled s = false
  /\ Browser.input s = "ls"
  /\ Browser.input (Browser.handleSubmit s) = ""
  /\ Browser.sent (Browser.handleSubmit s) = [].
Proof. vm_compute. repeat split. Qed.

Lemma no_clear :
  Forall (fun e => e <> Browser.ClearMessages)
    [Browser.WsOpen 0; Browser.WsMessage 0 agent_hello; Browser.WsClose 0].
Proof. repeat constructor; discriminate. Qed.

Lemma browser_log_is_append_only_witness :
  Browser.messages Browser.start
  `prefix_of` Browser.messages
                (Browser.run sample_parse Browser.start
                   [Browser.WsOpen 0; Browser.WsMessage 0 agent_hello;
                    Browser.WsClose 0]).
Proof.
  exact (proj2 (browser_log_is_append_only sample_parse)
           [Browser.WsOpen 0; Browser.WsMessage 0 agent_hello;
            Browser.WsClose 0]
           Browser.start no_clear).
Defined.

(** Two closes, the first interval coming due in between: two intervals
    are running. *)
Lemma reconnect_intervals_pile_up_witness :
  let s := Electron.run sample_parse Electron.init
             [Electron.WsClose 0; Electron.IntervalFires 1;
              Electron.WsClose 1] in
  length (running s) = electron_closes s.
Proof.
  exact (proj1 (reconnect_intervals_pile_up sample_parse)
           [Electron.WsClose 0; Electron.IntervalFires 1;
            Electron.WsClose 1] eq_refl).
Defined.

Lemma tick_session_intervals :
  S 1 < length (Electron.intervals
                  (Electron.run sample_parse Electron.init tick_session)).
Proof. vm_compute. lia. Qed.

(** The interval of the first failure survives the open that follows the
    second failure. *)
Lemma older_intervals_are_never_cancelled_witness :
  let s := Electron.run sample_parse Electron.init tick_session in
  Electron.intervals
    (Electron.run sample_parse s [Electron.WsOpen 2; Electron.WsClose 2]) !! 1
  = Some {| Electron.period := 3000; Electron.callback := Electron.Reconnect;
            Electron.active := true |}.
Proof.
  exact (older_intervals_are_never_cancelled sample_parse tick_session
           [Electron.WsOpen 2; Electron.WsClose 2] 1
           {| Electron.period := 3000; Electron.callback := Electron.Reconnect;
              Electron.active := true |}
           eq_refl tick_session_intervals).
Defined.

(** The surviving interval comes due while the third socket is OPEN. *)
Lemma reconnect_tick_replaces_the_socket_witness :
  let s := Electron.run sample_parse Electron.init
             (tick_session ++ [Electron.WsOpen 2]) in
  let s' := Electron.deliver sample_parse s (Electron.IntervalFires 1) in
  Electron.sockets s' = Electron.sockets s ++ [CONNECTING]
  /\ Electron.ws s' = Some (length (Electron.sockets s))
  /\ Electron.open_socket s' = None
  /\ Electron.sendMessage s' = s'
  /\ Electron.heartbeat s' = s'.
Proof.
  exact (reconnect_tick_replaces_the_socket sample_parse
           (Electron.run sample_parse Electron.init
              (tick_session ++ [Electron.WsOpen 2]))
           1
           {| Electron.period := 3000; Electron.callback := Electron.Reconnect;
              Electron.active := true |}
           eq_refl eq_refl eq_refl).
Defined.

Example open_socket_is_replaced :
  let s := Electron.run sample_parse Electron.init
             (tick_session ++ [Electron.WsOpen 2]) in
  Electron.open_socket s = Some 2
  /\ Electron.statusText s = "Connected"
  /\ Electron.open_socket
       (Electron.deliver sample_parse s (Electron.IntervalFires 1)) = None.
Proof. vm_compute. repeat split. Qed.

(** A paused agent, the connection lost and restored, two submissions. *)
Lemma busy_form_sends_nothing_witness :
  let s := Browser.run sample_parse Browser.start
             [Browser.WsOpen 0; Browser.WsMessage 0 status_paused] in
  let events := [Browser.Type_ "ls"; Browser.Submit; Browser.WsClose 0;
                 Browser.TimeoutFires 0; Browser.WsOpen 1;
                 Browser.WsMessage 1 agent_hello; Browser.Submit] in
  Browser.sent (Browser.run sample_parse s events) = Browser.sent s
  /\ Browser.status (Browser.run sample_parse s events) = Browser.status s.
Proof.
  exact (busy_form_sends_nothing sample_parse
           (Browser.run sample_parse Browser.start
              [Browser.WsOpen 0; Browser.WsMessage 0 status_paused])
           [Browser.Type_ "ls"; Browser.Submit; Browser.WsClose 0;
            Browser.TimeoutFires 0; Browser.WsOpen 1;
            Browser.WsMessage 1 agent_hello; Browser.Submit]
           eq_refl eq_refl).
Defined.

Lemma home_inserts_text_verbatim_witness :
  HomeText.formatContent (Some (JStr markup))
  = Some (map (fun line => if (line =? "")%string then "<br/>" else line)
            (split_lines markup)).
Proof.
  exact (home_inserts_text_verbatim markup eq_refl).
Defined.

Example markup_reaches_the_page :
  HomeText.formatContent (Some (JStr markup)) = Some [markup].
Proof. vm_compute. reflexivity. Qed.

(** An [agent] frame without [content]. *)
Lemma unrenderable_entries_are_logged_witness :
  exists m,
    Browser.messages (Browser.dispatch (frame "agent" []) Browser.start)
    = Browser.messages Browser.start ++ [m]
    /\ Browser.content m = member "content" (frame "agent" [])
    /\ ((forall text, member "content" (frame "agent" []) <> Some (JStr text)) ->
        HomeText.formatContent (Browser.content m) = None)
    /\ (forall text, member "content" (frame "agent" []) = Some (JStr text) ->
        HomeText.formatContent (Browser.content m)
        = Some (map HomeText.line_html (split_lines text))).
Proof.
  exact (unrenderable_entries_are_logged (frame "agent" []) Browser.start
           eq_refl).
Defined.

Lemma escaped_text_has_no_angle_bracket_witness :
  occurs less_than (ShellText.escapeHtml markup) = false
  /\ occurs greater_than (ShellText.escapeHtml markup) = false
  /\ ShellText.formatContent markup = ShellText.escapeHtml markup.
Proof.
  destruct (escaped_text_has_no_angle_bracket markup) as (H1 & H2 & H3).
  exact (conj H1 (conj H2 (H3 eq_refl eq_refl eq_refl))).
Defined.

Example markup_is_escaped :
  ShellText.formatContent markup = "&lt;img src=x onerror=alert(1)&gt;".
Proof. vm_compute. reflexivity. Qed.

Example bold_and_code :
  ShellText.formatContent "**a** `b`"
  = ("<strong>a</strong> " ++ ShellText.inline_code "b")%string
  /\ HomeText.formatContent (Some (JStr "***x** **y"))
     = Some ["<strong>*x</strong> **y"].
Proof. split; vm_compute; reflexivity. Qed.
